(** * HW-PiCollector: the edge resampler and the central sync engine

    A shallow embedding of [collect_homewizard_data.py], [py_to_cassandra.py],
    [sync_homewizard.py], [utils.py] and [config.py], and the properties of
    the specification checked against it, followed by further properties of
    the code.

    Conventions of the embedding.
    - A [pd.Timestamp] is its number of nanoseconds since the epoch, a [Z].
    - A float is an element of an arbitrary carrier [F] with the operations
      the code uses ([Float]); a NaN / null cell is [None].
    - Python exceptions are values of [exn]; a function that can raise returns
      a [result].
    - Code that talks to the Cassandra session or to the log runs in the
      monad [M], which threads a [state] (the trace of observable calls and
      the contents of the [last_ts] table) and may raise. Warnings are in
      the trace; info and debug messages are not. *)

From Stdlib Require Import ZArith QArith Lia Sorted Ascii.
From stdpp Require Import base option list strings pretty gmap sorting.

Local Open Scope Z_scope.

(** ** Python results *)

Inductive exn : Set :=
| UnboundLocalError
| TypeError
| AttributeError
| ValueError
| ZeroDivisionError
| SSHException.

Inductive result (A : Type) : Type :=
| Ok (a : A)
| Raise (e : exn).
Arguments Ok {A} a.
Arguments Raise {A} e.

Definition rbind {A B} (r : result A) (k : A → result B) : result B :=
  match r with
  | Ok a => k a
  | Raise e => Raise e
  end.

(** ** Floats

    The arithmetic the code performs on readings: [* -1], [+], the mean of a
    group ([sum / count]) and the integer literal [0]. Every theorem below
    holds for any carrier with these operations; [f_sub_neg] is the one law
    used (adding a negated value is subtracting it), which IEEE doubles and
    the rationals both satisfy. *)

Class Float (F : Type) := {
  f_zero : F;
  f_neg_one : F;
  f_mul : F → F → F;
  f_add : F → F → F;
  f_sub : F → F → F;
  f_div : F → F → F;
  f_of_nat : nat → F;
  f_sub_neg : ∀ x y, f_add x (f_mul y f_neg_one) = f_sub x y
}.

(** ** config.py *)

Definition ns_per_s : Z := 1000000000.
Definition ns_per_day : Z := 86400 * ns_per_s.

(** [FROM_FIRST_TS = 4], used as [pd.Timedelta(days=FROM_FIRST_TS)]. *)
Definition FROM_FIRST_TS : Z := 4.
(** [pd.Timestamp(OLDEST_TS)] with [OLDEST_TS = "1970-01-01"]. *)
Definition OLDEST_TS : Z := 0.
Definition INSERTS_PER_BATCH : Z := 43200.
Definition CASSANDRA_KEYSPACE : string := "test".
Definition TBL_ACCESS : string := "access".
Definition TBL_POWER : string := "power".
Definition TBL_RAW_P1 : string := "raw_p1".
Definition TBL_RAW_PV : string := "raw_pv".
Definition TBL_LAST_TS : string := "last_ts".
Definition DATA_DIR : string := "/opt/coomep/data".

(** ** py_to_cassandra.py: rendering of values and statements *)

(** The Python values that reach the query builders. [PFloat None] is NaN. *)
#[local] Unset Elimination Schemes.
Inductive pyval (F : Type) : Type :=
| PStr (s : string)
| PList (l : list (pyval F))
| PTimestamp (t : Z)
| PFloat (x : option F)
| PInt (n : Z)
| PBool (b : bool).
#[local] Set Elimination Schemes.
Arguments PStr {F} s.
Arguments PList {F} l.
Arguments PTimestamp {F} t.
Arguments PFloat {F} x.
Arguments PInt {F} n.
Arguments PBool {F} b.

(** [s[:-1]] *)
Fixpoint drop_last (s : string) : string :=
  match s with
  | EmptyString => EmptyString
  | String c EmptyString => EmptyString
  | String c s' => String c (drop_last s')
  end.

(** [sep.join(l)] *)
Definition join (sep : string) (l : list string) : string := String.concat sep l.

Section Rendering.
Context {F : Type}.

(** The inner loop of [get_right_format],
    [for v in val: _list += "'" + v + "',"].
    [v] is a local of the whole function: it stays bound to the last
    element after the loop, and stays what it was when [val] is empty.
    Concatenating a non-string to a string raises [TypeError]. *)
Fixpoint quote_elements (val : list (pyval F)) (_list : string) (v : option string)
  : result (string * option string) :=
  match val with
  | [] => Ok (_list, v)
  | PStr s :: val' => quote_elements val' (_list +:+ "'" +:+ s +:+ "',") (Some s)
  | _ :: _ => Raise TypeError
  end.

(** The loop [for val in values] of [get_right_format]; [res] is the list
    built so far and [v] the current binding of the local [v] ([None] while
    it is unbound). The last two branches read [v], not [val], as the
    source does: [v.isoformat()] on an unbound [v] raises
    [UnboundLocalError] and on a string raises [AttributeError]; [str(v)]
    of a string is that string. *)
Fixpoint get_right_format_loop (values : list (pyval F)) (res : list string)
    (v : option string) : result (list string) :=
  match values with
  | [] => Ok res
  | val :: values' =>
      match val with
      | PStr s => get_right_format_loop values' (res ++ ["'" +:+ s +:+ "'"]) v
      | PList l =>
          match quote_elements l "[" v with
          | Ok (_list, v') =>
              get_right_format_loop values' (res ++ [drop_last _list +:+ "]"]) v'
          | Raise e => Raise e
          end
      | PTimestamp _ =>
          match v with
          | None => Raise UnboundLocalError
          | Some _ => Raise AttributeError
          end
      | PFloat _ | PInt _ | PBool _ =>
          match v with
          | None => Raise UnboundLocalError
          | Some s => get_right_format_loop values' (res ++ [s]) v
          end
      end
  end.

Definition get_right_format (values : list (pyval F)) : result (list string) :=
  get_right_format_loop values [] None.

Definition get_insert_query (keyspace table : string) (columns : list string)
    (values : list (pyval F)) : result string :=
  rbind (get_right_format values) (λ formatted,
    Ok ("INSERT INTO " +:+ keyspace +:+ "." +:+ table +:+ " (" +:+ join "," columns
        +:+ ") VALUES (" +:+ join "," formatted +:+ ");")).
End Rendering.

(** [get_ordering]; the dict is its list of items in insertion order. *)
Definition get_ordering (ordering : list (string * string)) : string :=
  match ordering with
  | [] => EmptyString
  | _ =>
      drop_last
        (fold_left (λ res '(col_name, ordering_type), res +:+ col_name +:+ " " +:+ ordering_type +:+ ",")
           ordering "WITH CLUSTERING ORDER BY (")
      +:+ ")"
  end.

(** The query text built by [create_table]. *)
Definition create_table_query (keyspace table_name : string) (columns primary_keys
    clustering_keys : list string) (ordering : list (string * string)) : string :=
  "CREATE TABLE IF NOT EXISTS " +:+ keyspace +:+ "." +:+ table_name +:+ " "
  +:+ "(" +:+ join "," columns +:+ ", "
  +:+ "PRIMARY KEY ((" +:+ join "," primary_keys
  +:+ (match clustering_keys with
       | [] => EmptyString
       | _ => "," +:+ join "," clustering_keys
       end) +:+ "))"
  +:+ get_ordering ordering +:+ ");".

(** ** The session and the log: traces of observable calls *)

(** What [SESSION.execute] is given. An [UPDATE] is kept structured: its text
    embeds [str(val)] of each value. *)
Inductive query (F : Type) : Type :=
| QText (text : string)
| QBatch (queries : list string)
| QUpdate (table : string) (columns : list string) (values : list (pyval F))
    (where_clause : string).
Arguments QText {F} text.
Arguments QBatch {F} queries.
Arguments QUpdate {F} table columns values where_clause.

(** The text of a batch, as [batch_insert_query] builds it. *)
Definition batch_query (queries : list string) : string :=
  "BEGIN BATCH " +:+ join " " queries +:+ " APPLY BATCH;".

Inductive event (F : Type) : Type :=
| EvWarning (msg : string)
    (** [logging.warning(msg, ...)] *)
| EvLoad (table : string) (columns : list string) (rows : list (list (pyval F)))
    (** a call [ptc.batch_insert_query(keyspace, table, df)]: the frame's
        columns and the values of each of its rows *)
| EvExecute (q : query F)
    (** [SESSION.execute(q)] *).
Arguments EvWarning {F} msg.
Arguments EvLoad {F} table columns rows.
Arguments EvExecute {F} q.

Record state (F : Type) : Type := mkState {
  trace : list (event F);
  last_ts_table : gmap string Z
}.
Arguments mkState {F} trace last_ts_table.
Arguments trace {F} s.
Arguments last_ts_table {F} s.

Definition M (F A : Type) : Type := state F → result A * state F.

Section Monad.
Context {F : Type}.

Definition ret {A} (a : A) : M F A := λ st, (Ok a, st).
Definition raise {A} (e : exn) : M F A := λ st, (Raise e, st).
Definition bind {A B} (m : M F A) (k : A → M F B) : M F B :=
  λ st, match m st with
        | (Ok a, st') => k a st'
        | (Raise e, st') => (Raise e, st')
        end.
Definition lift {A} (r : result A) : M F A := λ st, (r, st).
Definition emit (ev : event F) : M F unit :=
  λ st, (Ok tt, mkState (trace st ++ [ev]) (last_ts_table st)).
(** The store's reaction to a write of the watermark row of [home_id]. *)
Definition store_last_ts (home_id : string) (t : Z) : M F unit :=
  λ st, (Ok tt, mkState (trace st) (<[home_id := t]> (last_ts_table st))).

(** [for x in l: body(x)] *)
Fixpoint for_each {A} (l : list A) (body : A → M F unit) : M F unit :=
  match l with
  | [] => ret tt
  | x :: l' => bind (body x) (λ _, for_each l' body)
  end.
End Monad.

Notation "'let*' x ':=' m 'in' k" := (bind m (λ x, k))
  (at level 10, x pattern, m at level 100, k at level 200, only parsing).
Notation "'do*' m 'in' k" := (bind m (λ _, k))
  (at level 10, m at level 100, k at level 200, only parsing).

(** ** py_to_cassandra.py: statements sent to the session *)

Section Session.
Context {F : Type}.

Definition execute (q : query F) : M F unit := emit (EvExecute q).

Definition insert_query (keyspace table : string) (columns : list string)
    (values : list (pyval F)) : M F unit :=
  let* query := lift (get_insert_query keyspace table columns values) in
  execute (QText query).

Definition update_query (keyspace table_name : string) (columns : list string)
    (values : list (pyval F)) (where_clause : string) : M F unit :=
  execute (QUpdate table_name columns values where_clause).

(** The loop [for i in range(len(df))] of [batch_insert_query] from row [i]
    on, with [n] for [INSERTS_PER_BATCH]; it returns the statements still
    pending after the last row. [(i + 1) % 0] raises. *)
Fixpoint batch_insert_loop (n : Z) (keyspace table : string) (columns : list string)
    (rows : list (list (pyval F))) (i : Z) (queries : list string)
  : M F (list string) :=
  match rows with
  | [] => ret queries
  | row :: rows' =>
      let* q := lift (get_insert_query keyspace table columns row) in
      let queries := (queries ++ [q])%list in
      if n =? 0 then raise ZeroDivisionError
      else if (i + 1) mod n =? 0 then
        do* execute (QBatch queries) in
        batch_insert_loop n keyspace table columns rows' (i + 1) []
      else batch_insert_loop n keyspace table columns rows' (i + 1) queries
  end.

(** The end of [batch_insert_query]: [if queries:] execute them as a last
    batch. *)
Definition flush (queries : list string) : M F unit :=
  match queries with
  | [] => ret tt
  | _ => execute (QBatch queries)
  end.

(** [batch_insert_query] for a maximum batch size [n]; the frame is given
    by its columns and the values of its rows ([df.iloc[i].values]). The
    call itself is recorded in the trace. *)
Definition batch_insert_query_n (n : Z) (keyspace table : string)
    (columns : list string) (rows : list (list (pyval F))) : M F unit :=
  do* emit (EvLoad table columns rows) in
  let* queries := batch_insert_loop n keyspace table columns rows 0 [] in
  flush queries.

Definition batch_insert_query : string → string → list string →
    list (list (pyval F)) → M F unit :=
  batch_insert_query_n INSERTS_PER_BATCH.
End Session.

(** ** Calendar fields of a timestamp *)

Definition floor_s (t : Z) : Z := t / ns_per_s * ns_per_s.

(** [date.year, date.month, date.day] (proleptic Gregorian calendar, from the
    number of days since 1970-01-01). *)
Definition civil_from_days (z0 : Z) : Z * Z * Z :=
  let z := z0 + 719468 in
  let era := z / 146097 in
  let doe := z - era * 146097 in
  let yoe := (doe - doe / 1460 + doe / 36524 - doe / 146096) / 365 in
  let doy := doe - (365 * yoe + yoe / 4 - yoe / 100) in
  let mp := (5 * doy + 2) / 153 in
  let d := doy - (153 * mp + 2) / 5 + 1 in
  let m := if mp <? 10 then mp + 3 else mp - 9 in
  (if m <=? 2 then yoe + era * 400 + 1 else yoe + era * 400, m, d).

Definition ymd (date : Z) : Z * Z * Z := civil_from_days (date / ns_per_day).

(** [f"{n:02}"] *)
Definition pad2 (n : Z) : string :=
  if (0 <=? n) && (n <? 10) then "0" +:+ pretty n else pretty n.

(** [pd.date_range(start, end, freq=step)]: [start], [start + step], ... up to
    [end] included. *)
Definition date_range (start_date end_date step : Z) : list Z :=
  (λ k, start_date + k * step) <$> seqZ 0 ((end_date - start_date) / step + 1).

(** ** sync_homewizard.py: tables *)

Definition raw_p1_columns : list string :=
  ["home_id TEXT"; "day TEXT"; "timestamp TIMESTAMP"; "total_power_import_kwh FLOAT";
   "total_power_export_kwh FLOAT"; "active_power_w FLOAT"; "active_power_l1_w FLOAT";
   "active_power_l2_w FLOAT"; "active_power_l3_w FLOAT"; "active_voltage_v FLOAT";
   "active_voltage_l1_v FLOAT"; "active_voltage_l2_v FLOAT"; "active_voltage_l3_v FLOAT";
   "active_current_a FLOAT"; "active_current_l1_a FLOAT"; "active_current_l2_a FLOAT";
   "active_current_l3_a FLOAT"]%string.

Definition raw_pv_columns : list string :=
  ["home_id TEXT"; "day TEXT"; "timestamp TIMESTAMP"; "total_power_import_kwh FLOAT";
   "total_power_export_kwh FLOAT"; "active_power_w FLOAT"; "active_power_l1_w FLOAT";
   "active_power_l2_w FLOAT"; "active_power_l3_w FLOAT"; "active_voltage_l1_v FLOAT";
   "active_voltage_l2_v FLOAT"; "active_voltage_l3_v FLOAT"; "active_current_l1_a FLOAT";
   "active_current_l2_a FLOAT"; "active_current_l3_a FLOAT"]%string.

Definition power_table_columns : list string :=
  ["home_id TEXT"; "day TEXT"; "timestamp TIMESTAMP"; "p_cons FLOAT"; "p_prod FLOAT";
   "p_tot FLOAT"]%string.

Definition day_timestamp_asc : list (string * string) :=
  [("day", "ASC"); ("timestamp", "ASC")]%string.

(** The statements [create_tables] executes, in order: access, raw_p1,
    raw_pv, last_ts, power. *)
Definition create_tables : list string :=
  [ create_table_query CASSANDRA_KEYSPACE TBL_ACCESS
      ["home_id TEXT"; "pwd TEXT"; "has_pv BOOLEAN"; "installations LIST<TEXT>"]%string
      ["home_id"%string] [] [];
    create_table_query CASSANDRA_KEYSPACE TBL_RAW_P1 raw_p1_columns
      ["home_id"%string] ["day"; "timestamp"]%string day_timestamp_asc;
    create_table_query CASSANDRA_KEYSPACE TBL_RAW_PV raw_pv_columns
      ["home_id"%string] ["day"; "timestamp"]%string day_timestamp_asc;
    create_table_query CASSANDRA_KEYSPACE TBL_LAST_TS
      ["home_id TEXT"; "timestamp TIMESTAMP"]%string ["home_id"%string] [] [];
    create_table_query CASSANDRA_KEYSPACE TBL_POWER power_table_columns
      ["home_id"%string] ["day"; "timestamp"]%string day_timestamp_asc ].

(** ** sync_homewizard.py: frames *)

(** One line of a day file: its timestamp, its [active_power_w] cell and the
    values of the file's other columns. [pd.read_csv] is called without
    [parse_dates], so the timestamp cell is a string; it is given here by the
    instant it denotes. The code compares it once, with a [pd.Timestamp]
    ([timestamps_ge] below), and otherwise only carries it. *)
Record csv_row (F : Type) : Type := CsvRow {
  timestamp : Z;
  active_power_w : option F;
  other_values : list (pyval F)
}.
Arguments CsvRow {F} timestamp active_power_w other_values.
Arguments timestamp {F} c.
Arguments active_power_w {F} c.
Arguments other_values {F} c.

Record csv_file (F : Type) : Type := CsvFile {
  other_columns : list string;
  csv_rows : list (csv_row F)
}.
Arguments CsvFile {F} other_columns csv_rows.
Arguments other_columns {F} c.
Arguments csv_rows {F} c.

(** What the SFTP session shows of a site: the files by path, and the
    timestamps [get_available_dates] builds from the directory listing (one
    for each csv file). *)
Record remote (F : Type) : Type := Remote {
  remote_files : gmap string (csv_file F);
  get_available_dates : list Z
}.
Arguments Remote {F} remote_files get_available_dates.
Arguments remote_files {F} r.
Arguments get_available_dates {F} r.

(** A DataFrame: its rows in order, each with its index label. *)
Abbreviation frame A := (list (nat * A)%type) (only parsing).

(** A row of the frame [sync_files] loads and returns: the line of the file
    with the [home_id] and [day] columns the function adds. *)
Record raw_row (F : Type) : Type := RawRow {
  raw_line : csv_row F;
  raw_home_id : string;
  raw_day : string
}.
Arguments RawRow {F} raw_line raw_home_id raw_day.
Arguments raw_line {F} r.
Arguments raw_home_id {F} r.
Arguments raw_day {F} r.

(** A row of [final_df]. *)
Record power_row (F : Type) : Type := PowerRow {
  p_home_id : string;
  p_day : string;
  p_timestamp : Z;
  p_cons : option F;
  p_prod : option F;
  p_tot : option F
}.
Arguments PowerRow {F} p_home_id p_day p_timestamp p_cons p_prod p_tot.
Arguments p_home_id {F} p.
Arguments p_day {F} p.
Arguments p_timestamp {F} p.
Arguments p_cons {F} p.
Arguments p_prod {F} p.
Arguments p_tot {F} p.

(** Selection by label, [series.loc[label]] on a unique index. *)
Fixpoint loc {A} (df : frame A) (label : nat) : option A :=
  match df with
  | [] => None
  | (i, a) :: df' => if decide (i = label) then Some a else loc df' label
  end.

Section Frames.
Context {F : Type} `{Float F}.

(** [pd.read_csv]: the lines under a fresh [RangeIndex]. *)
Definition read_csv (file : csv_file F) : frame (csv_row F) :=
  imap (λ i line, (i, line)) (csv_rows file).

Definition raw_columns (file : csv_file F) : list string :=
  ("timestamp" :: "active_power_w" :: other_columns file ++ ["home_id"; "day"])%string.

Definition raw_values (r : raw_row F) : list (pyval F) :=
  PTimestamp (timestamp (raw_line r)) :: PFloat (active_power_w (raw_line r))
  :: other_values (raw_line r) ++ [PStr (raw_home_id r); PStr (raw_day r)].

Definition power_columns : list string :=
  ["home_id"; "day"; "timestamp"; "p_cons"; "p_prod"; "p_tot"]%string.

Definition power_values (p : power_row F) : list (pyval F) :=
  [PStr (p_home_id p); PStr (p_day p); PTimestamp (p_timestamp p);
   PFloat (p_cons p); PFloat (p_prod p); PFloat (p_tot p)].

(** [series * -1] on one cell: NaN stays NaN. *)
Definition times_neg_one (x : option F) : option F :=
  (λ v, f_mul v f_neg_one) <$> x.

(** [a + b] on one cell: NaN if either is. *)
Definition plus (a b : option F) : option F :=
  match a, b with
  | Some x, Some y => Some (f_add x y)
  | _, _ => None
  end.

(** [final_df = pd.DataFrame({...})] of [sync_dates]: the index is [p1]'s. *)
Definition final_df (home_id : string) (p1 : frame (raw_row F)) : frame (power_row F) :=
  (λ '(i, r), (i, PowerRow home_id (raw_day r) (timestamp (raw_line r))
                   (active_power_w (raw_line r)) (Some f_zero)
                   (active_power_w (raw_line r)))) <$> p1.

(** The two assignments under [if has_pv]:
    [final_df["p_prod"] = pv["active_power_w"] * -1] aligns the series on
    the index labels of [final_df] (a label [pv] lacks gives NaN), then
    [final_df["p_tot"] = final_df["p_cons"] + final_df["p_prod"]]. *)
Definition final_df_pv (final : frame (power_row F)) (pv : frame (raw_row F))
  : frame (power_row F) :=
  (λ '(i, p),
     let prod := r ← loc pv i; times_neg_one (active_power_w (raw_line r)) in
     (i, PowerRow (p_home_id p) (p_day p) (p_timestamp p) (p_cons p) prod
           (plus (p_cons p) prod))) <$> final.
End Frames.

(** ** sync_homewizard.py: names of the day files *)

(** [f"{year}_{month:02}_{day:02}_{home_id}_{data_type}.csv"] *)
Definition day_filename (home_id : string) (date : Z) (data_type : string) : string :=
  let '(year, month, day) := ymd date in
  pretty year +:+ "_" +:+ pad2 month +:+ "_" +:+ pad2 day +:+ "_" +:+ home_id
  +:+ "_" +:+ data_type +:+ ".csv".

(** [f"{DATA_DIR}/{year}/{month}/{filename}"] *)
Definition day_path (date : Z) (filename : string) : string :=
  let '(year, month, day) := ymd date in
  DATA_DIR +:+ "/" +:+ pretty year +:+ "/" +:+ pretty month +:+ "/" +:+ filename.

(** [f"{year}-{month}-{day}"], the value of the [day] column *)
Definition day_column (date : Z) : string :=
  let '(year, month, day) := ymd date in
  pretty year +:+ "-" +:+ pretty month +:+ "-" +:+ pretty day.

Definition missing_file_warning (filename home_id : string) : string :=
  "Exception occurred in 'sync_files', the file " +:+ filename
  +:+ " does not exist for the home_id " +:+ home_id +:+ ": ".

(** ** sync_homewizard.py: the sync pass of one site *)

Section Sync.
Context {F : Type} `{Float F}.

Definition check_last_ts (home_id : string) (new_ts : Z) (last_ts : option Z)
  : M F unit :=
  match last_ts with
  | Some last =>
      if last <? new_ts then
        do* update_query CASSANDRA_KEYSPACE TBL_LAST_TS ["timestamp"%string]
              [PTimestamp (floor_s new_ts)] ("home_id = '" +:+ home_id +:+ "'") in
        store_last_ts home_id (floor_s new_ts)
      else ret tt
  | None =>
      do* insert_query CASSANDRA_KEYSPACE TBL_LAST_TS ["home_id"; "timestamp"]%string
            [PStr home_id; PTimestamp (floor_s new_ts)] in
      store_last_ts home_id (floor_s new_ts)
  end.

(** [df['timestamp'] >= date]: the column holds strings and [date] is a
    [pd.Timestamp]; comparing the first cell raises. A column without cell
    gives the empty mask. *)
Definition timestamps_ge (df : frame (raw_row F)) (date : Z) : result (list bool) :=
  match df with
  | [] => Ok []
  | _ :: _ => Raise TypeError
  end.

(** [df[mask]]: the rows whose entry in the mask is true, with their
    labels. *)
Definition select (df : frame (raw_row F)) (mask : list bool) : frame (raw_row F) :=
  omap (λ '(x, keep), if keep : bool then Some x else None) (zip df mask).

(** The frame [sync_files] builds from a fetched file: [pd.read_csv], the
    [home_id] and [day] columns, and under [classic_sync] the selection
    [df[df['timestamp'] >= date]]. *)
Definition day_frame (home_id : string) (date : Z) (classic_sync : bool)
    (file : csv_file F) : result (frame (raw_row F)) :=
  let df : frame (raw_row F) :=
    (λ '(i, line), (i, RawRow line home_id (day_column date))) <$> read_csv file in
  if classic_sync then rbind (timestamps_ge df date) (λ mask, Ok (select df mask))
  else Ok df.

(** [sync_files]. When [sftp.stat] finds no file the handler logs the
    warning and control reaches [return df] with [df] never assigned. The
    handler catches [FileNotFoundError] only: the [TypeError] of the
    comparison leaves the function. The temporary local copy of the file is
    not modelled. *)
Definition sync_files (sftp : remote F) (home_id : string) (date : Z)
    (data_type table : string) (classic_sync : bool) : M F (frame (raw_row F)) :=
  let filename := day_filename home_id date data_type in
  match remote_files sftp !! day_path date filename with
  | Some file =>
      let* df := lift (day_frame home_id date classic_sync file) in
      do* batch_insert_query CASSANDRA_KEYSPACE table (raw_columns file)
            (raw_values <$> df.*2) in
      ret df
  | None =>
      do* emit (EvWarning (missing_file_warning filename home_id)) in
      raise UnboundLocalError
  end.

(** The body of the loop of [sync_dates] for one [date]. *)
Definition sync_date (sftp : remote F) (home_id : string) (has_pv classic_sync : bool)
    (date : Z) : M F unit :=
  let* p1 := sync_files sftp home_id date "p1" TBL_RAW_P1 classic_sync in
  let final := final_df home_id p1 in
  let* final :=
    (if has_pv then
       let* pv := sync_files sftp home_id date "pv" TBL_RAW_PV classic_sync in
       ret (final_df_pv final pv)
     else ret final) in
  batch_insert_query CASSANDRA_KEYSPACE TBL_POWER power_columns (power_values <$> final.*2).

Definition sync_dates (sftp : remote F) (home_id : string) (has_pv : bool)
    (last_ts : option Z) (start_date end_date : Z) (classic_sync : bool) : M F unit :=
  do* for_each (date_range start_date end_date ns_per_day)
        (sync_date sftp home_id has_pv classic_sync) in
  check_last_ts home_id end_date last_ts.

Definition sync_all_days (sftp : remote F) (home_id : string) (has_pv : bool)
    (last_ts : option Z) : M F unit :=
  match get_available_dates sftp with
  | [] => emit (EvWarning ("No available dates found for home_id " +:+ home_id +:+ "."))
  | d :: ds =>
      sync_dates sftp home_id has_pv last_ts (foldr Z.min d ds) (foldr Z.max d ds) false
  end.

(** [process_home]. [hostname] is [hostnames.get(home_id)]: [if not
    hostname] holds of [None] and of the empty string. [connection] is the
    outcome of [ssh_sftp_connection(hostname, home_id, pwd)]; [None] for a
    date or for [last_ts] is Python's [None], and [now - None] raises. *)
Definition process_home (home_id : string) (has_pv : bool) (hostname : option string)
    (connection : result (remote F)) (all_days : bool) (start_date end_date : option Z)
    (last_ts : option Z) (now : Z) : M F unit :=
  match hostname with
  | None | Some EmptyString =>
      emit (EvWarning ("Exception occured in 'sync_data', the home_id " +:+ home_id
                       +:+ " is not in the list of hosts to collect data from: "))
  | Some (String _ _) =>
      let* sftp := lift connection in
      if all_days then sync_all_days sftp home_id has_pv last_ts
      else
        match start_date, end_date with
        | Some s, _ =>
            sync_dates sftp home_id has_pv last_ts s (default now end_date) false
        | None, Some e =>
            sync_dates sftp home_id has_pv last_ts (e - FROM_FIRST_TS * ns_per_day) e false
        | None, None =>
            match last_ts with
            | None => raise TypeError
            | Some last =>
                let start_date :=
                  if now - last <? FROM_FIRST_TS * ns_per_day then last
                  else now - FROM_FIRST_TS * ns_per_day in
                sync_dates sftp home_id has_pv last_ts start_date now true
            end
        end
  end.

(** What [sync_data] runs for one row of [bids]: [process_home] with
    [last_ts_dic.get(home_id, pd.Timestamp(OLDEST_TS))], the watermark the
    store holds for the site when the pass starts. *)
Definition watermark (st : state F) (home_id : string) : Z :=
  default OLDEST_TS (last_ts_table st !! home_id).

Definition sync_home (home_id : string) (has_pv : bool) (hostname : option string)
    (connection : result (remote F)) (all_days : bool) (start_date end_date : option Z)
    (now : Z) : M F unit :=
  λ st, process_home home_id has_pv hostname connection all_days start_date end_date
          (Some (watermark st home_id)) now st.
End Sync.

(** ** collect_homewizard_data.py: the resampler *)

(** One row of the frame [save_to_csv] receives: the tick it was sampled at
    and its value in one of the kept columns (every kept column goes through
    the same steps). *)
Record reading (F : Type) : Type := Reading {
  r_timestamp : Z;
  r_value : F
}.
Arguments Reading {F} r_timestamp r_value.
Arguments r_timestamp {F} r.
Arguments r_value {F} r.

(** The sampling period, [timedelta(seconds=0.5)] and [freq='500ms']. *)
Definition half_second : Z := 500000000.

(** [index.min()] and [index.max()]; [None] (NaT) on an empty index. *)
Definition index_min (index : list Z) : option Z :=
  match index with
  | [] => None
  | t :: index' => Some (foldr Z.min t index')
  end.

Definition index_max (index : list Z) : option Z :=
  match index with
  | [] => None
  | t :: index' => Some (foldr Z.max t index')
  end.

Section Resampler.
Context {F : Type} `{Float F}.

(** The value of the row labelled [t]. *)
Fixpoint at_index (data : list (reading F)) (t : Z) : option F :=
  match data with
  | [] => None
  | r :: data' => if decide (r_timestamp r = t) then Some (r_value r) else at_index data' t
  end.

(** [data_to_save.reindex(full_index)]: one row for each label of
    [full_index], NaN where [data] has no row of that label; an index with
    duplicate labels cannot be reindexed. *)
Definition reindex (data : list (reading F)) (full_index : list Z)
  : result (list (Z * option F)) :=
  if decide (NoDup (r_timestamp <$> data))
  then Ok ((λ t, (t, at_index data t)) <$> full_index)
  else Raise ValueError.

(** The mean of a group: NaN cells are skipped, an empty group gives NaN. *)
Definition mean (values : list F) : option F :=
  match values with
  | [] => None
  | _ => Some (f_div (foldl f_add f_zero values) (f_of_nat (length values)))
  end.

(** The non-null cells of the rows whose label falls in the second [s]. *)
Definition bin (rows : list (Z * option F)) (s : Z) : list F :=
  omap (λ row, if decide (floor_s row.1 = s) then row.2 else None) rows.

(** [.resample('s').mean()]: one bin for each second from the second of the
    first label to the second of the last one. *)
Definition resample_mean (rows : list (Z * option F)) : list (Z * option F) :=
  match index_min rows.*1, index_max rows.*1 with
  | Some first, Some last =>
      (λ s, (s, mean (bin rows s))) <$> date_range (floor_s first) (floor_s last) ns_per_s
  | _, _ => []
  end.

(** [save_to_csv]: the rows [data_resampled] that it appends to the day
    file (the [date] and [home_id] columns it adds are left out).
    [pd.date_range] of NaT bounds raises. *)
Definition save_to_csv (data : list (reading F)) : result (list (Z * option F)) :=
  match index_min (r_timestamp <$> data), index_max (r_timestamp <$> data) with
  | Some start, Some end_ =>
      rbind (reindex data (date_range start end_ half_second))
        (λ data_to_save, Ok (resample_mean data_to_save))
  | _, _ => Raise ValueError
  end.

(** The readings whose timestamp falls in the second [s]. *)
Definition readings_in (data : list (reading F)) (s : Z) : list F :=
  r_value <$> filter (λ r, floor_s (r_timestamp r) = s) data.

(** A flush window as the sampling loop hands it over: readings in the
    order they were taken, at ticks of the half-second grid. *)
Definition flush_window (data : list (reading F)) : Prop :=
  data ≠ [] ∧
  StronglySorted Z.lt (r_timestamp <$> data) ∧
  Forall (λ r, r_timestamp r mod half_second = 0) data.
End Resampler.

(** ** Alignment of the production series *)

Section Alignment.
Context {F : Type} `{Float F}.

(** The active-power cell of the production frame at the index label [i]:
    null when the frame has no row of that label or a NaN there. *)
Definition production_at_label (pv : frame (raw_row F)) (i : nat) : option F :=
  r ← loc pv i; active_power_w (raw_line r).

(** Alignment by timestamp, as the specification words it: the active-power
    cell of the production row stamped [t], null when there is none. *)
Fixpoint production_at_timestamp (pv : frame (raw_row F)) (t : Z) : option F :=
  match pv with
  | [] => None
  | (_, r) :: pv' =>
      if decide (timestamp (raw_line r) = t) then active_power_w (raw_line r)
      else production_at_timestamp pv' t
  end.

(** [a - b] on one cell: NaN if either is. *)
Definition minus (a b : option F) : option F :=
  match a, b with
  | Some x, Some y => Some (f_sub x y)
  | _, _ => None
  end.
End Alignment.

(** ** Groups of bounded size *)

(** [l] cut into consecutive groups of [n] elements, the last one possibly
    shorter: the batches the specification describes. [fuel] bounds the
    number of groups. *)
Fixpoint chunks_fuel {A} (fuel n : nat) (l : list A) : list (list A) :=
  match fuel, l with
  | S fuel', _ :: _ => take n l :: chunks_fuel fuel' n (drop n l)
  | _, _ => []
  end.

Definition chunks {A} (n : nat) (l : list A) : list (list A) :=
  chunks_fuel (length l) n l.

(** ** Specifications of runs *)

(** [sat m P Q]: from any state, [m] only appends events that satisfy [P]
    to the trace, leaves the [last_ts] table as it is, and returns (when it
    does not raise) a value that satisfies [Q]. *)
Definition sat {F A} (m : M F A) (P : event F → Prop) (Q : A → Prop) : Prop :=
  ∀ st, ∃ new,
    trace (m st).2 = trace st ++ new ∧ Forall P new ∧
    last_ts_table (m st).2 = last_ts_table st ∧
    match (m st).1 with
    | Ok a => Q a
    | Raise _ => True
    end.

(** What a run may do to the [last_ts] table of a site that entered the pass
    with [last_ts]: nothing, or write the floor of a timestamp later than
    [last_ts]. *)
Definition advances (home_id : string) (last_ts : option Z) (tbl tbl' : gmap string Z)
  : Prop :=
  tbl' = tbl ∨
  ∃ new_ts, (∀ last, last_ts = Some last → last < new_ts) ∧
            tbl' = <[home_id := floor_s new_ts]> tbl.

(** [pass m P home_id last_ts]: from any state, [m] only appends events that
    satisfy [P] and changes the [last_ts] table as [advances] allows. *)
Definition pass {F A} (m : M F A) (P : event F → Prop) (home_id : string)
    (last_ts : option Z) : Prop :=
  ∀ st, ∃ new,
    trace (m st).2 = trace st ++ new ∧ Forall P new ∧
    advances home_id last_ts (last_ts_table st) (last_ts_table (m st).2).

(** The states of the store: the empty tables [create_tables] leaves, and
    what any sync pass of any site makes of a state of the store. *)
Inductive reachable {F} `{Float F} : state F → Prop :=
| reachable_init : reachable (mkState [] ∅)
| reachable_sync (st : state F) (home_id : string) (has_pv : bool)
    (hostname : option string) (connection : result (remote F)) (all_days : bool)
    (start_date end_date : option Z) (now : Z) :
    reachable st →
    reachable (sync_home home_id has_pv hostname connection all_days start_date end_date
                 now st).2.

(** Every stored watermark is a whole number of seconds. *)
Definition whole_seconds {F} (st : state F) : Prop :=
  ∀ home_id t, last_ts_table st !! home_id = Some t → t mod ns_per_s = 0.

(** ** A carrier for concrete runs: the rationals *)

#[export] Instance Q_float : Float Q.
Proof.
  refine {| f_zero := 0%Q; f_neg_one := (-1 # 1)%Q; f_mul := Qmult; f_add := Qplus;
            f_sub := Qminus; f_div := Qdiv; f_of_nat := λ n, inject_Z (Z.of_nat n) |}.
  intros [a b] [c d]. unfold Qminus, Qopp, Qplus, Qmult; simpl.
  rewrite Pos.mul_1_r. f_equal. lia.
Defined.

(** ** Concrete sites *)

Definition seconds (n : Z) : Z := n * ns_per_s.

(** A primary day file of two seconds, 00:01:40 and 00:01:41 of 1970-01-01. *)
Definition p1_two_seconds : frame (raw_row Q) :=
  [ (0%nat, RawRow (CsvRow (seconds 100) (Some 5%Q) []) "site" "1970-1-1");
    (1%nat, RawRow (CsvRow (seconds 101) (Some 6%Q) []) "site" "1970-1-1") ].

(** A production day file whose first line is one second later. *)
Definition pv_one_second_late : frame (raw_row Q) :=
  [ (0%nat, RawRow (CsvRow (seconds 101) (Some 2%Q) []) "site" "1970-1-1") ].

(** A primary and a production day file that share no second. *)
Definition p1_one_second : frame (raw_row Q) :=
  [ (0%nat, RawRow (CsvRow (seconds 100) (Some 5%Q) []) "site" "1970-1-1") ].

Definition pv_other_second : frame (raw_row Q) :=
  [ (0%nat, RawRow (CsvRow (seconds 200) (Some 2%Q) []) "site" "1970-1-1") ].

(** A site whose only day file is the primary one of 1970-01-01, with two
    lines; and a site with no file at all. *)
Definition site_one_day : remote Q :=
  Remote {[ "/opt/coomep/data/1970/1/1970_01_01_site_p1.csv"%string :=
              CsvFile [] [CsvRow (seconds 100) (Some 5%Q) [];
                          CsvRow (seconds 101) (Some 6%Q) []] ]}
         [0].

Definition site_no_file : remote Q := Remote ∅ [].

(** A site whose primary file of 1970-01-01 has a header and no line. *)
Definition site_empty_day : remote Q :=
  Remote {[ "/opt/coomep/data/1970/1/1970_01_01_site_p1.csv"%string := CsvFile [] [] ]} [0].

Definition empty_store : state Q := mkState [] ∅.

(** The store after an explicit-range pass over 1970-01-01 of the site with
    the empty day file. *)
Definition store_after_one_pass : state Q :=
  (sync_home "site" false (Some "10.8.0.2"%string) (Ok site_empty_day) false
     (Some 0) (Some (seconds 10)) (seconds 20) empty_store).2.

(** A flush window: ticks at 5.0 s, 5.5 s and 7.5 s. *)
Definition window_three_ticks : list (reading Q) :=
  [ Reading (10 * half_second) 1%Q; Reading (11 * half_second) 2%Q;
    Reading (15 * half_second) 7%Q ].

(** ** Renderings the docstrings describe *)

(** ["'" + val + "'"] *)
Definition quoted (s : string) : string := "'" +:+ s +:+ "'".

(** The strings a list value holds, when it holds only strings. *)
Fixpoint strings_of {F} (l : list (pyval F)) : option (list string) :=
  match l with
  | [] => Some []
  | PStr s :: l' => cons s <$> strings_of l'
  | _ :: _ => None
  end.

(** The text of a string and of a list of strings: the string between
    single quotes; the quoted elements of the list, separated by commas,
    between square brackets, and a lone closing bracket for the empty list
    (["["[:-1] + "]"]). *)
Definition formatted {F} (val : pyval F) : option string :=
  match val with
  | PStr s => Some (quoted s)
  | PList l =>
      match strings_of l with
      | Some [] => Some "]"%string
      | Some (s :: ss) => Some ("[" +:+ join "," (quoted <$> s :: ss) +:+ "]")
      | None => None
      end
  | _ => None
  end.

(** [f"{col_name} {ordering_type}"] *)
Definition ordering_item (item : string * string) : string :=
  item.1 +:+ " " +:+ item.2.

(** The groups of exactly [n] elements at the front of [l]: [chunks] without
    the shorter last group. *)
Definition full_groups {A} (n : nat) (l : list A) : list (list A) :=
  chunks n (take (length l / n * n) l).

(** Three rows of one string each, and their insert statements. *)
Definition three_string_rows : list (list (pyval Q)) :=
  [[PStr "x"]; [PStr "y"]; [PStr "z"]].

Definition three_statements : list string :=
  ["INSERT INTO test.t (a) VALUES ('x');"; "INSERT INTO test.t (a) VALUES ('y');";
   "INSERT INTO test.t (a) VALUES ('z');"]%string.

(** A day file that is there and has no line under its header. *)
Definition empty_day {F} (sftp : remote F) (home_id : string) (date : Z)
    (data_type : string) : Prop :=
  ∃ file, remote_files sftp !! day_path date (day_filename home_id date data_type)
          = Some file
          ∧ csv_rows file = [].

(** The days [sync_date] gets through: the primary file, and for a site
    with a production meter the production file, are there without line. *)
Definition syncs_day {F} (sftp : remote F) (home_id : string) (has_pv : bool) (date : Z)
  : Prop :=
  empty_day sftp home_id date "p1" ∧ (has_pv = true → empty_day sftp home_id date "pv").

(** The exceptions that leave the loop of [sync_dates]: [UnboundLocalError]
    (a missing file, or a row that does not render), and under
    [classic_sync] the [TypeError] of the comparison. *)
Definition sync_error (classic_sync : bool) (e : exn) : Prop :=
  e = UnboundLocalError ∨ (classic_sync = true ∧ e = TypeError).

(** The statement [check_last_ts] sends for a site that has a watermark. *)
Definition watermark_update {F} (q : query F) : Prop :=
  ∃ home_id t,
    q = QUpdate TBL_LAST_TS ["timestamp"%string] [PTimestamp t]
          ("home_id = '" +:+ home_id +:+ "'").

(** An event that is not the execution of a statement. *)
Definition no_statement {F} (ev : event F) : Prop :=
  match ev with
  | EvExecute _ => False
  | _ => True
  end.

(** An event that is not the execution of anything but a watermark update. *)
Definition no_data_statement {F} (ev : event F) : Prop :=
  match ev with
  | EvExecute q => watermark_update q
  | _ => True
  end.

(** A production day file with the seconds of [p1_two_seconds]. *)
Definition pv_two_seconds : frame (raw_row Q) :=
  [ (0%nat, RawRow (CsvRow (seconds 100) (Some 2%Q) []) "site" "1970-1-1");
    (1%nat, RawRow (CsvRow (seconds 101) (Some 3%Q) []) "site" "1970-1-1") ].

(** A site whose listing holds three days, the second of which has no
    file. *)
Definition site_with_gap : remote Q :=
  Remote {[ "/opt/coomep/data/1970/1/1970_01_01_site_p1.csv"%string := CsvFile [] [];
            "/opt/coomep/data/1970/1/1970_01_03_site_p1.csv"%string := CsvFile [] [] ]}
         [0; 2 * ns_per_day].

(** ** collect_homewizard_data.py: the sampling loop *)

(** What [get_sensor_data] returns for the production sensor: [None] (no
    production meter, or the request raised), the response itself (its status
    is an error, or its body could not be decoded), or the frame of one row
    built from the reply. *)
Inductive pv_reply (F : Type) : Type :=
| PvNone
| PvResponse (ok : bool)
| PvFrame (value : F).
Arguments PvNone {F}.
Arguments PvResponse {F} ok.
Arguments PvFrame {F} value.

(** What [get_sensor_data] returns at a tick: the P1 frame of one row (its
    value in one of the kept columns) or [None], and the production reply. *)
Record sample (F : Type) : Type := Sample {
  p1_data : option F;
  pv_data : pv_reply F
}.
Arguments Sample {F} p1_data pv_data.
Arguments p1_data {F} s.
Arguments pv_data {F} s.

(** [if pv_data:]. A response is true when its status is ok; the truth value
    of a frame is ambiguous and raises. *)
Definition truth {F} (pv : pv_reply F) : result bool :=
  match pv with
  | PvNone => Ok false
  | PvResponse ok => Ok ok
  | PvFrame _ => Raise ValueError
  end.

(** [pd.concat([p1_samples, p1_data])]: [None] is dropped. *)
Definition concat_p1 {F} (samples : list (reading F)) (t : Z) (data : option F)
  : list (reading F) :=
  match data with
  | Some v => samples ++ [Reading t v]
  | None => samples
  end.

(** [pd.concat([pv_samples, pv_data])]: a response cannot be concatenated. *)
Definition concat_pv {F} (samples : list (reading F)) (t : Z) (pv : pv_reply F)
  : result (list (reading F)) :=
  match pv with
  | PvNone => Ok samples
  | PvResponse _ => Raise TypeError
  | PvFrame v => Ok (samples ++ [Reading t v])
  end.

(** The variables of [main], and the calls [save_data(p1, pv)] submitted to
    the executor so far. *)
Record sampler (F : Type) : Type := Sampler {
  p1_samples : list (reading F);
  pv_samples : list (reading F);
  next_sample_time : Z;
  first_sample_to_save : Z;
  submitted : list (list (reading F) * list (reading F))
}.
Arguments Sampler {F} p1_samples pv_samples next_sample_time first_sample_to_save submitted.
Arguments p1_samples {F} s.
Arguments pv_samples {F} s.
Arguments next_sample_time {F} s.
Arguments first_sample_to_save {F} s.
Arguments submitted {F} s.

(** [timedelta(minutes=1)] *)
Definition one_minute : Z := 60 * ns_per_s.

(** One pass through the body of [while True] for the replies [x] of the
    sensors, up to [wait_until]; when it raises, the sampler is the one at
    the raise. *)
Definition iteration {F} (x : sample F) (s : sampler F) : result unit * sampler F :=
  let p1 := concat_p1 (p1_samples s) (next_sample_time s) (p1_data x) in
  let raised e :=
    (Raise e, Sampler p1 (pv_samples s) (next_sample_time s) (first_sample_to_save s)
                (submitted s)) in
  match truth (pv_data x) with
  | Raise e => raised e
  | Ok b =>
      match (if b then concat_pv (pv_samples s) (next_sample_time s) (pv_data x)
             else Ok (pv_samples s)) with
      | Raise e => raised e
      | Ok pv =>
          if first_sample_to_save s <=? next_sample_time s then
            (Ok tt, Sampler [] [] (next_sample_time s + half_second)
                      (first_sample_to_save s + one_minute) (submitted s ++ [(p1, pv)]))
          else
            (Ok tt, Sampler p1 pv (next_sample_time s + half_second)
                      (first_sample_to_save s) (submitted s))
      end
  end.

(** The loop over the replies of the ticks until it is left: by an exception
    of its body, or by a keyboard interrupt, taken here to arrive while the
    loop waits for the tick after the last of [ticks]. *)
Fixpoint sampling_loop {F} (ticks : list (sample F)) (s : sampler F) : sampler F :=
  match ticks with
  | [] => s
  | x :: ticks' =>
      match iteration x s with
      | (Ok _, s') => sampling_loop ticks' s'
      | (Raise _, s') => s'
      end
  end.

(** [now.second] *)
Definition second_of_minute (now : Z) : Z := now / ns_per_s mod 60.

(** [now.replace(microsecond=0, second=now.second + 1)]: a second field of 60
    is refused. *)
Definition first_tick (now : Z) : result Z :=
  if second_of_minute now + 1 <=? 59 then Ok (floor_s now + ns_per_s)
  else Raise ValueError.

(** [main]: the calls of [save_data], those submitted by the loop and the
    one of the [finally] clause, each with its two frames. *)
Definition main {F} (now : Z) (ticks : list (sample F))
  : result (list (list (reading F) * list (reading F))) :=
  rbind (first_tick now) (λ next_sample_time,
    let s :=
      sampling_loop ticks
        (Sampler [] [] next_sample_time (next_sample_time + one_minute) []) in
    Ok (submitted s ++ [(p1_samples s, pv_samples s)])).

(** ** collect_homewizard_data.py: the files of a call of [save_data] *)

(** [timestamp.dt.date], as the timestamp of that day's midnight. *)
Definition date_of (t : Z) : Z := t / ns_per_day * ns_per_day.

(** [samples.groupby(samples['timestamp'].dt.date)]: the groups by
    increasing date, each with its rows in their order. *)
Definition groupby_date {F} (samples : list (reading F)) : list (Z * list (reading F)) :=
  (λ date, (date, filter (λ r, date_of (r_timestamp r) = date) samples))
    <$> merge_sort Z.le (remove_dups (date_of ∘ r_timestamp <$> samples)).

(** [f"{DATA_DIR}/{date.year}/{date.month:02}"] followed by
    [f"/{date.year}_{date.month:02}_{date.day:02}_{USERNAME}"] and
    [f"_{data_type}.csv"]: the file [save_to_csv] appends to. *)
Definition collector_path (username : string) (date : Z) (data_type : string) : string :=
  let '(year, month, day) := ymd date in
  DATA_DIR +:+ "/" +:+ pretty year +:+ "/" +:+ pad2 month
  +:+ "/" +:+ pretty year +:+ "_" +:+ pad2 month +:+ "_" +:+ pad2 day +:+ "_" +:+ username
  +:+ "_" +:+ data_type +:+ ".csv".

(** [save_data]: the calls [save_to_csv(group, path, data_type)] it makes,
    each with the file appended to and the frame, for the P1 frame and then,
    on a site with a production meter, for the production frame. An empty
    frame has no group. *)
Definition save_data {F} (username : string) (has_pv : bool)
    (p1_samples pv_samples : list (reading F)) : list (string * list (reading F)) :=
  ((λ '(date, group), (collector_path username date "p1", group))
     <$> groupby_date p1_samples)
  ++ (if has_pv
      then (λ '(date, group), (collector_path username date "pv", group))
             <$> groupby_date pv_samples
      else []).

(** The ticks the loop gets to: those up to the first one whose production
    reply is a frame or an ok response, that one included. *)
Definition stops {F} (x : sample F) : bool :=
  match pv_data x with
  | PvNone | PvResponse false => false
  | PvResponse true | PvFrame _ => true
  end.

Fixpoint sampled {F} (ticks : list (sample F)) : list (sample F) :=
  match ticks with
  | [] => []
  | x :: ticks' => if stops x then [x] else x :: sampled ticks'
  end.

(** The P1 readings of consecutive ticks, the first of them at [t]. *)
Fixpoint answered {F} (t : Z) (ticks : list (sample F)) : list (reading F) :=
  match ticks with
  | [] => []
  | x :: ticks' => concat_p1 [] t (p1_data x) ++ answered (t + half_second) ticks'
  end.

(** The first instant of the [j]-th call of [save_data] of a run whose first
    tick is at [t0]. *)
Definition window_start (t0 : Z) (j : nat) : Z :=
  match j with
  | O => t0
  | S _ => t0 + Z.of_nat j * one_minute + half_second
  end.

(** The last instant of that call. *)
Definition window_end (t0 : Z) (j : nat) : Z := t0 + (Z.of_nat j + 1) * one_minute.

(** A reading stamped within the [j]-th call. *)
Definition in_window {F} (t0 : Z) (j : nat) (r : reading F) : Prop :=
  window_start t0 j ≤ r_timestamp r ≤ window_end t0 j.

(** What holds of the sampler each time the loop is back at its head, after
    the ticks [done] of a run whose first tick is at [t0]. *)
Definition sampling_invariant {F} (t0 : Z) (done : list (sample F)) (s : sampler F)
  : Prop :=
  let n := length (submitted s) in
  next_sample_time s = t0 + Z.of_nat (length done) * half_second ∧
  first_sample_to_save s = window_end t0 n ∧
  window_start t0 n ≤ next_sample_time s ≤ first_sample_to_save s ∧
  pv_samples s = [] ∧
  Forall (λ w, w.2 = []) (submitted s) ∧
  Forall (λ r, window_start t0 n ≤ r_timestamp r < next_sample_time s) (p1_samples s) ∧
  (∀ j w, submitted s !! j = Some w → Forall (in_window t0 j) w.1) ∧
  concat (submitted s).*1 ++ p1_samples s = answered t0 done.

(** What holds of the calls of [save_data] of a run over the ticks [all]. *)
Definition calls_of_run {F} (t0 : Z) (all : list (sample F))
    (calls : list (list (reading F) * list (reading F))) : Prop :=
  Forall (λ w, w.2 = []) calls ∧
  (∀ j w, calls !! j = Some w → Forall (in_window t0 j) w.1) ∧
  concat calls.*1 = answered t0 all.

(** Ticks of a site without production meter: the P1 sensor answers with
    the tick's number. *)
Definition ticks_answered (n : nat) : list (sample Q) :=
  (λ k, Sample (Some (inject_Z (Z.of_nat k))) PvNone) <$> seq 0 n.

(** Three ticks of a site with a production meter: the meter answers at the
    second. *)
Definition ticks_with_production : list (sample Q) :=
  [ Sample (Some 1%Q) PvNone; Sample (Some 2%Q) (PvFrame 7%Q); Sample (Some 3%Q) PvNone ].

(** ** utils.py: the routing table of the VPN status file

    A character is a code point below 256. *)

(** [str.isspace] on one character. *)
Definition isspace (c : Ascii.ascii) : bool :=
  let n := Ascii.nat_of_ascii c in
  ((9 <=? n) && (n <=? 13) || (28 <=? n) && (n <=? 32) || (n =? 133) || (n =? 160))%nat.

Fixpoint lstrip (s : string) : string :=
  match s with
  | EmptyString => EmptyString
  | String c s' => if isspace c then lstrip s' else s
  end.

Fixpoint rstrip (s : string) : string :=
  match s with
  | EmptyString => EmptyString
  | String c s' =>
      match rstrip s' with
      | EmptyString => if isspace c then EmptyString else String c EmptyString
      | r => String c r
      end
  end.

(** [s.strip()] *)
Definition strip (s : string) : string := rstrip (lstrip s).

(** [s.split(sep)] for a separator of one character. *)
Fixpoint split (sep : Ascii.ascii) (s : string) : list string :=
  match s with
  | EmptyString => [EmptyString]
  | String c s' =>
      if decide (c = sep) then EmptyString :: split sep s'
      else
        match split sep s' with
        | field :: fields => String c field :: fields
        | [] => [String c EmptyString]
        end
  end.

(** The loop of [parse_routing_table] over the lines still to read. *)
Fixpoint parse_lines (lines : list string) (in_routing_table : bool)
    (routing_table_data : gmap string string) : gmap string string :=
  match lines with
  | [] => routing_table_data
  | line :: lines' =>
      let line := strip line in
      if decide (line = "ROUTING TABLE") then parse_lines lines' true routing_table_data
      else if decide (line = "GLOBAL STATS") then routing_table_data
      else if in_routing_table && bool_decide (line ≠ EmptyString) then
        match split ","%char line with
        | virtual_address :: common_name :: _ =>
            parse_lines lines' in_routing_table
              (<[strip common_name := strip virtual_address]> routing_table_data)
        | _ => parse_lines lines' in_routing_table routing_table_data
        end
      else parse_lines lines' in_routing_table routing_table_data
  end.

(** [parse_routing_table], given the lines [file.readlines()] returns. *)
Definition parse_routing_table (lines : list string) : gmap string string :=
  parse_lines lines false ∅.

(** A string without white space and without comma. *)
Fixpoint plain (s : string) : bool :=
  match s with
  | EmptyString => true
  | String c s' => negb (isspace c) && negb (bool_decide (c = ","%char)) && plain s'
  end.

(** A line of the routing table: the virtual address, the common name and
    the other fields, separated by commas, and the end of line. *)
Definition entry_line (entry : string * string * string) : string :=
  let '(virtual_address, common_name, others) := entry in
  virtual_address +:+ "," +:+ common_name +:+ "," +:+ others +:+ String "010"%char EmptyString.

(** An entry whose address and name are not empty and hold neither white
    space nor comma. *)
Definition plain_entry (entry : string * string * string) : Prop :=
  let '(virtual_address, common_name, others) := entry in
  virtual_address ≠ EmptyString ∧ plain virtual_address = true
  ∧ common_name ≠ EmptyString ∧ plain common_name = true.

(** The status file of a server with two clients. *)
Definition status_lines : list string :=
  [ String.append "OpenVPN CLIENT LIST" (String "010"%char EmptyString);
    String.append "ROUTING TABLE" (String "010"%char EmptyString);
    entry_line ("10.8.0.2", "CDB001", "1.2.3.4:5000,Thu Jun 18 04:23:03 2024");
    entry_line ("10.8.0.3", "ECH002", "1.2.3.5:5000,Thu Jun 18 04:23:04 2024");
    String.append "GLOBAL STATS" (String "010"%char EmptyString);
    String.append "Max bcast/mcast queue length,0" (String "010"%char EmptyString);
    String.append "END" (String "010"%char EmptyString) ]%string.

(** Whether a string holds a comma. *)
Fixpoint has_comma (s : string) : bool :=
  match s with
  | EmptyString => false
  | String c s' => bool_decide (c = ","%char) || has_comma s'
  end.

(** The dict after the assignments [data[common_name] = virtual_address] of
    the entries, in order. *)
Definition assign_entries (data : gmap string string)
    (entries : list (string * string * string)) : gmap string string :=
  foldl (λ data '(virtual_address, common_name, _), <[common_name := virtual_address]> data)
    data entries.

(** ** sync_homewizard.py: the command line *)

(** What the parser accepts: the three options are in one exclusive and
    required group, so exactly one is given; the dates are given here as the
    timestamps [main] makes of them. *)
Inductive command_line : Set :=
| OptAll
| OptStart (start : Z)
| OptEnd (end_ : Z).

(** [get_arguments]: [args.all], and [args.start] and [args.end] as
    timestamps; an option that is not given has its default, the time at
    which the parser was built. *)
Definition get_arguments (cl : command_line) (parser_time : Z) : bool * Z * Z :=
  match cl with
  | OptAll => (true, parser_time, parser_time)
  | OptStart start => (false, start, parser_time)
  | OptEnd end_ => (false, parser_time, end_)
  end.

(** What [main] makes [sync_data] run for one row of [bids]. *)
Definition sync_homewizard_main {F} `{Float F} (cl : command_line) (parser_time : Z)
    (home_id : string) (has_pv : bool) (hostname : option string)
    (connection : result (remote F)) (now : Z) : M F unit :=
  let '(all, start, end_) := get_arguments cl parser_time in
  if all then sync_home home_id has_pv hostname connection true None None now
  else sync_home home_id has_pv hostname connection false (Some start) (Some end_) now.

(** ** sync_homewizard.py: the access table *)

(** A row of the configuration file: its first cell (hashed into the
    password), and its [user_id], [has_pv] and [configurations] cells, the
    last one as the list [.strip('][').split(', ')] makes of it. *)
Record user_config : Type := UserConfig {
  first_cell : string;
  user_id : string;
  user_has_pv : bool;
  installations : list string
}.

(** [check_access_table]; [is_table_empty] is what the query of that name
    answers and [hashpw] stands for the salted hash. *)
Definition check_access_table {F} (is_table_empty : bool) (hashpw : string → string)
    (xlsx : list user_config) : M F unit :=
  if is_table_empty then
    for_each xlsx (λ row,
      insert_query CASSANDRA_KEYSPACE TBL_ACCESS ["login"; "pwd"; "has_pv"; "installations"]%string
        [PStr (user_id row); PStr (hashpw (first_cell row)); PBool (user_has_pv row);
         PList (PStr <$> installations row)])
  else ret tt.

(** * Properties *)

(** ** Rendering of values (py_to_cassandra.py) *)

Section RenderingFacts.
Context {F : Type}.

(** Strings are quoted whatever the local [v] holds. *)
Lemma get_right_format_loop_strings (l : list string) (res : list string) (v : option string) :
  get_right_format_loop (F:=F) (PStr <$> l) res v
  = Ok (res ++ ((λ s, "'" +:+ s +:+ "'") <$> l)).
Proof.
  revert res. induction l as [|s l IH]; intros res; simpl.
  - by rewrite app_nil_r.
  - rewrite IH. by rewrite <- app_assoc.
Qed.

(** Leading strings do not bind [v]: the first timestamp or number after
    them is rendered through an unbound [v]. *)
Lemma get_right_format_loop_unbound (l : list string) (val : pyval F)
    (values : list (pyval F)) (res : list string) :
  (∀ s, val ≠ PStr s) → (∀ l', val ≠ PList l') →
  get_right_format_loop ((PStr <$> l) ++ val :: values) res None = Raise UnboundLocalError.
Proof.
  intros Hs Hl. revert res. induction l as [|s l IH]; intros res; simpl.
  - destruct val; try reflexivity; [by destruct (Hs s) | by destruct (Hl l)].
  - apply IH.
Qed.

Lemma get_right_format_raw_values `{Float F} (r : raw_row F) :
  get_right_format (raw_values r) = Raise UnboundLocalError.
Proof. reflexivity. Qed.

Lemma get_right_format_power_values (p : power_row F) :
  get_right_format (power_values p) = Raise UnboundLocalError.
Proof. reflexivity. Qed.
End RenderingFacts.

(** C10. [get_right_format] does not format the i-th value in its last two
    branches: it reads the local [v] of the list branch instead of [val]. A
    number or a timestamp raises [UnboundLocalError] when no list came
    before it in the same call; after a list, a number is rendered as the
    last element of that list and a timestamp raises [AttributeError]. An
    empty list is rendered as a lone closing bracket. *)
Theorem get_right_format_reads_v {F : Type} :
  (∀ x : option F, get_right_format [PFloat x] = Raise UnboundLocalError) ∧
  (∀ t : Z, get_right_format (F:=F) [PTimestamp t] = Raise UnboundLocalError) ∧
  (∀ (home_id : string) (t : Z),
     get_right_format (F:=F) [PStr home_id; PTimestamp t] = Raise UnboundLocalError) ∧
  (∀ x : option F,
     get_right_format [PList [PStr "a"; PStr "b"]; PFloat x] = Ok ["['a','b']"; "b"]%string) ∧
  (∀ t : Z,
     get_right_format (F:=F) [PList [PStr "a"]; PTimestamp t] = Raise AttributeError) ∧
  get_right_format (F:=F) [PList []] = Ok ["]"%string].
Proof. repeat split. Qed.

(** ** Table creation (py_to_cassandra.py, sync_homewizard.py) *)

(** C8. The statements [create_tables] sends for the raw and power tables
    put [home_id], [day] and [timestamp] together inside the inner
    parentheses of the key clause, which is how CQL writes a composite
    partition key with no clustering column, and place the clustering order
    before the parenthesis that closes the column list. *)
Theorem create_tables_key_clause :
  create_tables !! 1%nat
  = Some ("CREATE TABLE IF NOT EXISTS test.raw_p1 (" +:+ join "," raw_p1_columns
          +:+ ", PRIMARY KEY ((home_id,day,timestamp))"
          +:+ "WITH CLUSTERING ORDER BY (day ASC,timestamp ASC));") ∧
  create_tables !! 2%nat
  = Some ("CREATE TABLE IF NOT EXISTS test.raw_pv (" +:+ join "," raw_pv_columns
          +:+ ", PRIMARY KEY ((home_id,day,timestamp))"
          +:+ "WITH CLUSTERING ORDER BY (day ASC,timestamp ASC));") ∧
  create_tables !! 4%nat
  = Some ("CREATE TABLE IF NOT EXISTS test.power (home_id TEXT,day TEXT,"
          +:+ "timestamp TIMESTAMP,p_cons FLOAT,p_prod FLOAT,p_tot FLOAT, "
          +:+ "PRIMARY KEY ((home_id,day,timestamp))"
          +:+ "WITH CLUSTERING ORDER BY (day ASC,timestamp ASC));").
Proof. repeat split. Qed.

(** ** The batch loader (py_to_cassandra.py) *)

(** C9. On the frames the sync loads, raw or derived, the loader issues no
    batch: rendering the first row raises [UnboundLocalError] in
    [get_right_format], whatever the maximum batch size. Only the call is in
    the trace. *)
Theorem batch_insert_query_raises {F : Type} `{Float F} (n : Z) (table : string)
    (st : state F) :
  (∀ (p : power_row F) (final : list (power_row F)),
     batch_insert_query_n n CASSANDRA_KEYSPACE table power_columns
       (power_values <$> p :: final) st
     = (Raise UnboundLocalError,
        mkState (trace st ++ [EvLoad table power_columns (power_values <$> p :: final)])
          (last_ts_table st))) ∧
  (∀ (columns : list string) (r : raw_row F) (df : list (raw_row F)),
     batch_insert_query_n n CASSANDRA_KEYSPACE table columns (raw_values <$> r :: df) st
     = (Raise UnboundLocalError,
        mkState (trace st ++ [EvLoad table columns (raw_values <$> r :: df)])
          (last_ts_table st))).
Proof. split; reflexivity. Qed.

Lemma chunks_fuel_enough {A} (fuel fuel' n : nat) (l : list A) :
  (0 < n)%nat → (length l ≤ fuel)%nat → (length l ≤ fuel')%nat →
  chunks_fuel fuel n l = chunks_fuel fuel' n l.
Proof.
  intros Hn. revert fuel' l. induction fuel as [|fuel IH]; intros fuel' l Hl Hl'.
  - destruct l; [|simpl in Hl; lia]. by destruct fuel'.
  - destruct l as [|x l]; [by destruct fuel'|].
    destruct fuel' as [|fuel']; [simpl in Hl'; lia|].
    cbn [chunks_fuel]. f_equal.
    apply IH; rewrite length_drop; simpl in *; lia.
Qed.

Lemma chunks_nil {A} (n : nat) : chunks n (@nil A) = [].
Proof. done. Qed.

Lemma chunks_cons {A} (n : nat) (l : list A) :
  (0 < n)%nat → l ≠ [] → chunks n l = take n l :: chunks n (drop n l).
Proof.
  intros Hn Hl. unfold chunks. destruct l as [|x l]; [done|].
  cbn [length chunks_fuel]. f_equal.
  apply chunks_fuel_enough; [done|..]; rewrite ?length_drop; simpl; lia.
Qed.

Lemma chunks_app_full {A} (n : nat) (l1 l2 : list A) :
  (0 < n)%nat → length l1 = n → chunks n (l1 ++ l2) = l1 :: chunks n l2.
Proof.
  intros Hn Hl1. rewrite chunks_cons; [|done|by destruct l1; [simpl in *; lia|]].
  by rewrite take_app_length', drop_app_length'.
Qed.

Lemma chunks_short {A} (n : nat) (l : list A) :
  l ≠ [] → (length l ≤ n)%nat → chunks n l = [l].
Proof.
  intros Hl Hn. rewrite chunks_cons; [|destruct l; [done|simpl in *; lia]|done].
  rewrite take_ge, drop_ge by done. done.
Qed.

Lemma chunks_concat {A} (n : nat) (l : list A) : (0 < n)%nat → concat (chunks n l) = l.
Proof.
  intros Hn. remember (length l) as len eqn:Hlen.
  revert l Hlen. induction (lt_wf len) as [len _ IH]. intros l ->.
  destruct l as [|x l]; [done|].
  rewrite chunks_cons by done. cbn [concat].
  rewrite (IH (length (drop n (x :: l)))); [apply take_drop| |done].
  rewrite length_drop. simpl. lia.
Qed.

Lemma chunks_bounded {A} (n : nat) (l : list A) :
  (0 < n)%nat → Forall (λ c, (0 < length c ≤ n)%nat) (chunks n l).
Proof.
  intros Hn. remember (length l) as len eqn:Hlen.
  revert l Hlen. induction (lt_wf len) as [len _ IH]. intros l ->.
  destruct l as [|x l]; [constructor|].
  rewrite chunks_cons by done. constructor.
  - rewrite length_take. simpl. lia.
  - apply (IH (length (drop n (x :: l)))); [|done]. rewrite length_drop. simpl. lia.
Qed.

Lemma chunks_length {A} (n : nat) (l : list A) :
  (0 < n)%nat →
  Z.of_nat (length (chunks n l)) = (Z.of_nat (length l) + Z.of_nat n - 1) / Z.of_nat n.
Proof.
  intros Hn. remember (length l) as len eqn:Hlen.
  revert l Hlen. induction (lt_wf len) as [len _ IH]. intros l ->.
  destruct l as [|x l].
  - simpl. symmetry. apply Z.div_small. lia.
  - rewrite chunks_cons by done. cbn [length].
    rewrite Nat2Z.inj_succ, (IH (length (drop n (x :: l)))); [| |done].
    2: { rewrite length_drop. simpl. lia. }
    rewrite length_drop. cbn [length].
    destruct (decide (S (length l) ≤ n)%nat) as [Hle|Hgt].
    + replace (S (length l) - n)%nat with 0%nat by lia.
      rewrite (Z.div_small (Z.of_nat 0 + Z.of_nat n - 1)) by lia.
      apply (Z.div_unique _ _ _ (Z.of_nat (S (length l)) - 1)); lia.
    + rewrite Nat2Z.inj_sub by lia.
      replace (Z.of_nat (S (length l)) + Z.of_nat n - 1)
        with (Z.of_nat (S (length l)) - Z.of_nat n + Z.of_nat n - 1 + 1 * Z.of_nat n) by lia.
      rewrite Z.div_add by lia. lia.
Qed.

Section Loader.
Context {F : Type}.

Lemma batch_insert_loop_chunks (n : Z) (keyspace table : string) (columns : list string)
    (rows : list (list (pyval F))) (statements : list string) (i : Z)
    (queries : list string) (st : state F) :
  0 < n →
  Forall2 (λ row q, get_insert_query keyspace table columns row = Ok q) rows statements →
  Z.of_nat (length queries) = i mod n →
  bind (batch_insert_loop n keyspace table columns rows i queries) flush st
  = (Ok tt,
     mkState (trace st ++ ((λ b, EvExecute (QBatch b))
                             <$> chunks (Z.to_nat n) (queries ++ statements)))
       (last_ts_table st)).
Proof.
  intros Hn Hrows. revert i queries st.
  induction Hrows as [|row q rows statements Hq _ IH]; intros i queries st Hlen.
  - rewrite app_nil_r. cbn.
    pose proof (Z.mod_pos_bound i n Hn) as Hmod.
    destruct queries as [|q queries].
    + cbn. rewrite app_nil_r. by destruct st.
    + rewrite chunks_short; [done|done|lia].
  - cbn [batch_insert_loop]. unfold bind at 2, lift. rewrite Hq.
    rewrite (proj2 (Z.eqb_neq n 0)) by lia.
    pose proof (Z.mod_pos_bound i n Hn) as Hmod.
    pose proof (Z.div_mod i n ltac:(lia)) as Hdiv.
    destruct ((i + 1) mod n =? 0) eqn:Hfull.
    + apply Z.eqb_eq in Hfull.
      assert (i mod n = n - 1) as Hlast.
      { destruct (decide (i mod n = n - 1)) as [|Hne]; [done|].
        assert ((i + 1) mod n = i mod n + 1)
          by (symmetry; apply (Z.mod_unique _ _ (i / n)); lia). lia. }
      etrans.
      { apply (IH (i + 1) [] (mkState (trace st ++ [EvExecute (QBatch (queries ++ [q]))])
                                (last_ts_table st))). simpl. lia. }
      cbn [trace last_ts_table app]. f_equal. f_equal.
      rewrite (cons_middle q queries statements), app_assoc.
      rewrite (chunks_app_full _ (queries ++ [q])); [|lia|rewrite length_app; simpl; lia].
      rewrite fmap_cons, <- app_assoc. done.
    + apply Z.eqb_neq in Hfull.
      rewrite (cons_middle q queries statements), app_assoc.
      etrans; [apply (IH (i + 1) (queries ++ [q]) st)|done].
      rewrite length_app. simpl.
      destruct (decide (i mod n = n - 1)) as [Hlast|Hne].
      * destruct Hfull. symmetry. apply (Z.mod_unique _ _ (i / n + 1)); lia.
      * apply (Z.mod_unique _ _ (i / n)); lia.
Qed.
End Loader.

(** The batching loop on rows whose statements render: it executes the
    statements in groups of [n], in order, the last group possibly shorter;
    [ceil(M / n)] batches for [M] rows, every statement in exactly one. *)
Lemma batch_insert_query_chunks {F : Type} (n : Z) (keyspace table : string)
    (columns : list string) (rows : list (list (pyval F))) (statements : list string)
    (st : state F) :
  0 < n →
  Forall2 (λ row q, get_insert_query keyspace table columns row = Ok q) rows statements →
  batch_insert_query_n n keyspace table columns rows st
  = (Ok tt,
     mkState (trace st ++ EvLoad table columns rows
                          :: ((λ b, EvExecute (QBatch b))
                                <$> chunks (Z.to_nat n) statements))
       (last_ts_table st)) ∧
  concat (chunks (Z.to_nat n) statements) = statements ∧
  Forall (λ b, (0 < length b ≤ Z.to_nat n)%nat) (chunks (Z.to_nat n) statements) ∧
  Z.of_nat (length (chunks (Z.to_nat n) statements))
  = (Z.of_nat (length rows) + n - 1) / n.
Proof.
  intros Hn Hrows. repeat split.
  - unfold batch_insert_query_n. unfold bind at 1. cbn [emit].
    etrans; [apply (batch_insert_loop_chunks n _ _ _ _ statements); [done..|]|].
    + by rewrite Z.mod_0_l by lia.
    + cbn [trace last_ts_table app]. by rewrite <- app_assoc.
  - apply chunks_concat. lia.
  - apply chunks_bounded. lia.
  - rewrite chunks_length by lia. rewrite (Forall2_length _ _ _ Hrows).
    by rewrite Z2Nat.id by lia.
Qed.

(** Three rows of strings with a maximum batch size of two. *)
Example batch_insert_query_strings :
  batch_insert_query_n (F:=Q) 2 "test" "t" ["a"%string]
    [[PStr "x"]; [PStr "y"]; [PStr "z"]] empty_store
  = (Ok tt,
     mkState [ EvLoad "t" ["a"%string] [[PStr "x"]; [PStr "y"]; [PStr "z"]];
               EvExecute (QBatch ["INSERT INTO test.t (a) VALUES ('x');";
                                  "INSERT INTO test.t (a) VALUES ('y');"]%string);
               EvExecute (QBatch ["INSERT INTO test.t (a) VALUES ('z');"%string]) ] ∅).
Proof. reflexivity. Qed.

(** ** Reasoning about runs *)

Section Runs.
Context {F : Type}.

Lemma sat_ret {A} (a : A) (P : event F → Prop) (Q : A → Prop) : Q a → sat (ret a) P Q.
Proof. intros HQ st. exists []. simpl. by rewrite app_nil_r. Qed.

Lemma sat_raise {A} (e : exn) (P : event F → Prop) (Q : A → Prop) : sat (raise e) P Q.
Proof. intros st. exists []. simpl. by rewrite app_nil_r. Qed.

Lemma sat_lift {A} (r : result A) (P : event F → Prop) (Q : A → Prop) :
  (∀ a, r = Ok a → Q a) → sat (lift r) P Q.
Proof.
  intros HQ st. exists []. simpl. rewrite app_nil_r. repeat split; [constructor|].
  destruct r; auto.
Qed.

Lemma sat_emit (ev : event F) (P : event F → Prop) (Q : unit → Prop) :
  P ev → Q tt → sat (emit ev) P Q.
Proof. intros HP HQ st. exists [ev]. simpl. repeat split; auto. Qed.

Lemma sat_bind {A B} (m : M F A) (k : A → M F B) (P : event F → Prop)
    (Q : A → Prop) (R : B → Prop) :
  sat m P Q → (∀ a, Q a → sat (k a) P R) → sat (bind m k) P R.
Proof.
  intros Hm Hk st. unfold bind.
  destruct (Hm st) as (new & Htr & HP & Hts & HQ).
  destruct (m st) as [[a|e] st']; simpl in *.
  - destruct (Hk a HQ st') as (new' & Htr' & HP' & Hts' & HR).
    exists (new ++ new'). rewrite Htr', Htr, Hts', Hts, app_assoc.
    repeat split; auto. by apply Forall_app.
  - exists new. auto.
Qed.

Lemma sat_weaken {A} (m : M F A) (P : event F → Prop) (Q Q' : A → Prop) :
  sat m P Q → (∀ a, Q a → Q' a) → sat m P Q'.
Proof.
  intros Hm HQ st. destruct (Hm st) as (new & Htr & HP & Hts & Hres).
  exists new. repeat split; auto. destruct ((m st).1); auto.
Qed.

Lemma sat_for_each {A} (l : list A) (body : A → M F unit) (P : event F → Prop) :
  (∀ x, x ∈ l → sat (body x) P (λ _, True)) → sat (for_each l body) P (λ _, True).
Proof.
  induction l as [|x l IH]; intros Hbody; simpl.
  - by apply sat_ret.
  - eapply sat_bind; [apply Hbody; left|].
    intros _ _. apply IH. intros y Hy. apply Hbody. by right.
Qed.

Lemma sat_execute (q : query F) (P : event F → Prop) :
  (∀ q, P (EvExecute q)) → sat (execute q) P (λ _, True).
Proof. intros HP. by apply sat_emit. Qed.

Lemma sat_batch_insert_loop (n : Z) (keyspace table : string) (columns : list string)
    (rows : list (list (pyval F))) (i : Z) (queries : list string) (P : event F → Prop) :
  (∀ q, P (EvExecute q)) →
  sat (batch_insert_loop n keyspace table columns rows i queries) P (λ _, True).
Proof.
  intros HP. revert i queries. induction rows as [|row rows IH]; intros i queries; simpl.
  - by apply sat_ret.
  - eapply sat_bind; [by apply (sat_lift _ _ (λ _, True))|].
    intros q _. destruct (n =? 0); [apply sat_raise|].
    destruct ((i + 1) mod n =? 0); [|apply IH].
    eapply sat_bind; [by apply sat_execute|]. intros _ _. apply IH.
Qed.

Lemma sat_batch_insert_query (keyspace table : string) (columns : list string)
    (rows : list (list (pyval F))) (P : event F → Prop) :
  (∀ q, P (EvExecute q)) → P (EvLoad table columns rows) →
  sat (batch_insert_query keyspace table columns rows) P (λ _, True).
Proof.
  intros HE HL. unfold batch_insert_query, batch_insert_query_n.
  eapply sat_bind; [by apply (sat_emit _ _ (λ _, True))|]. intros _ _.
  eapply sat_bind; [by apply sat_batch_insert_loop|]. intros queries _.
  destruct queries; [by apply sat_ret | by apply sat_execute].
Qed.
End Runs.

(** ** Runs of the sync pass *)

Section SyncRuns.
Context {F : Type} `{Float F}.

Lemma pass_of_sat {A} (m : M F A) (P : event F → Prop) (Q : A → Prop) (home_id : string)
    (last_ts : option Z) :
  sat m P Q → pass m P home_id last_ts.
Proof.
  intros Hm st. destruct (Hm st) as (new & Htr & HP & Hts & _).
  exists new. repeat split; auto. left. done.
Qed.

Lemma pass_bind {A B} (m : M F A) (k : A → M F B) (P : event F → Prop) (Q : A → Prop)
    (home_id : string) (last_ts : option Z) :
  sat m P Q → (∀ a, pass (k a) P home_id last_ts) → pass (bind m k) P home_id last_ts.
Proof.
  intros Hm Hk st. unfold bind.
  destruct (Hm st) as (new & Htr & HP & Hts & _).
  destruct (m st) as [[a|e] st']; simpl in *.
  - destruct (Hk a st') as (new' & Htr' & HP' & Hadv).
    exists (new ++ new'). rewrite Htr', Htr, app_assoc, <- Hts.
    repeat split; auto. by apply Forall_app.
  - exists new. repeat split; auto. left. done.
Qed.

Lemma pass_check_last_ts (home_id : string) (new_ts : Z) (last_ts : option Z)
    (P : event F → Prop) :
  (∀ q, P (EvExecute q)) → pass (check_last_ts home_id new_ts last_ts) P home_id last_ts.
Proof.
  intros HE st. unfold check_last_ts. destruct last_ts as [last|].
  - destruct (last <? new_ts) eqn:Hlt.
    + eexists [_]. simpl. repeat split; [by repeat constructor|].
      right. exists new_ts. split; [|done]. intros ? [= <-]. by apply Z.ltb_lt.
    + exists []. simpl. rewrite app_nil_r. repeat split; [constructor|by left].
  - exists []. simpl. rewrite app_nil_r. repeat split; [constructor|by left].
Qed.

Lemma sat_sync_files (sftp : remote F) (home_id : string) (date : Z)
    (data_type table : string) (classic_sync : bool) (P : event F → Prop) :
  (∀ q, P (EvExecute q)) → (∀ msg, P (EvWarning msg)) →
  (∀ table columns rows, P (EvLoad table columns rows)) →
  sat (sync_files sftp home_id date data_type table classic_sync) P (λ _, True).
Proof.
  intros HE HW HL. unfold sync_files.
  destruct (remote_files sftp !! _) as [file|].
  - eapply sat_bind; [by apply (sat_lift _ _ (λ _, True))|]. intros df _.
    eapply sat_bind; [by apply sat_batch_insert_query|].
    intros _ _. by apply sat_ret.
  - eapply sat_bind; [by apply (sat_emit _ _ (λ _, True))|]. intros _ _. apply sat_raise.
Qed.

Lemma sat_sync_date (sftp : remote F) (home_id : string) (has_pv classic_sync : bool)
    (date : Z) (P : event F → Prop) :
  (∀ q, P (EvExecute q)) → (∀ msg, P (EvWarning msg)) →
  (∀ table columns rows, P (EvLoad table columns rows)) →
  sat (sync_date sftp home_id has_pv classic_sync date) P (λ _, True).
Proof.
  intros HE HW HL. unfold sync_date.
  eapply sat_bind; [by apply sat_sync_files|]. intros p1 _.
  eapply (sat_bind _ _ P (λ _, True)).
  - destruct has_pv.
    + eapply sat_bind; [by apply sat_sync_files|]. intros pv _. by apply sat_ret.
    + by apply sat_ret.
  - intros final _. by apply sat_batch_insert_query.
Qed.

Lemma pass_sync_dates (sftp : remote F) (home_id : string) (has_pv : bool)
    (last_ts : option Z) (start_date end_date : Z) (classic_sync : bool)
    (P : event F → Prop) :
  (∀ q, P (EvExecute q)) → (∀ msg, P (EvWarning msg)) →
  (∀ table columns rows, P (EvLoad table columns rows)) →
  pass (sync_dates sftp home_id has_pv last_ts start_date end_date classic_sync) P
    home_id last_ts.
Proof.
  intros HE HW HL. unfold sync_dates.
  eapply pass_bind.
  - apply sat_for_each. intros date Hdate. by apply sat_sync_date.
  - intros _. by apply pass_check_last_ts.
Qed.

Lemma pass_process_home (home_id : string) (has_pv : bool) (hostname : option string)
    (connection : result (remote F)) (all_days : bool) (start_date end_date : option Z)
    (last_ts : option Z) (now : Z) :
  pass (process_home home_id has_pv hostname connection all_days start_date end_date
          last_ts now) (λ _, True) home_id last_ts.
Proof.
  unfold process_home. destruct hostname as [[|c host]|].
  1, 3: by apply (pass_of_sat _ _ (λ _, True)), sat_emit.
  eapply pass_bind; [by apply (sat_lift _ _ (λ _, True))|]. intros sftp.
  destruct all_days.
  { unfold sync_all_days. destruct (get_available_dates sftp).
    - by apply (pass_of_sat _ _ (λ _, True)), sat_emit.
    - by apply pass_sync_dates. }
  destruct start_date as [s|]; [by apply pass_sync_dates|].
  destruct end_date as [e|]; [by apply pass_sync_dates|].
  destruct last_ts as [last|]; [by apply pass_sync_dates|].
  apply (pass_of_sat _ _ (λ _, True)), sat_raise.
Qed.
End SyncRuns.

(** ** The watermark (sync_homewizard.py) *)

Lemma floor_s_whole (t : Z) : floor_s t mod ns_per_s = 0.
Proof. unfold floor_s. apply Z.mod_mul. done. Qed.

Lemma floor_s_le (t : Z) : floor_s t ≤ t.
Proof. unfold floor_s. rewrite Z.mul_comm. apply Z.mul_div_le. done. Qed.

Lemma floor_s_above (w t : Z) : w mod ns_per_s = 0 → w < t → w ≤ floor_s t.
Proof.
  intros Hw Hlt. unfold floor_s.
  pose proof (Z.div_mod w ns_per_s ltac:(done)) as Hd. rewrite Hw in Hd.
  assert (w / ns_per_s ≤ t / ns_per_s) as Hq by (apply Z.div_le_mono; [done|lia]).
  revert Hd Hq. generalize (w / ns_per_s) (t / ns_per_s). unfold ns_per_s. lia.
Qed.

Section Watermark.
Context {F : Type} `{Float F}.

Lemma watermark_whole (st : state F) (home_id : string) :
  whole_seconds st → watermark st home_id mod ns_per_s = 0.
Proof.
  intros Hst. unfold watermark.
  destruct (last_ts_table st !! home_id) as [t|] eqn:Ht; simpl; [by eapply Hst | done].
Qed.

Lemma advances_whole_seconds (st st' : state F) (home_id : string) :
  whole_seconds st →
  advances home_id (Some (watermark st home_id)) (last_ts_table st) (last_ts_table st') →
  whole_seconds st' ∧ ∀ h, watermark st h ≤ watermark st' h.
Proof.
  intros Hst [Heq|(new_ts & Hlt & Heq)].
  - split; [by intros h t; rewrite Heq; apply Hst|].
    intros h. unfold watermark. by rewrite Heq.
  - specialize (Hlt _ eq_refl). split.
    + intros h t. rewrite Heq. destruct (decide (home_id = h)) as [->|Hne].
      * rewrite lookup_insert_eq. intros [= <-]. apply floor_s_whole.
      * rewrite lookup_insert_ne by done. apply Hst.
    + intros h. unfold watermark at 2. rewrite Heq.
      destruct (decide (home_id = h)) as [->|Hne].
      * rewrite lookup_insert_eq. simpl. apply floor_s_above; [|done].
        by apply watermark_whole.
      * rewrite lookup_insert_ne by done. done.
Qed.

Lemma sync_home_advances (st : state F) (home_id : string) (has_pv : bool)
    (hostname : option string) (connection : result (remote F)) (all_days : bool)
    (start_date end_date : option Z) (now : Z) :
  advances home_id (Some (watermark st home_id)) (last_ts_table st)
    (last_ts_table (sync_home home_id has_pv hostname connection all_days start_date
                      end_date now st).2).
Proof.
  unfold sync_home.
  destruct (pass_process_home home_id has_pv hostname connection all_days start_date
              end_date (Some (watermark st home_id)) now st) as (new & _ & _ & Hadv).
  done.
Qed.

Lemma reachable_whole_seconds (st : state F) : reachable st → whole_seconds st.
Proof.
  induction 1 as [|st home_id has_pv hostname connection all_days s e now _ IH].
  - intros h t. simpl. by rewrite lookup_empty.
  - eapply advances_whole_seconds; [done|]. apply sync_home_advances.
Qed.

Lemma check_last_ts_table (st : state F) (home_id : string) (new_ts last : Z) :
  last_ts_table (check_last_ts home_id new_ts (Some last) st).2
  = if last <? new_ts then <[home_id := floor_s new_ts]> (last_ts_table st)
    else last_ts_table st.
Proof. unfold check_last_ts. by destruct (last <? new_ts). Qed.
End Watermark.

(** C1. In every state the store can reach, a sync pass of any site, in any
    mode and whatever it meets on the way (unknown host, failed connection,
    missing or unreadable day files), leaves every site's watermark greater
    than or equal to what it was; and [check_last_ts], given the stored
    watermark, leaves the later of it and the new timestamp (floored to the
    second, as it is written). *)
Theorem watermark_never_regresses {F : Type} `{Float F} (st : state F) :
  reachable st →
  (∀ (home_id : string) (has_pv : bool) (hostname : option string)
     (connection : result (remote F)) (all_days : bool) (start_date end_date : option Z)
     (now : Z) (h : string),
     watermark st h
     ≤ watermark (sync_home home_id has_pv hostname connection all_days start_date
                    end_date now st).2 h) ∧
  (∀ (home_id : string) (new_ts : Z),
     watermark (check_last_ts home_id new_ts (Some (watermark st home_id)) st).2 home_id
     = Z.max (watermark st home_id) (floor_s new_ts)).
Proof.
  intros Hst%reachable_whole_seconds. split.
  - intros. eapply advances_whole_seconds; [done|]. apply sync_home_advances.
  - intros home_id new_ts. unfold watermark at 1. rewrite check_last_ts_table.
    pose proof (watermark_whole st home_id Hst) as Hw.
    pose proof (floor_s_le new_ts).
    destruct (watermark st home_id <? new_ts) eqn:Hlt.
    + rewrite lookup_insert_eq. simpl. apply Z.ltb_lt in Hlt.
      pose proof (floor_s_above _ _ Hw Hlt). lia.
    + apply Z.ltb_ge in Hlt. fold (watermark st home_id). lia.
Qed.

(** ** Day files and ranges (sync_homewizard.py) *)

Lemma date_range_head (start_date end_date step : Z) :
  0 < step → start_date ≤ end_date →
  date_range start_date end_date step
  = start_date :: ((λ k, start_date + k * step)
                     <$> seqZ 1 ((end_date - start_date) / step)).
Proof.
  intros Hstep Hle. unfold date_range.
  assert (0 ≤ (end_date - start_date) / step) by (apply Z.div_pos; lia).
  rewrite seqZ_cons by lia. rewrite fmap_cons. f_equal; [lia|].
  f_equal. f_equal. lia.
Qed.

Lemma date_range_ge (start_date end_date step date : Z) :
  0 < step → date ∈ date_range start_date end_date step → start_date ≤ date.
Proof.
  intros Hstep (k & -> & Hk%elem_of_seqZ)%list_elem_of_fmap. nia.
Qed.

(** C2. When the primary day file of the first selected day is absent,
    [sync_files] logs the warning and then raises [UnboundLocalError] at
    [return df]; the exception leaves [sync_dates], so no later day is
    fetched and [check_last_ts] is not reached. *)
Theorem missing_day_file_aborts_pass {F : Type} `{Float F} (sftp : remote F)
    (home_id : string) (has_pv : bool) (last_ts : option Z) (start_date end_date : Z)
    (classic_sync : bool) (st : state F) :
  start_date ≤ end_date →
  remote_files sftp !! day_path start_date (day_filename home_id start_date "p1") = None →
  let st' :=
    mkState (trace st ++ [EvWarning (missing_file_warning
                                       (day_filename home_id start_date "p1") home_id)])
      (last_ts_table st) in
  sync_files sftp home_id start_date "p1" TBL_RAW_P1 classic_sync st
  = (Raise UnboundLocalError, st') ∧
  sync_dates sftp home_id has_pv last_ts start_date end_date classic_sync st
  = (Raise UnboundLocalError, st').
Proof.
  intros Hle Hmiss st'.
  assert (sync_files sftp home_id start_date "p1" TBL_RAW_P1 classic_sync st
          = (Raise UnboundLocalError, st')) as Hfiles.
  { unfold sync_files. by rewrite Hmiss. }
  split; [done|].
  unfold sync_dates. rewrite date_range_head by done.
  unfold bind at 1. simpl. unfold bind at 1. unfold sync_date at 1.
  unfold bind at 1. by rewrite Hfiles.
Qed.

Lemma incremental_start (last_ts now : Z) :
  (if now - last_ts <? FROM_FIRST_TS * ns_per_day then last_ts
   else now - FROM_FIRST_TS * ns_per_day)
  = Z.max last_ts (now - FROM_FIRST_TS * ns_per_day).
Proof.
  destruct (now - last_ts <? FROM_FIRST_TS * ns_per_day) eqn:Hlt.
  - apply Z.ltb_lt in Hlt. lia.
  - apply Z.ltb_ge in Hlt. lia.
Qed.

Lemma process_home_incremental {F : Type} `{Float F} (home_id : string) (has_pv : bool)
    (hostname : string) (sftp : remote F) (last_ts now : Z) (st : state F) :
  hostname ≠ EmptyString →
  process_home home_id has_pv (Some hostname) (Ok sftp) false None None (Some last_ts)
    now st
  = sync_dates sftp home_id has_pv (Some last_ts)
      (Z.max last_ts (now - FROM_FIRST_TS * ns_per_day)) now true st.
Proof.
  intros Hhost. destruct hostname as [|c hostname]; [done|].
  rewrite <- incremental_start. reflexivity.
Qed.

(** C3. With no [--all] flag and no start or end date, [process_home] of a
    site that has a host name, not the empty one (for which [if not
    hostname] returns before any range is made), syncs the range that starts
    at the later of the watermark and [now] minus the look-back horizon and
    ends at [now], with the classic-sync filter on; the start is the
    watermark exactly when [now] minus the watermark is less than the
    horizon. *)
Theorem process_home_incremental_range {F : Type} `{Float F} (home_id : string)
    (has_pv : bool) (hostname : string) (sftp : remote F) (last_ts now : Z)
    (st : state F) :
  hostname ≠ EmptyString →
  process_home home_id has_pv (Some hostname) (Ok sftp) false None None (Some last_ts)
    now st
  = sync_dates sftp home_id has_pv (Some last_ts)
      (Z.max last_ts (now - FROM_FIRST_TS * ns_per_day)) now true st ∧
  Z.max last_ts (now - FROM_FIRST_TS * ns_per_day)
  = (if now - last_ts <? FROM_FIRST_TS * ns_per_day then last_ts
     else now - FROM_FIRST_TS * ns_per_day).
Proof.
  intros Hhost. split.
  - by apply process_home_incremental.
  - symmetry. apply incremental_start.
Qed.

(** ** The classic-sync filter (sync_homewizard.py) *)

Section ClassicSync.
Context {F : Type} `{Float F}.

Lemma day_frame_classic (home_id : string) (date : Z) (file : csv_file F) :
  day_frame home_id date true file
  = match csv_rows file with
    | [] => Ok []
    | _ :: _ => Raise TypeError
    end.
Proof. unfold day_frame, read_csv. by destruct (csv_rows file). Qed.

Lemma day_frame_plain (home_id : string) (date : Z) (file : csv_file F) :
  day_frame home_id date false file
  = Ok ((λ '(i, line), (i, RawRow line home_id (day_column date))) <$> read_csv file).
Proof. done. Qed.

Lemma day_frame_nil (home_id : string) (date : Z) (classic_sync : bool)
    (file : csv_file F) :
  day_frame home_id date classic_sync file = Ok [] ↔ csv_rows file = [].
Proof.
  destruct classic_sync.
  - rewrite day_frame_classic. by destruct (csv_rows file).
  - rewrite day_frame_plain. unfold read_csv. by destruct (csv_rows file).
Qed.

(** What [day_frame] gives: every line of the file, nothing of a file
    without line, or under [classic_sync] the [TypeError] of the
    comparison. *)
Lemma day_frame_cases (home_id : string) (date : Z) (classic_sync : bool)
    (file : csv_file F) :
  (csv_rows file = [] ∧ day_frame home_id date classic_sync file = Ok [])
  ∨ (csv_rows file ≠ [] ∧ classic_sync = true
     ∧ day_frame home_id date classic_sync file = Raise TypeError)
  ∨ (csv_rows file ≠ [] ∧ classic_sync = false
     ∧ ∃ x df, day_frame home_id date classic_sync file = Ok (x :: df)).
Proof.
  destruct classic_sync.
  - rewrite day_frame_classic. destruct (csv_rows file); [by left|right; left; done].
  - rewrite day_frame_plain. unfold read_csv.
    destruct (csv_rows file) as [|line lines]; [by left|].
    right; right. split; [done|]. split; [done|]. by eexists _, _.
Qed.
End ClassicSync.

(** C4, as the code has it. The filter of an incremental pass,
    [df[df['timestamp'] >= date]], compares the strings of the timestamp
    column with a [pd.Timestamp]: on a day file that has a line it raises
    [TypeError], and only a file without line passes it. The exception
    leaves [sync_files] and the pass: when the primary file of the first day
    of the range has a line, the incremental pass of a site raises
    [TypeError] before anything is handed to the loader and before the
    watermark is compared. No row is filtered and none is loaded. *)
Theorem incremental_pass_filter_raises {F : Type} `{Float F} (home_id : string)
    (has_pv : bool) (hostname : string) (sftp : remote F) (last_ts now : Z)
    (file : csv_file F) (st : state F) :
  hostname ≠ EmptyString → last_ts ≤ now →
  let start_date := Z.max last_ts (now - FROM_FIRST_TS * ns_per_day) in
  remote_files sftp !! day_path start_date (day_filename home_id start_date "p1")
  = Some file →
  csv_rows file ≠ [] →
  (∀ (date : Z) (file' : csv_file F),
     day_frame home_id date true file'
     = match csv_rows file' with
       | [] => Ok []
       | _ :: _ => Raise TypeError
       end) ∧
  sync_files sftp home_id start_date "p1" TBL_RAW_P1 true st = (Raise TypeError, st) ∧
  process_home home_id has_pv (Some hostname) (Ok sftp) false None None (Some last_ts)
    now st
  = (Raise TypeError, st).
Proof.
  intros Hhost Hle start_date Hfile Hrows.
  split; [intros; apply day_frame_classic|].
  assert (sync_files sftp home_id start_date "p1" TBL_RAW_P1 true st
          = (Raise TypeError, st)) as Hfiles.
  { unfold sync_files. rewrite Hfile, day_frame_classic.
    by destruct (csv_rows file). }
  split; [done|].
  rewrite process_home_incremental by done. fold start_date.
  unfold sync_dates.
  rewrite date_range_head
    by (done || (subst start_date; unfold FROM_FIRST_TS, ns_per_day, ns_per_s; lia)).
  unfold bind at 1. cbn [for_each]. unfold bind at 1. unfold sync_date at 1.
  unfold bind at 1. by rewrite Hfiles.
Qed.

(** ** The power derivation (sync_homewizard.py) *)

Section PowerDerivation.
Context {F : Type} `{Float F}.

Lemma final_df_lookup (home_id : string) (p1 : frame (raw_row F)) (k i : nat)
    (r : raw_row F) :
  p1 !! k = Some (i, r) →
  final_df home_id p1 !! k
  = Some (i, PowerRow home_id (raw_day r) (timestamp (raw_line r))
               (active_power_w (raw_line r)) (Some f_zero) (active_power_w (raw_line r))).
Proof. intros Hk. unfold final_df. by rewrite list_lookup_fmap, Hk. Qed.

Lemma final_df_pv_lookup (final : frame (power_row F)) (pv : frame (raw_row F))
    (k i : nat) (p : power_row F) :
  final !! k = Some (i, p) →
  final_df_pv final pv !! k
  = Some (i, PowerRow (p_home_id p) (p_day p) (p_timestamp p) (p_cons p)
               (times_neg_one (production_at_label pv i))
               (plus (p_cons p) (times_neg_one (production_at_label pv i)))).
Proof.
  intros Hk. unfold final_df_pv. rewrite list_lookup_fmap, Hk. simpl.
  unfold production_at_label. by destruct (loc pv i).
Qed.

Lemma final_df_pv_lookup_inv (final : frame (power_row F)) (pv : frame (raw_row F))
    (k i : nat) (p : power_row F) :
  final_df_pv final pv !! k = Some (i, p) →
  p_prod p = times_neg_one (production_at_label pv i) ∧
  p_tot p = plus (p_cons p) (p_prod p).
Proof.
  intros Hk. destruct (final !! k) as [[j q]|] eqn:Hfinal.
  - rewrite (final_df_pv_lookup _ _ _ _ _ Hfinal) in Hk. by injection Hk as <- <-.
  - unfold final_df_pv in Hk. by rewrite list_lookup_fmap, Hfinal in Hk.
Qed.
End PowerDerivation.

(** C5, as the code has it. The derivation gives one record for each row of
    the primary frame, with that row's label and timestamp and with
    consumption equal to its active-power cell. Without a production meter
    the production is 0 and the net is the consumption. With one, the
    production is the negated active-power cell of the production row that
    carries the same index label (the position of the line in its day file),
    null when there is no such row, and the net is consumption plus that
    signed production. *)
Theorem power_derivation_by_label {F : Type} `{Float F} (home_id : string)
    (p1 pv : frame (raw_row F)) (k i : nat) (r : raw_row F) :
  p1 !! k = Some (i, r) →
  length (final_df home_id p1) = length p1 ∧
  length (final_df_pv (final_df home_id p1) pv) = length p1 ∧
  (∃ p, final_df home_id p1 !! k = Some (i, p) ∧
        p_timestamp p = timestamp (raw_line r) ∧
        p_cons p = active_power_w (raw_line r) ∧
        p_prod p = Some f_zero ∧
        p_tot p = p_cons p) ∧
  (∃ p, final_df_pv (final_df home_id p1) pv !! k = Some (i, p) ∧
        p_timestamp p = timestamp (raw_line r) ∧
        p_cons p = active_power_w (raw_line r) ∧
        p_prod p = times_neg_one (production_at_label pv i) ∧
        p_tot p = plus (p_cons p) (p_prod p)).
Proof.
  intros Hk. pose proof (final_df_lookup home_id p1 k i r Hk) as Hfinal.
  repeat split.
  - unfold final_df. by rewrite length_fmap.
  - unfold final_df_pv, final_df. by rewrite !length_fmap.
  - eexists. split; [exact Hfinal|]. done.
  - eexists. split; [exact (final_df_pv_lookup _ pv _ _ _ Hfinal)|]. done.
Qed.

(** C6, as the code has it. For a site with a production meter, the net of a
    derived record is its consumption minus the production cell found at the
    record's index label; when the production frame has no row of that label
    (a shorter file) or a null there (a gap), production and net are both
    null, and nothing is put in their place. *)
Theorem missing_production_by_label {F : Type} `{Float F} (home_id : string)
    (p1 pv : frame (raw_row F)) (k i : nat) (p : power_row F) :
  final_df_pv (final_df home_id p1) pv !! k = Some (i, p) →
  p_tot p = minus (p_cons p) (production_at_label pv i) ∧
  (production_at_label pv i = None → p_prod p = None ∧ p_tot p = None) ∧
  (∀ x, production_at_label pv i = Some x → p_prod p = Some (f_mul x f_neg_one)).
Proof.
  intros [Hprod Htot]%final_df_pv_lookup_inv. rewrite Htot, Hprod.
  destruct (production_at_label pv i) as [x|]; simpl.
  - split; [|split; [done|by intros ? [= <-]]].
    destruct (p_cons p) as [c|]; simpl; [|done]. by rewrite f_sub_neg.
  - split; [by destruct (p_cons p)|]. split; [|done].
    intros _. split; [done|by destruct (p_cons p)].
Qed.

(** ** The resampler (collect_homewizard_data.py) *)

Lemma index_min_spec (index : list Z) (m : Z) :
  index_min index = Some m ↔ m ∈ index ∧ Forall (λ t, m ≤ t) index.
Proof.
  destruct index as [|t index]; simpl.
  - split; [done|]. intros [Hm _]. by apply elem_of_nil in Hm.
  - assert (∀ a, foldr Z.min a index ∈ a :: index
                 ∧ Forall (λ x, foldr Z.min a index ≤ x) (a :: index)) as Hfold.
    { induction index as [|x index IH]; intros a; simpl.
      - split; [left|]. by repeat constructor.
      - destruct (IH a) as [Hin Hall]. apply Forall_cons in Hall as [Ha Hall].
        split.
        + destruct (Z.min_spec x (foldr Z.min a index)) as [[_ ->]|[_ ->]].
          * right; left.
          * apply elem_of_cons in Hin as [->|Hin]; [left|right; by right].
        + repeat constructor; [lia..|].
          eapply Forall_impl; [exact Hall|]. simpl. lia. }
    destruct (Hfold t) as [Hin Hall]. split.
    + by intros [= <-].
    + intros [Hm Hmall]. f_equal.
      rewrite Forall_forall in Hall, Hmall.
      specialize (Hall _ Hm). specialize (Hmall _ Hin). lia.
Qed.

Lemma index_max_spec (index : list Z) (m : Z) :
  index_max index = Some m ↔ m ∈ index ∧ Forall (λ t, t ≤ m) index.
Proof.
  destruct index as [|t index]; simpl.
  - split; [done|]. intros [Hm _]. by apply elem_of_nil in Hm.
  - assert (∀ a, foldr Z.max a index ∈ a :: index
                 ∧ Forall (λ x, x ≤ foldr Z.max a index) (a :: index)) as Hfold.
    { induction index as [|x index IH]; intros a; simpl.
      - split; [left|]. by repeat constructor.
      - destruct (IH a) as [Hin Hall]. apply Forall_cons in Hall as [Ha Hall].
        split.
        + destruct (Z.max_spec x (foldr Z.max a index)) as [[_ ->]|[_ ->]].
          * apply elem_of_cons in Hin as [->|Hin]; [left|right; by right].
          * right; left.
        + repeat constructor; [lia..|].
          eapply Forall_impl; [exact Hall|]. simpl. lia. }
    destruct (Hfold t) as [Hin Hall]. split.
    + by intros [= <-].
    + intros [Hm Hmall]. f_equal.
      rewrite Forall_forall in Hall, Hmall.
      specialize (Hall _ Hm). specialize (Hmall _ Hin). lia.
Qed.

Lemma date_range_elem (start_date end_date step t : Z) :
  0 < step →
  t ∈ date_range start_date end_date step
  ↔ ∃ k, t = start_date + k * step ∧ 0 ≤ k ∧ t ≤ end_date.
Proof.
  intros Hstep. unfold date_range. rewrite list_elem_of_fmap. split.
  - intros (k & -> & Hk%elem_of_seqZ). exists k. split; [done|]. split; [lia|].
    assert (k ≤ (end_date - start_date) / step) as Hk' by lia.
    pose proof (Z.mul_div_le (end_date - start_date) step Hstep). nia.
  - intros (k & -> & Hk & Hle). exists k. split; [done|]. apply elem_of_seqZ.
    split; [lia|]. 
    assert (k ≤ (end_date - start_date) / step); [|lia].
    apply Z.div_le_lower_bound; [done|]. lia.
Qed.

Lemma date_range_sorted (start_date end_date step : Z) :
  0 < step → StronglySorted Z.lt (date_range start_date end_date step).
Proof.
  intros Hstep. unfold date_range.
  generalize ((end_date - start_date) / step + 1). intros n.
  assert (∀ (len : nat) m,
            StronglySorted Z.lt ((λ k, start_date + k * step) <$> seqZ m (Z.of_nat len)))
    as Hlen.
  { induction len as [|len IH]; intros m.
    - constructor.
    - rewrite seqZ_cons by lia. rewrite fmap_cons.
      replace (Z.pred (Z.of_nat (S len))) with (Z.of_nat len) by lia.
      constructor; [apply IH|].
      apply Forall_fmap, Forall_forall. intros k Hk%elem_of_seqZ. simpl. nia. }
  destruct (decide (0 ≤ n)) as [Hn|Hn].
  - rewrite <- (Z2Nat.id n Hn). apply Hlen.
  - replace (seqZ 0 n) with (@nil Z); [constructor|].
    symmetry. apply length_zero_iff_nil. rewrite length_seqZ. lia.
Qed.

Section Bins.
Context {F : Type} `{Float F}.

Lemma at_index_None (data : list (reading F)) (t : Z) :
  t ∉ r_timestamp <$> data → at_index data t = None.
Proof.
  induction data as [|r data IH]; simpl; [done|].
  intros Hnot. apply not_elem_of_cons in Hnot as [Hne Hnot].
  destruct (decide (r_timestamp r = t)); [congruence|]. by apply IH.
Qed.

Lemma bin_reindex (P : Z → Prop) `{∀ t, Decision (P t)} (grid : list Z)
    (data : list (reading F)) :
  StronglySorted Z.lt grid →
  StronglySorted Z.lt (r_timestamp <$> data) →
  Forall (λ r, r_timestamp r ∈ grid) data →
  omap (λ t, if decide (P t) then at_index data t else None) grid
  = r_value <$> filter (λ r, P (r_timestamp r)) data.
Proof.
  intros Hgrid. revert data.
  induction Hgrid as [|g grid Hgrid IH Hg]; intros data Hdata Hin.
  - destruct data as [|r data]; [done|].
    apply Forall_cons in Hin as [Hr _]. by apply elem_of_nil in Hr.
  - rewrite Forall_forall in Hg.
    destruct data as [|r data].
    + specialize (IH [] ltac:(constructor) ltac:(constructor)).
      cbn in IH |- *. by destruct (decide (P g)).
    + rewrite fmap_cons in Hdata. apply StronglySorted_inv in Hdata as [Hdata Hr].
      rewrite Forall_forall in Hr.
      apply Forall_cons in Hin as [Hrin Hin].
      destruct (decide (r_timestamp r = g)) as [Heq|Hne].
      * assert (omap (λ t, if decide (P t) then at_index (r :: data) t else None) grid
                = omap (λ t, if decide (P t) then at_index data t else None) grid) as Hext.
        { apply list_omap_ext, Forall_Forall2_diag, Forall_forall. intros t Ht. simpl.
          destruct (decide (r_timestamp r = t)) as [Heq'|]; [|done].
          specialize (Hg _ Ht). lia. }
        cbn [omap list_omap]. rewrite Hext.
        rewrite IH; [|done|].
        2: { rewrite Forall_forall in Hin |- *. intros r' Hr'.
             specialize (Hin _ Hr'). apply elem_of_cons in Hin as [Heq'|]; [|done].
             pose proof (Hr _ (list_elem_of_fmap_2 r_timestamp _ _ Hr')). lia. }
        rewrite filter_cons. simpl. rewrite (decide_True (P:=r_timestamp r = g)) by done.
        destruct (decide (P g)) as [HP|HP], (decide (P (r_timestamp r))) as [HP'|HP'];
          try done; by rewrite Heq in HP'.
      * apply elem_of_cons in Hrin as [?|Hrin]; [done|].
        pose proof (Hg _ Hrin) as Hlt.
        cbn [omap list_omap]. rewrite IH.
        2: { rewrite fmap_cons. by constructor; [|apply Forall_forall]. }
        2: { constructor; [done|].
             rewrite Forall_forall in Hin |- *. intros r' Hr'.
             specialize (Hin _ Hr'). apply elem_of_cons in Hin as [Heq'|]; [|done].
             specialize (Hr (r_timestamp r')
                           ltac:(by apply list_elem_of_fmap_2)). lia. }
        rewrite filter_cons. cbn [at_index].
        rewrite (decide_False (P:=r_timestamp r = g)) by done.
        rewrite at_index_None.
        2: { intros [r' [Heq' Hr']]%list_elem_of_fmap.
             pose proof (Hr _ (list_elem_of_fmap_2 r_timestamp _ _ Hr')). lia. }
        by destruct (decide (P g)).
Qed.
End Bins.

Lemma strongly_sorted_NoDup (l : list Z) : StronglySorted Z.lt l → NoDup l.
Proof.
  induction 1 as [|x l _ IH Hx]; constructor; [|done].
  rewrite Forall_forall in Hx. intros Hin. specialize (Hx _ Hin). lia.
Qed.

Section Resampling.
Context {F : Type} `{Float F}.

Lemma bin_reindexed (data : list (reading F)) (grid : list Z) (s : Z) :
  StronglySorted Z.lt grid →
  StronglySorted Z.lt (r_timestamp <$> data) →
  Forall (λ r, r_timestamp r ∈ grid) data →
  bin ((λ t, (t, at_index data t)) <$> grid) s = readings_in data s.
Proof.
  intros Hgrid Hdata Hin. unfold bin, readings_in.
  etrans; [|exact (bin_reindex (λ t, floor_s t = s) grid data Hgrid Hdata Hin)].
  clear. induction grid as [|g grid IH]; [done|].
  cbn. by rewrite IH.
Qed.

Lemma mean_None (values : list F) : mean values = None ↔ values = [].
Proof. by destruct values. Qed.

Lemma readings_in_nil (data : list (reading F)) (s : Z) :
  readings_in data s = [] ↔ ∀ r, r ∈ data → floor_s (r_timestamp r) ≠ s.
Proof.
  unfold readings_in. split.
  - intros Hnil%fmap_nil_inv r Hr Hs.
    exact (filter_nil_not_elem_of (λ r, floor_s (r_timestamp r) = s) _ _ Hnil Hs Hr).
  - intros Hall.
    destruct (filter (λ r, floor_s (r_timestamp r) = s) data) as [|r l] eqn:Hf; [done|].
    assert (r ∈ filter (λ r, floor_s (r_timestamp r) = s) data) as Hr
      by (rewrite Hf; left).
    apply list_elem_of_filter in Hr as [Hs Hr]. by destruct (Hall r Hr).
Qed.

Lemma flush_window_on_grid (data : list (reading F)) (tmin tmax : Z) :
  flush_window data →
  index_min (r_timestamp <$> data) = Some tmin →
  index_max (r_timestamp <$> data) = Some tmax →
  Forall (λ r, r_timestamp r ∈ date_range tmin tmax half_second) data.
Proof.
  intros (_ & _ & Hgrid) [Hmin Hlo]%index_min_spec [_ Hhi]%index_max_spec.
  rewrite Forall_forall in Hgrid. rewrite Forall_forall in Hlo.
  rewrite Forall_forall in Hhi. apply Forall_forall. intros r Hr.
  apply list_elem_of_fmap in Hmin as (r0 & -> & Hr0).
  pose proof (Hgrid _ Hr) as Hmod. pose proof (Hgrid _ Hr0) as Hmod0. simpl in *.
  pose proof (Hlo _ (list_elem_of_fmap_2 r_timestamp _ _ Hr)).
  pose proof (Hhi _ (list_elem_of_fmap_2 r_timestamp _ _ Hr)).
  apply date_range_elem; [done|].
  exists (r_timestamp r / half_second - r_timestamp r0 / half_second).
  pose proof (Z.div_mod (r_timestamp r) half_second ltac:(done)).
  pose proof (Z.div_mod (r_timestamp r0) half_second ltac:(done)).
  split; [lia|]. split; [|done].
  assert (r_timestamp r0 / half_second ≤ r_timestamp r / half_second)
    by (by apply Z.div_le_mono). lia.
Qed.

(** The rows [save_to_csv] writes for a flush window. *)
Lemma save_to_csv_flush_window (data : list (reading F)) (tmin tmax : Z) :
  flush_window data →
  index_min (r_timestamp <$> data) = Some tmin →
  index_max (r_timestamp <$> data) = Some tmax →
  save_to_csv data
  = Ok ((λ s, (s, mean (readings_in data s)))
          <$> date_range (floor_s tmin) (floor_s tmax) ns_per_s).
Proof.
  intros Hwin Hmin Hmax.
  pose proof (flush_window_on_grid data tmin tmax Hwin Hmin Hmax) as Hgrid.
  destruct Hwin as (Hne & Hsorted & _).
  unfold save_to_csv. rewrite Hmin, Hmax. unfold reindex.
  rewrite decide_True by by apply strongly_sorted_NoDup.
  simpl. f_equal. unfold resample_mean.
  rewrite <- list_fmap_compose.
  replace ((fst ∘ (λ t, (t, at_index data t))) <$> date_range tmin tmax half_second)
    with (date_range tmin tmax half_second) by (by rewrite <- (list_fmap_id) at 1).
  apply index_min_spec in Hmin as Hmin'. destruct Hmin' as [Hmin' Hlo].
  apply index_max_spec in Hmax as Hmax'. destruct Hmax' as [Hmax' Hhi].
  apply list_elem_of_fmap in Hmin' as (r0 & Ht0 & Hr0).
  apply list_elem_of_fmap in Hmax' as (r1 & Ht1 & Hr1).
  rewrite Forall_forall in Hgrid.
  assert (index_min (date_range tmin tmax half_second) = Some tmin) as ->.
  { apply index_min_spec. pose proof (Hgrid _ Hr0) as Hin. rewrite <- Ht0 in Hin.
    split; [done|].
    apply Forall_forall. intros t Ht.
    by apply (date_range_ge tmin tmax half_second). }
  assert (index_max (date_range tmin tmax half_second) = Some tmax) as ->.
  { apply index_max_spec. pose proof (Hgrid _ Hr1) as Hin. rewrite <- Ht1 in Hin.
    split; [done|].
    apply Forall_forall. intros t (k & _ & _ & Hle)%date_range_elem; done. }
  apply list_fmap_ext. intros _ s _. f_equal. f_equal.
  apply bin_reindexed; [by apply date_range_sorted|done|by apply Forall_forall].
Qed.
End Resampling.

Lemma date_range_length (start_date end_date step : Z) :
  length (date_range start_date end_date step)
  = Z.to_nat ((end_date - start_date) / step + 1).
Proof. unfold date_range. by rewrite length_fmap, length_seqZ. Qed.

Lemma date_range_lookup (start_date end_date step : Z) (k : nat) :
  (k < length (date_range start_date end_date step))%nat →
  date_range start_date end_date step !! k = Some (start_date + Z.of_nat k * step).
Proof.
  rewrite date_range_length. intros Hk. unfold date_range.
  rewrite list_lookup_fmap, lookup_seqZ_lt by lia. done.
Qed.

Lemma floor_s_span (tmin tmax : Z) :
  tmin ≤ tmax →
  0 ≤ (floor_s tmax - floor_s tmin) / ns_per_s ∧
  floor_s tmin + (floor_s tmax - floor_s tmin) / ns_per_s * ns_per_s = floor_s tmax.
Proof.
  intros Hle. unfold floor_s.
  assert (tmin / ns_per_s ≤ tmax / ns_per_s) as Hq by (by apply Z.div_le_mono).
  rewrite <- Z.mul_sub_distr_r, Z.div_mul by done. lia.
Qed.

(** C7. For every flush window (readings in the order they were sampled, at
    ticks of the half-second grid), [save_to_csv] writes exactly one row for
    each whole second from the second of the earliest reading to the second
    of the latest one: row [k] is stamped [k] seconds after the first, so the
    timestamps are strictly increasing, one second apart, without duplicate
    or gap. The value of a row is the mean of the readings whose timestamp
    falls in its second, and it is null exactly when no reading does. *)
Theorem resample_one_row_per_second {F : Type} `{Float F} (data : list (reading F)) :
  flush_window data →
  ∃ tmin tmax rows,
    index_min (r_timestamp <$> data) = Some tmin ∧
    index_max (r_timestamp <$> data) = Some tmax ∧
    save_to_csv data = Ok rows ∧
    Z.of_nat (length rows) = (floor_s tmax - floor_s tmin) / ns_per_s + 1 ∧
    floor_s tmin + (Z.of_nat (length rows) - 1) * ns_per_s = floor_s tmax ∧
    ∀ k : nat, (k < length rows)%nat →
      let s := floor_s tmin + Z.of_nat k * ns_per_s in
      ∃ v, rows !! k = Some (s, v) ∧
           v = mean (readings_in data s) ∧
           (v = None ↔ ∀ r, r ∈ data → floor_s (r_timestamp r) ≠ s).
Proof.
  intros Hwin.
  destruct (index_min (r_timestamp <$> data)) as [tmin|] eqn:Hmin.
  2: { destruct Hwin as [Hne _]. by destruct data. }
  destruct (index_max (r_timestamp <$> data)) as [tmax|] eqn:Hmax.
  2: { destruct Hwin as [Hne _]. by destruct data. }
  assert (tmin ≤ tmax) as Hle.
  { apply index_min_spec in Hmin as [Hin _]. apply index_max_spec in Hmax as [_ Hhi].
    rewrite Forall_forall in Hhi. by apply Hhi. }
  destruct (floor_s_span tmin tmax Hle) as [Hspan Hlast].
  exists tmin, tmax. eexists. split; [done|]. split; [done|].
  split; [by apply save_to_csv_flush_window|].
  rewrite length_fmap, date_range_length.
  split; [lia|]. split; [rewrite <- Hlast at 2; f_equal; lia|].
  intros k Hk s. eexists. split.
  - rewrite list_lookup_fmap, date_range_lookup by (by rewrite date_range_length). done.
  - split; [done|]. by rewrite mean_None, readings_in_nil.
Qed.

(** ** Concrete runs *)

(** C1 at the store left by a pass that advanced the watermark of "site" to
    ten seconds. *)
Lemma watermark_never_regresses_witness :
  reachable store_after_one_pass ∧
  ((∀ (home_id : string) (has_pv : bool) (hostname : option string)
      (connection : result (remote Q)) (all_days : bool) (start_date end_date : option Z)
      (now : Z) (h : string),
      watermark store_after_one_pass h
      ≤ watermark (sync_home home_id has_pv hostname connection all_days start_date
                     end_date now store_after_one_pass).2 h) ∧
   (∀ (home_id : string) (new_ts : Z),
      watermark (check_last_ts home_id new_ts
                   (Some (watermark store_after_one_pass home_id))
                   store_after_one_pass).2 home_id
      = Z.max (watermark store_after_one_pass home_id) (floor_s new_ts))).
Proof.
  split.
  - unfold store_after_one_pass. apply reachable_sync, reachable_init.
  - apply watermark_never_regresses.
    unfold store_after_one_pass. apply reachable_sync, reachable_init.
Defined.

(** C2 on a site with no file: the one-day pass over 1970-01-01 raises. *)
Lemma missing_day_file_aborts_pass_witness :
  (0 ≤ ns_per_day ∧
   remote_files site_no_file !! day_path 0 (day_filename "site" 0 "p1") = None) ∧
  let st' :=
    mkState (trace empty_store
             ++ [EvWarning (missing_file_warning (day_filename "site" 0 "p1") "site")])
      (last_ts_table empty_store) in
  sync_files site_no_file "site" 0 "p1" TBL_RAW_P1 false empty_store
  = (Raise UnboundLocalError, st') ∧
  sync_dates site_no_file "site" false (Some 0) 0 ns_per_day false empty_store
  = (Raise UnboundLocalError, st').
Proof.
  split; [split; [done | reflexivity]|].
  apply (missing_day_file_aborts_pass site_no_file "site" false (Some 0) 0 ns_per_day
           false empty_store); [done | reflexivity].
Defined.

(** C3 for a site whose watermark is five seconds old. *)
Lemma process_home_incremental_range_witness :
  "10.8.0.2"%string ≠ EmptyString ∧
  process_home "site" false (Some "10.8.0.2"%string) (Ok site_one_day) false None None
    (Some (seconds 101)) (seconds 106) empty_store
  = sync_dates site_one_day "site" false (Some (seconds 101))
      (Z.max (seconds 101) (seconds 106 - FROM_FIRST_TS * ns_per_day)) (seconds 106) true
      empty_store ∧
  Z.max (seconds 101) (seconds 106 - FROM_FIRST_TS * ns_per_day)
  = (if seconds 106 - seconds 101 <? FROM_FIRST_TS * ns_per_day then seconds 101
     else seconds 106 - FROM_FIRST_TS * ns_per_day).
Proof.
  assert ("10.8.0.2"%string ≠ EmptyString) as Hhost by done.
  split; [exact Hhost|].
  exact (process_home_incremental_range "site" false "10.8.0.2" site_one_day
           (seconds 101) (seconds 106) empty_store Hhost).
Defined.

(** C4 on the second incremental pass of a site whose watermark is second
    101 and whose day file has the lines of seconds 100 and 101: the pass
    raises at the comparison and the store is as it was. *)
Lemma incremental_pass_filter_raises_witness :
  ("10.8.0.2"%string ≠ EmptyString ∧ seconds 101 ≤ seconds 106 ∧
   remote_files site_one_day
     !! day_path (Z.max (seconds 101) (seconds 106 - FROM_FIRST_TS * ns_per_day))
          (day_filename "site"
             (Z.max (seconds 101) (seconds 106 - FROM_FIRST_TS * ns_per_day)) "p1")
   = Some (CsvFile [] [CsvRow (seconds 100) (Some 5%Q) [];
                       CsvRow (seconds 101) (Some 6%Q) []]) ∧
   csv_rows (CsvFile [] [CsvRow (seconds 100) (Some 5%Q) [];
                         CsvRow (seconds 101) (Some 6%Q) []]) ≠ []) ∧
  (∀ (date : Z) (file' : csv_file Q),
     day_frame "site" date true file'
     = match csv_rows file' with
       | [] => Ok []
       | _ :: _ => Raise TypeError
       end) ∧
  sync_files site_one_day "site"
    (Z.max (seconds 101) (seconds 106 - FROM_FIRST_TS * ns_per_day)) "p1" TBL_RAW_P1 true
    empty_store
  = (Raise TypeError, empty_store) ∧
  process_home "site" false (Some "10.8.0.2"%string) (Ok site_one_day) false None None
    (Some (seconds 101)) (seconds 106) empty_store
  = (Raise TypeError, empty_store).
Proof.
  assert ("10.8.0.2"%string ≠ EmptyString) as Hhost by done.
  assert (seconds 101 ≤ seconds 106) as Hle by done.
  assert (remote_files site_one_day
            !! day_path (Z.max (seconds 101) (seconds 106 - FROM_FIRST_TS * ns_per_day))
                 (day_filename "site"
                    (Z.max (seconds 101) (seconds 106 - FROM_FIRST_TS * ns_per_day)) "p1")
          = Some (CsvFile [] [CsvRow (seconds 100) (Some 5%Q) [];
                              CsvRow (seconds 101) (Some 6%Q) []])) as Hfile
    by reflexivity.
  assert (csv_rows (CsvFile [] [CsvRow (seconds 100) (Some 5%Q) [];
                                CsvRow (seconds 101) (Some 6%Q) []]) ≠ []) as Hrows
    by done.
  split; [by repeat split|].
  exact (incremental_pass_filter_raises "site" false "10.8.0.2" site_one_day
           (seconds 101) (seconds 106) _ empty_store Hhost Hle Hfile Hrows).
Defined.

(** C5 on a primary file of two seconds and a production file that starts
    one second later. *)
Lemma power_derivation_by_label_witness :
  p1_two_seconds !! 0%nat
  = Some (0%nat, RawRow (CsvRow (seconds 100) (Some 5%Q) []) "site" "1970-1-1") ∧
  length (final_df "site" p1_two_seconds) = length p1_two_seconds ∧
  length (final_df_pv (final_df "site" p1_two_seconds) pv_one_second_late)
  = length p1_two_seconds ∧
  (∃ p, final_df "site" p1_two_seconds !! 0%nat = Some (0%nat, p) ∧
        p_timestamp p = seconds 100 ∧ p_cons p = Some 5%Q ∧
        p_prod p = Some f_zero ∧ p_tot p = p_cons p) ∧
  (∃ p, final_df_pv (final_df "site" p1_two_seconds) pv_one_second_late !! 0%nat
        = Some (0%nat, p) ∧
        p_timestamp p = seconds 100 ∧ p_cons p = Some 5%Q ∧
        p_prod p = times_neg_one (production_at_label pv_one_second_late 0) ∧
        p_tot p = plus (p_cons p) (p_prod p)).
Proof.
  split; [reflexivity|].
  exact (power_derivation_by_label "site" p1_two_seconds pv_one_second_late 0 0
           (RawRow (CsvRow (seconds 100) (Some 5%Q) []) "site" "1970-1-1") eq_refl).
Defined.

(** The derivation on those two files: the record of second 100 takes the
    production of second 101, and the record of second 101, for which the
    production file has a value, gets none. The claim of alignment by
    timestamp fails on both records. *)
Lemma production_not_aligned_by_timestamp :
  let out := final_df_pv (final_df "site" p1_two_seconds) pv_one_second_late in
  out = [ (0%nat, PowerRow "site" "1970-1-1" (seconds 100) (Some 5%Q) (Some (-2)%Q)
                    (Some 3%Q));
          (1%nat, PowerRow "site" "1970-1-1" (seconds 101) (Some 6%Q) None None) ] ∧
  production_at_timestamp pv_one_second_late (seconds 100) = None ∧
  production_at_timestamp pv_one_second_late (seconds 101) = Some 2%Q ∧
  ¬ (∀ k i p, out !! k = Some (i, p) →
              p_prod p
              = times_neg_one (production_at_timestamp pv_one_second_late (p_timestamp p))).
Proof.
  repeat split. intros Hclaim.
  specialize (Hclaim 1%nat 1%nat _ eq_refl). discriminate Hclaim.
Qed.

(** C6 on the record of second 101 of those files, whose label the
    production file lacks. *)
Lemma missing_production_by_label_witness :
  let p := PowerRow "site" "1970-1-1" (seconds 101) (Some 6%Q) None None in
  final_df_pv (final_df "site" p1_two_seconds) pv_one_second_late !! 1%nat
  = Some (1%nat, p) ∧
  p_tot p = minus (p_cons p) (production_at_label pv_one_second_late 1) ∧
  (production_at_label pv_one_second_late 1 = None → p_prod p = None ∧ p_tot p = None) ∧
  (∀ x, production_at_label pv_one_second_late 1 = Some x →
        p_prod p = Some (f_mul x f_neg_one)).
Proof.
  intros p. split; [reflexivity|].
  exact (missing_production_by_label "site" p1_two_seconds pv_one_second_late 1 1 p
           eq_refl).
Defined.

(** The derivation on a primary and a production file that share no second:
    the production series has no value for second 100, yet the record of
    second 100 has a production and a net. *)
Lemma missing_production_second_not_null :
  let out := final_df_pv (final_df "site" p1_one_second) pv_other_second in
  out = [ (0%nat, PowerRow "site" "1970-1-1" (seconds 100) (Some 5%Q) (Some (-2)%Q)
                    (Some 3%Q)) ] ∧
  production_at_timestamp pv_other_second (seconds 100) = None ∧
  ¬ (∀ k i p, out !! k = Some (i, p) →
              production_at_timestamp pv_other_second (p_timestamp p) = None →
              p_prod p = None ∧ p_tot p = None).
Proof.
  repeat split. intros Hclaim.
  destruct (Hclaim 0%nat 0%nat _ eq_refl eq_refl) as [Hprod _]. discriminate Hprod.
Qed.

(** C7 on a window of three ticks: seconds 5, 6 and 7, the second one null. *)
Lemma resample_one_row_per_second_witness :
  flush_window window_three_ticks ∧
  ∃ tmin tmax rows,
    index_min (r_timestamp <$> window_three_ticks) = Some tmin ∧
    index_max (r_timestamp <$> window_three_ticks) = Some tmax ∧
    save_to_csv window_three_ticks = Ok rows ∧
    Z.of_nat (length rows) = (floor_s tmax - floor_s tmin) / ns_per_s + 1 ∧
    floor_s tmin + (Z.of_nat (length rows) - 1) * ns_per_s = floor_s tmax ∧
    ∀ k : nat, (k < length rows)%nat →
      let s := floor_s tmin + Z.of_nat k * ns_per_s in
      ∃ v, rows !! k = Some (s, v) ∧
           v = mean (readings_in window_three_ticks s) ∧
           (v = None ↔ ∀ r, r ∈ window_three_ticks → floor_s (r_timestamp r) ≠ s).
Proof.
  assert (flush_window window_three_ticks) as Hwin.
  { split; [done|]. split; [|by repeat constructor].
    repeat (constructor; [|by repeat constructor]). constructor. }
  split; [exact Hwin|]. exact (resample_one_row_per_second window_three_ticks Hwin).
Defined.

(** * Further properties *)

(** ** Rendering (py_to_cassandra.py) *)

Lemma string_app_assoc (a b c : string) : (a +:+ b) +:+ c = a +:+ (b +:+ c).
Proof.
  induction a as [|x a IH]; [done|].
  change (String x ((a +:+ b) +:+ c) = String x (a +:+ b +:+ c)). by rewrite IH.
Qed.

Lemma string_app_nil_r (a : string) : a +:+ EmptyString = a.
Proof.
  induction a as [|x a IH]; [done|].
  change (String x (a +:+ EmptyString) = String x a). by rewrite IH.
Qed.

Lemma drop_last_snoc (a : string) (c : Ascii.ascii) :
  drop_last (a +:+ String c EmptyString) = a.
Proof.
  induction a as [|x a IH]; [done|].
  change (drop_last (String x (a +:+ String c EmptyString)) = String x a).
  cbn [drop_last]. rewrite IH. by destruct a.
Qed.

Lemma join_cons_cons (sep x y : string) (l : list string) :
  join sep (x :: y :: l)%list = x +:+ sep +:+ join sep (y :: l)%list.
Proof. done. Qed.

Section QuotedElements.
Context {F : Type}.

Lemma quote_elements_strings (l : list string) (acc : string) (v : option string) :
  quote_elements (F:=F) (PStr <$> l) acc v
  = Ok (foldl (λ a s, a +:+ quoted s +:+ ",") acc l, from_option Some v (last l)).
Proof.
  revert acc v. induction l as [|s l IH]; intros acc v; simpl; [done|].
  rewrite IH. f_equal. f_equal.
  - unfold quoted. by rewrite !string_app_assoc.
  - destruct l as [|s' l]; [done|].
    change (last (s :: s' :: l)) with (last (s' :: l)).
    destruct (last (s' :: l)) as [x|] eqn:Hlast; [done|].
    by apply last_None in Hlast.
Qed.

Lemma foldl_quoted (l : list string) (acc x : string) :
  foldl (λ a s, a +:+ quoted s +:+ ",") (acc +:+ quoted x +:+ ",") l
  = acc +:+ join "," (quoted <$> (x :: l)%list) +:+ ",".
Proof.
  revert acc x. induction l as [|y l IH]; intros acc x.
  - simpl. done.
  - cbn [foldl]. rewrite IH. rewrite !fmap_cons, join_cons_cons.
    by rewrite !string_app_assoc.
Qed.
End QuotedElements.

Section FormattedValues.
Context {F : Type}.

Lemma strings_of_Some (l : list (pyval F)) (ss : list string) :
  strings_of l = Some ss → l = PStr <$> ss.
Proof.
  revert ss. induction l as [|val l IH]; intros ss; simpl.
  - by intros [= <-].
  - destruct val; try done.
    destruct (strings_of l) as [ss'|]; [|done]. intros [= <-].
    by rewrite (IH ss').
Qed.

Lemma formatted_list (s : string) (ss : list string) (v : option string) :
  ∃ v', quote_elements (F:=F) (PStr <$> s :: ss) "[" v
        = Ok ("[" +:+ join "," (quoted <$> s :: ss) +:+ ",", v').
Proof.
  eexists. rewrite quote_elements_strings. cbn [foldl].
  by rewrite (foldl_quoted ss "[" s).
Qed.

Lemma get_right_format_loop_formatted (values : list (pyval F)) (out res : list string)
    (v : option string) :
  Forall2 (λ val s, formatted val = Some s) values out →
  get_right_format_loop values res v = Ok (res ++ out).
Proof.
  intros Hvalues. revert res v.
  induction Hvalues as [|val s values out Hval _ IH]; intros res v.
  - by rewrite app_nil_r.
  - rewrite (cons_middle s res out), app_assoc.
    destruct val as [x|l| | | |]; try done.
    + injection Hval as <-. apply IH.
    + cbn [formatted] in Hval.
      destruct (strings_of l) as [[|x ss]|] eqn:Hl; try done.
      * replace s with "]"%string by congruence.
        apply strings_of_Some in Hl as ->. apply IH.
      * replace s with ("[" +:+ join "," (quoted <$> x :: ss) +:+ "]") by congruence.
        apply strings_of_Some in Hl as ->.
        cbn [get_right_format_loop].
        destruct (formatted_list x ss v) as [v' ->].
        rewrite <- string_app_assoc, drop_last_snoc. apply IH.
Qed.

Lemma get_right_format_loop_length (values : list (pyval F)) (res out : list string)
    (v : option string) :
  get_right_format_loop values res v = Ok out →
  length out = (length res + length values)%nat.
Proof.
  revert res v. induction values as [|val values IH]; intros res v; simpl.
  - intros [= <-]. lia.
  - destruct val as [x|l| | | |].
    + intros ->%IH. rewrite length_app. simpl. lia.
    + destruct (quote_elements l "[" v) as [[_list v']|]; [|done].
      intros ->%IH. rewrite length_app. simpl. lia.
    + by destruct v.
    + destruct v; [|done]. intros ->%IH. rewrite length_app. simpl. lia.
    + destruct v; [|done]. intros ->%IH. rewrite length_app. simpl. lia.
    + destruct v; [|done]. intros ->%IH. rewrite length_app. simpl. lia.
Qed.
End FormattedValues.

Lemma get_ordering_fold (ordering : list (string * string)) (acc : string)
    (item : string * string) :
  fold_left (λ res '(col_name, ordering_type),
               res +:+ col_name +:+ " " +:+ ordering_type +:+ ",")
    (item :: ordering) acc
  = acc +:+ join "," (ordering_item <$> item :: ordering) +:+ ",".
Proof.
  revert acc item. induction ordering as [|item' ordering IH]; intros acc [c o].
  - change (acc +:+ c +:+ " " +:+ o +:+ "," = acc +:+ (c +:+ " " +:+ o) +:+ ",").
    by rewrite !string_app_assoc.
  - change (fold_left (λ res '(col_name, ordering_type),
                         res +:+ col_name +:+ " " +:+ ordering_type +:+ ",")
              (item' :: ordering) (acc +:+ c +:+ " " +:+ o +:+ ",")
            = acc +:+ join "," (ordering_item <$> (c, o) :: item' :: ordering) +:+ ",").
    rewrite IH, !fmap_cons, join_cons_cons.
    change (ordering_item (c, o)) with (c +:+ " " +:+ o).
    by rewrite !string_app_assoc.
Qed.

Lemma join_app (sep x y : string) (l1 l2 : list string) :
  join sep ((x :: l1) ++ y :: l2)%list
  = join sep (x :: l1)%list +:+ sep +:+ join sep (y :: l2)%list.
Proof.
  revert x. induction l1 as [|z l1 IH]; intros x; [done|].
  change (join sep (x :: ((z :: l1) ++ y :: l2))%list
          = join sep (x :: z :: l1)%list +:+ sep +:+ join sep (y :: l2)%list).
  rewrite join_cons_cons.
  change (join sep (x :: z :: (l1 ++ y :: l2))%list
          = (x +:+ sep +:+ join sep (z :: l1)%list) +:+ sep +:+ join sep (y :: l2)%list).
  rewrite join_cons_cons.
  change (x +:+ sep +:+ join sep ((z :: l1) ++ y :: l2)%list
          = (x +:+ sep +:+ join sep (z :: l1)%list) +:+ sep +:+ join sep (y :: l2)%list).
  rewrite IH. by rewrite !string_app_assoc.
Qed.


(** X1. For a row that holds only strings and lists of strings,
    [get_right_format] returns the text of each value in order: a string
    between single quotes, a list as the bracketed, comma-separated sequence
    of its quoted elements, the empty list as a lone closing bracket; and
    [get_insert_query] embeds them in the column order of the row. *)
Theorem get_right_format_strings_and_lists {F : Type} (keyspace table : string)
    (columns : list string) (values : list (pyval F)) (out : list string) :
  Forall2 (λ val s, formatted val = Some s) values out →
  get_right_format values = Ok out ∧
  get_insert_query keyspace table columns values
  = Ok ("INSERT INTO " +:+ keyspace +:+ "." +:+ table +:+ " (" +:+ join "," columns
        +:+ ") VALUES (" +:+ join "," out +:+ ");").
Proof.
  intros Hvalues.
  assert (get_right_format values = Ok out) as Hout
    by apply (get_right_format_loop_formatted values out [] None Hvalues).
  split; [done|]. unfold get_insert_query. by rewrite Hout.
Qed.

(** X2. Whenever [get_right_format] returns, it returns exactly one string
    for each value it was given. *)
Theorem get_right_format_length {F : Type} (values : list (pyval F)) (out : list string) :
  get_right_format values = Ok out → length out = length values.
Proof. intros Hout. by apply get_right_format_loop_length in Hout. Qed.

(** X3. [get_ordering] of an empty dict is the empty string; of any other
    dict it is the clustering-order clause with one "column order" item for
    each entry, in insertion order, separated by commas, the trailing comma
    removed. *)
Theorem get_ordering_items (item : string * string) (ordering : list (string * string)) :
  get_ordering [] = EmptyString ∧
  get_ordering (item :: ordering)
  = "WITH CLUSTERING ORDER BY (" +:+ join "," (ordering_item <$> item :: ordering) +:+ ")".
Proof.
  split; [done|]. unfold get_ordering. rewrite get_ordering_fold.
  by rewrite <- string_app_assoc, drop_last_snoc.
Qed.

(** X4. [create_table] does not tell clustering keys from partition keys:
    the statement it builds is the one it builds when the clustering keys
    are appended to the list of primary keys and no clustering key is given. *)
Theorem create_table_keys_in_one_group (keyspace table_name : string)
    (columns : list string) (key : string) (primary_keys clustering_keys : list string)
    (ordering : list (string * string)) :
  create_table_query keyspace table_name columns (key :: primary_keys) clustering_keys
    ordering
  = create_table_query keyspace table_name columns
      ((key :: primary_keys) ++ clustering_keys) [] ordering.
Proof.
  unfold create_table_query. destruct clustering_keys as [|c cs].
  - by rewrite app_nil_r.
  - rewrite join_app. by rewrite !string_app_assoc.
Qed.

(** X1 on a user of the access table: a login, a list of installations
    and an empty list. *)
Lemma get_right_format_strings_and_lists_witness :
  Forall2 (λ val s, formatted (F:=Q) val = Some s)
    [PStr "site"; PList [PStr "a"; PStr "b"]; PList []]
    ["'site'"; "['a','b']"; "]"]%string ∧
  get_right_format (F:=Q) [PStr "site"; PList [PStr "a"; PStr "b"]; PList []]
  = Ok ["'site'"; "['a','b']"; "]"]%string ∧
  get_insert_query (F:=Q) "test" "access" ["home_id"; "installations"; "other"]%string
    [PStr "site"; PList [PStr "a"; PStr "b"]; PList []]
  = Ok ("INSERT INTO " +:+ "test" +:+ "." +:+ "access" +:+ " ("
        +:+ join "," ["home_id"; "installations"; "other"]%string
        +:+ ") VALUES (" +:+ join "," ["'site'"; "['a','b']"; "]"]%string +:+ ");").
Proof.
  assert (Forall2 (λ val s, formatted (F:=Q) val = Some s)
            [PStr "site"; PList [PStr "a"; PStr "b"]; PList []]
            ["'site'"; "['a','b']"; "]"]%string)
    as Hvalues by (repeat constructor).
  split; [exact Hvalues|].
  exact (get_right_format_strings_and_lists "test" "access"
           ["home_id"; "installations"; "other"]%string _ _ Hvalues).
Defined.

(** X2 on a list followed by a number: two values, two strings. *)
Lemma get_right_format_length_witness :
  get_right_format (F:=Q) [PList [PStr "a"]; PFloat (Some 5%Q)] = Ok ["['a']"; "a"]%string ∧
  length ["['a']"; "a"]%string = length [PList [PStr "a"]; PFloat (Some 5%Q)].
Proof.
  split; [reflexivity|].
  exact (get_right_format_length [PList [PStr "a"]; PFloat (Some 5%Q)] _ eq_refl).
Defined.

(** ** The batch loader on rows that fail (py_to_cassandra.py) *)

Lemma full_groups_short {A} (n : nat) (l : list A) :
  (length l < n)%nat → full_groups n l = [].
Proof.
  intros Hlen. unfold full_groups. by rewrite Nat.div_small.
Qed.

Lemma full_groups_app_full {A} (n : nat) (l1 l2 : list A) :
  (0 < n)%nat → length l1 = n → full_groups n (l1 ++ l2) = l1 :: full_groups n l2.
Proof.
  intros Hn Hl1. unfold full_groups. rewrite length_app, Hl1.
  replace (n + length l2)%nat with (1 * n + length l2)%nat by lia.
  rewrite Nat.div_add_l by lia.
  replace ((1 + length l2 / n) * n)%nat with (length l1 + length l2 / n * n)%nat by lia.
  rewrite take_app_add'; [|done]. by apply chunks_app_full.
Qed.

Lemma full_groups_exact {A} (n : nat) (l : list A) :
  (0 < n)%nat → Forall (λ b, length b = n) (full_groups n l).
Proof.
  intros Hn. unfold full_groups.
  assert (∀ (k : nat) (l' : list A), length l' = (k * n)%nat →
            Forall (λ b, length b = n) (chunks n l')) as Hk.
  { induction k as [|k IH]; intros l' Hl'.
    - destruct l'; [constructor|done].
    - rewrite <- (take_drop n l').
      rewrite chunks_app_full; [|done|rewrite length_take; lia].
      constructor; [rewrite length_take; lia|].
      apply IH. rewrite length_drop. lia. }
  apply (Hk (length l / n)%nat). rewrite length_take.
  pose proof (Nat.Div0.mul_div_le (length l) n). lia.
Qed.

Section FailingRows.
Context {F : Type}.

Lemma batch_insert_loop_raises (n : Z) (keyspace table : string) (columns : list string)
    (rows : list (list (pyval F))) (statements : list string) (bad : list (pyval F))
    (rest : list (list (pyval F))) (e : exn) (i : Z) (queries : list string)
    (st : state F) :
  0 < n →
  Forall2 (λ row q, get_insert_query keyspace table columns row = Ok q) rows statements →
  get_insert_query keyspace table columns bad = Raise e →
  Z.of_nat (length queries) = i mod n →
  bind (batch_insert_loop n keyspace table columns (rows ++ bad :: rest) i queries) flush st
  = (Raise e,
     mkState (trace st ++ ((λ b, EvExecute (QBatch b))
                             <$> full_groups (Z.to_nat n) (queries ++ statements)))
       (last_ts_table st)).
Proof.
  intros Hn Hrows Hbad. revert i queries st.
  induction Hrows as [|row q rows statements Hq _ IH]; intros i queries st Hlen.
  - pose proof (Z.mod_pos_bound i n Hn) as Hmod.
    rewrite app_nil_r, full_groups_short by lia.
    cbn [app batch_insert_loop]. unfold bind, lift. rewrite Hbad.
    cbn. rewrite app_nil_r. by destruct st.
  - cbn [app batch_insert_loop]. unfold bind at 2, lift. rewrite Hq.
    rewrite (proj2 (Z.eqb_neq n 0)) by lia.
    pose proof (Z.mod_pos_bound i n Hn) as Hmod.
    pose proof (Z.div_mod i n ltac:(lia)) as Hdiv.
    rewrite (cons_middle q queries statements), app_assoc.
    destruct ((i + 1) mod n =? 0) eqn:Hfull.
    + apply Z.eqb_eq in Hfull.
      assert (i mod n = n - 1) as Hlast.
      { destruct (decide (i mod n = n - 1)) as [|Hne]; [done|].
        assert ((i + 1) mod n = i mod n + 1)
          by (symmetry; apply (Z.mod_unique _ _ (i / n)); lia). lia. }
      etrans.
      { apply (IH (i + 1) [] (mkState (trace st ++ [EvExecute (QBatch (queries ++ [q]))])
                                (last_ts_table st))). simpl. lia. }
      cbn [trace last_ts_table app]. f_equal. f_equal.
      rewrite (full_groups_app_full _ (queries ++ [q]));
        [|lia|rewrite length_app; simpl; lia].
      rewrite fmap_cons, <- app_assoc. done.
    + apply Z.eqb_neq in Hfull.
      etrans; [apply (IH (i + 1) (queries ++ [q]) st)|done].
      rewrite length_app. simpl.
      destruct (decide (i mod n = n - 1)) as [Hlast|Hne].
      * destruct Hfull. symmetry. apply (Z.mod_unique _ _ (i / n + 1)); lia.
      * apply (Z.mod_unique _ _ (i / n)); lia.
Qed.

(** The rows up to the first one whose statement does not render. *)
Lemma first_failing_row (keyspace table : string) (columns : list string)
    (rows : list (list (pyval F))) :
  (∃ statements,
     Forall2 (λ row q, get_insert_query keyspace table columns row = Ok q) rows statements) ∨
  (∃ rows1 bad rest statements e,
     rows = rows1 ++ bad :: rest ∧
     Forall2 (λ row q, get_insert_query keyspace table columns row = Ok q) rows1 statements ∧
     get_insert_query keyspace table columns bad = Raise e).
Proof.
  induction rows as [|row rows IH].
  - left. exists []. constructor.
  - destruct (get_insert_query keyspace table columns row) as [q|e] eqn:Hrow.
    + destruct IH as [(statements & Hall)|(rows1 & bad & rest & statements & e & -> & Hall & Hbad)].
      * left. exists (q :: statements). by constructor.
      * right. exists (row :: rows1), bad, rest, (q :: statements), e.
        split; [done|]. split; [by constructor|done].
    + right. exists [], row, rows, [], e. split; [done|]. split; [constructor|done].
Qed.
End FailingRows.

(** X5. With the batch size of the configuration, on rows that all render,
    [batch_insert_query] returns after having sent the rows' statements in
    order in batches of 43200, the last batch possibly shorter:
    [ceil(M / 43200)] batches for [M] rows, none empty, every statement in
    exactly one batch; the watermark table is not touched. *)
Theorem batch_insert_query_batches {F : Type} (keyspace table : string)
    (columns : list string) (rows : list (list (pyval F))) (statements : list string)
    (st : state F) :
  Forall2 (λ row q, get_insert_query keyspace table columns row = Ok q) rows statements →
  let batches := chunks (Z.to_nat INSERTS_PER_BATCH) statements in
  batch_insert_query keyspace table columns rows st
  = (Ok tt,
     mkState (trace st ++ EvLoad table columns rows
                          :: ((λ b, EvExecute (QBatch b)) <$> batches))
       (last_ts_table st))
  ∧ concat batches = statements
  ∧ Forall (λ b, 0 < Z.of_nat (length b) ≤ 43200) batches
  ∧ Z.of_nat (length batches) = (Z.of_nat (length rows) + 43199) / 43200.
Proof.
  intros Hrows batches.
  destruct (batch_insert_query_chunks INSERTS_PER_BATCH keyspace table columns rows
              statements st ltac:(done) Hrows) as (Hrun & Hconcat & Hsize & Hcount).
  split; [exact Hrun|]. split; [exact Hconcat|]. split.
  - eapply Forall_impl; [exact Hsize|]. intros b Hb. cbv beta in Hb.
    unfold INSERTS_PER_BATCH in Hb. lia.
  - fold batches in Hcount. rewrite Hcount. unfold INSERTS_PER_BATCH. f_equal. lia.
Qed.

(** X6. When the statement of a row does not render, [batch_insert_query]
    raises that row's exception after having executed the full batches of
    [n] formed by the rows before it; the statements that were pending in
    the unfinished batch are never sent, and no row after the failing one is
    looked at. *)
Theorem batch_insert_query_partial_load {F : Type} (n : Z) (keyspace table : string)
    (columns : list string) (rows : list (list (pyval F))) (statements : list string)
    (bad : list (pyval F)) (rest : list (list (pyval F))) (e : exn) (st : state F) :
  0 < n →
  Forall2 (λ row q, get_insert_query keyspace table columns row = Ok q) rows statements →
  get_insert_query keyspace table columns bad = Raise e →
  batch_insert_query_n n keyspace table columns (rows ++ bad :: rest) st
  = (Raise e,
     mkState (trace st ++ EvLoad table columns (rows ++ bad :: rest)
                          :: ((λ b, EvExecute (QBatch b))
                                <$> full_groups (Z.to_nat n) statements))
       (last_ts_table st)) ∧
  Forall (λ b, length b = Z.to_nat n) (full_groups (Z.to_nat n) statements) ∧
  concat (full_groups (Z.to_nat n) statements)
  = take (length statements / Z.to_nat n * Z.to_nat n) statements.
Proof.
  intros Hn Hrows Hbad. repeat split.
  - unfold batch_insert_query_n. unfold bind at 1. cbn [emit].
    etrans; [apply (batch_insert_loop_raises n _ _ _ _ statements _ _ e); [done..|]|].
    + by rewrite Z.mod_0_l by lia.
    + cbn [trace last_ts_table app]. by rewrite <- app_assoc.
  - apply full_groups_exact. lia.
  - apply chunks_concat. lia.
Qed.

(** X7. Whatever the rows, and whether or not it raises, [batch_insert_query]
    only ever sends batches: each holds at least one statement and at most
    [n], and the [last_ts] table is left as it was. *)
Theorem batch_insert_query_bounded {F : Type} (n : Z) (keyspace table : string)
    (columns : list string) (rows : list (list (pyval F))) (st : state F) :
  0 < n →
  ∃ batches,
    trace (batch_insert_query_n n keyspace table columns rows st).2
    = trace st ++ EvLoad table columns rows
                  :: ((λ b, EvExecute (QBatch b)) <$> batches) ∧
    Forall (λ b, (0 < length b ≤ Z.to_nat n)%nat) batches ∧
    last_ts_table (batch_insert_query_n n keyspace table columns rows st).2
    = last_ts_table st.
Proof.
  intros Hn.
  assert (∀ r batches,
            bind (batch_insert_loop n keyspace table columns rows 0 []) flush
              (mkState (trace st ++ [EvLoad table columns rows]) (last_ts_table st))
            = (r, mkState ((trace st ++ [EvLoad table columns rows])
                           ++ ((λ b, EvExecute (QBatch b)) <$> batches))
                    (last_ts_table st)) →
            trace (batch_insert_query_n n keyspace table columns rows st).2
            = trace st ++ EvLoad table columns rows
                          :: ((λ b, EvExecute (QBatch b)) <$> batches) ∧
            last_ts_table (batch_insert_query_n n keyspace table columns rows st).2
            = last_ts_table st) as Hrun.
  { intros r batches Hloop.
    change (batch_insert_query_n n keyspace table columns rows st)
      with (bind (batch_insert_loop n keyspace table columns rows 0 []) flush
              (mkState (trace st ++ [EvLoad table columns rows]) (last_ts_table st))).
    rewrite Hloop. cbn. by rewrite <- app_assoc. }
  destruct (first_failing_row keyspace table columns rows)
    as [(statements & Hall)|(rows1 & bad & rest & statements & e & Hrows & Hall & Hbad)].
  - exists (chunks (Z.to_nat n) statements).
    destruct (Hrun (Ok tt) (chunks (Z.to_nat n) statements)) as [Htr Hts].
    { exact (batch_insert_loop_chunks n keyspace table columns rows statements 0 []
               (mkState (trace st ++ [EvLoad table columns rows]) (last_ts_table st))
               Hn Hall ltac:(by rewrite Z.mod_0_l by lia)). }
    split; [done|]. split; [|done]. apply chunks_bounded. lia.
  - exists (full_groups (Z.to_nat n) statements).
    destruct (Hrun (Raise e) (full_groups (Z.to_nat n) statements)) as [Htr Hts].
    { rewrite Hrows.
      exact (batch_insert_loop_raises n keyspace table columns rows1 statements bad rest
               e 0 []
               (mkState (trace st ++ [EvLoad table columns (rows1 ++ bad :: rest)])
                  (last_ts_table st))
               Hn Hall Hbad ltac:(by rewrite Z.mod_0_l by lia)). }
    split; [done|]. split; [|done].
    eapply Forall_impl; [apply full_groups_exact; lia|]. simpl. lia.
Qed.

(** X5 on three rows of strings: one batch of three statements. *)
Lemma batch_insert_query_batches_witness :
  Forall2 (λ row q, get_insert_query (F:=Q) "test" "t" ["a"%string] row = Ok q)
    three_string_rows three_statements ∧
  let batches := chunks (Z.to_nat INSERTS_PER_BATCH) three_statements in
  batch_insert_query "test" "t" ["a"%string] three_string_rows empty_store
  = (Ok tt,
     mkState (trace empty_store
              ++ EvLoad "t" ["a"%string] three_string_rows
                 :: ((λ b, EvExecute (QBatch b)) <$> batches))
       (last_ts_table empty_store))
  ∧ concat batches = three_statements
  ∧ Forall (λ b, 0 < Z.of_nat (length b) ≤ 43200) batches
  ∧ Z.of_nat (length batches) = (Z.of_nat (length three_string_rows) + 43199) / 43200.
Proof.
  assert (Forall2 (λ row q, get_insert_query (F:=Q) "test" "t" ["a"%string] row = Ok q)
            three_string_rows three_statements) as Hrows by (repeat constructor).
  split; [exact Hrows|].
  exact (batch_insert_query_batches "test" "t" ["a"%string] three_string_rows
           three_statements empty_store Hrows).
Defined.

(** X6 on the same rows followed by a row that holds a number: the batch of
    the first two statements is sent, the third statement is not. *)
Lemma batch_insert_query_partial_load_witness :
  (0 < 2 ∧
   Forall2 (λ row q, get_insert_query (F:=Q) "test" "t" ["a"%string] row = Ok q)
     three_string_rows three_statements ∧
   get_insert_query (F:=Q) "test" "t" ["a"%string] [PFloat (Some 5%Q)]
   = Raise UnboundLocalError) ∧
  batch_insert_query_n 2 "test" "t" ["a"%string]
    (three_string_rows ++ [PFloat (Some 5%Q)] :: []) empty_store
  = (Raise UnboundLocalError,
     mkState (trace empty_store
              ++ EvLoad "t" ["a"%string] (three_string_rows ++ [PFloat (Some 5%Q)] :: [])
                 :: ((λ b, EvExecute (QBatch b))
                       <$> full_groups (Z.to_nat 2) three_statements))
       (last_ts_table empty_store)) ∧
  Forall (λ b, length b = Z.to_nat 2) (full_groups (Z.to_nat 2) three_statements) ∧
  concat (full_groups (Z.to_nat 2) three_statements)
  = take (length three_statements / Z.to_nat 2 * Z.to_nat 2) three_statements.
Proof.
  assert (Forall2 (λ row q, get_insert_query (F:=Q) "test" "t" ["a"%string] row = Ok q)
            three_string_rows three_statements) as Hrows by (repeat constructor).
  split; [split; [lia | split; [exact Hrows | reflexivity]]|].
  exact (batch_insert_query_partial_load 2 "test" "t" ["a"%string] three_string_rows
           three_statements [PFloat (Some 5%Q)] [] UnboundLocalError empty_store
           ltac:(lia) Hrows eq_refl).
Defined.

(** X7 on a power frame of one row. *)
Lemma batch_insert_query_bounded_witness :
  0 < INSERTS_PER_BATCH ∧
  ∃ batches,
    trace (batch_insert_query_n INSERTS_PER_BATCH "test" "power" power_columns
             (power_values <$> (final_df "site" p1_one_second).*2) empty_store).2
    = trace empty_store
      ++ EvLoad "power" power_columns
           (power_values <$> (final_df "site" p1_one_second).*2)
         :: ((λ b, EvExecute (QBatch b)) <$> batches) ∧
    Forall (λ b, (0 < length b ≤ Z.to_nat INSERTS_PER_BATCH)%nat) batches ∧
    last_ts_table (batch_insert_query_n INSERTS_PER_BATCH "test" "power" power_columns
                     (power_values <$> (final_df "site" p1_one_second).*2)
                     empty_store).2
    = last_ts_table empty_store.
Proof.
  split; [done|].
  exact (batch_insert_query_bounded INSERTS_PER_BATCH "test" "power" power_columns
           (power_values <$> (final_df "site" p1_one_second).*2) empty_store
           ltac:(done)).
Defined.

(** ** Sync passes (sync_homewizard.py) *)

Section Passes.
Context {F : Type} `{Float F}.

Lemma sat_events {A} (m : M F A) (P P' : event F → Prop) (Q : A → Prop) :
  sat m P Q → (∀ ev, P ev → P' ev) → sat m P' Q.
Proof.
  intros Hm HP st. destruct (Hm st) as (new & Htr & Hnew & Htbl & HQ).
  exists new. repeat split; try done. eapply Forall_impl; eauto.
Qed.

Lemma no_statement_no_data (ev : event F) : no_statement ev → no_data_statement ev.
Proof. by destruct ev. Qed.

(** The loader on a frame of raw rows or of power rows: nothing is sent, and
    the call returns only when the frame is empty. *)
Lemma batch_insert_query_raw (table : string) (columns : list string)
    (df : list (raw_row F)) (st : state F) :
  batch_insert_query CASSANDRA_KEYSPACE table columns (raw_values <$> df) st
  = (match df with [] => Ok tt | _ => Raise UnboundLocalError end,
     mkState (trace st ++ [EvLoad table columns (raw_values <$> df)]) (last_ts_table st)).
Proof. by destruct df. Qed.

Lemma batch_insert_query_power (table : string) (final : list (power_row F))
    (st : state F) :
  batch_insert_query CASSANDRA_KEYSPACE table power_columns (power_values <$> final) st
  = (match final with [] => Ok tt | _ => Raise UnboundLocalError end,
     mkState (trace st ++ [EvLoad table power_columns (power_values <$> final)])
       (last_ts_table st)).
Proof. by destruct final. Qed.

Lemma sync_files_run (sftp : remote F) (home_id : string) (date : Z)
    (data_type table : string) (classic_sync : bool) (st : state F) :
  sync_files sftp home_id date data_type table classic_sync st
  = match remote_files sftp !! day_path date (day_filename home_id date data_type) with
    | Some file =>
        match day_frame home_id date classic_sync file with
        | Ok df =>
            (match df with [] => Ok [] | _ => Raise UnboundLocalError end,
             mkState (trace st ++ [EvLoad table (raw_columns file) (raw_values <$> df.*2)])
               (last_ts_table st))
        | Raise e => (Raise e, st)
        end
    | None =>
        (Raise UnboundLocalError,
         mkState (trace st ++ [EvWarning (missing_file_warning
                                            (day_filename home_id date data_type) home_id)])
           (last_ts_table st))
    end.
Proof.
  unfold sync_files.
  destruct (remote_files sftp !! _) as [file|]; [|done].
  cbv zeta. unfold bind, lift.
  destruct (day_frame home_id date classic_sync file) as [df|e]; [|done].
  rewrite batch_insert_query_raw. by destruct df.
Qed.

(** A call of [sync_files] returns the empty frame of an empty day, or
    raises. *)
Lemma sync_files_result (sftp : remote F) (home_id : string) (date : Z)
    (data_type table : string) (classic_sync : bool) (st : state F) :
  (empty_day sftp home_id date data_type
   ∧ (sync_files sftp home_id date data_type table classic_sync st).1 = Ok [])
  ∨ (¬ empty_day sftp home_id date data_type
     ∧ ∃ e, sync_error classic_sync e
            ∧ (sync_files sftp home_id date data_type table classic_sync st).1 = Raise e).
Proof.
  rewrite sync_files_run. unfold empty_day.
  destruct (remote_files sftp !! _) as [file|] eqn:Hfile.
  - destruct (day_frame_cases home_id date classic_sync file)
      as [[Hnil ->]|[(Hne & Hc & ->)|(Hne & Hc & x & df & ->)]].
    + left. split; [by exists file|done].
    + right. split; [by intros (f & [= <-] & ?)|].
      exists TypeError. split; [by right|done].
    + right. split; [by intros (f & [= <-] & ?)|].
      exists UnboundLocalError. split; [by left|done].
  - right. split; [by intros (? & ? & ?)|].
    exists UnboundLocalError. split; [by left|done].
Qed.

Lemma sync_files_ok (sftp : remote F) (home_id : string) (date : Z)
    (data_type table : string) (classic_sync : bool) (st : state F) :
  (∃ df, (sync_files sftp home_id date data_type table classic_sync st).1 = Ok df)
  ↔ empty_day sftp home_id date data_type.
Proof.
  destruct (sync_files_result sftp home_id date data_type table classic_sync st)
    as [[Hempty Hr]|(Hne & e & _ & Hr)]; rewrite Hr.
  - split; [done|]. intros _. by eexists.
  - split; [by intros [? ?]|done].
Qed.

Lemma sync_files_trace (sftp : remote F) (home_id : string) (date : Z)
    (data_type table : string) (classic_sync : bool) :
  sat (sync_files sftp home_id date data_type table classic_sync) no_statement
    (λ df, df = []).
Proof.
  intros st. rewrite sync_files_run.
  destruct (remote_files sftp !! _) as [file|].
  - destruct (day_frame home_id date classic_sync file) as [df|e].
    + eexists; split; [done|]. split; [by repeat constructor|]. split; [done|].
      by destruct df.
    + exists []. split; [by rewrite app_nil_r|]. done.
  - eexists; split; [done|]. split; [by repeat constructor|]. done.
Qed.

Lemma sync_date_trace (sftp : remote F) (home_id : string) (has_pv classic_sync : bool)
    (date : Z) :
  sat (sync_date sftp home_id has_pv classic_sync date) no_statement (λ _, True).
Proof.
  unfold sync_date.
  eapply sat_bind; [apply sync_files_trace|]. intros p1 ->.
  eapply sat_bind with (Q := λ final, final = []).
  - destruct has_pv.
    + eapply sat_bind; [apply sync_files_trace|]. intros pv ->. by apply sat_ret.
    + by apply sat_ret.
  - intros final ->. intros st.
    rewrite (batch_insert_query_power TBL_POWER []).
    eexists; split; [done|]. split; [by repeat constructor|]. done.
Qed.

Lemma sync_date_result (sftp : remote F) (home_id : string) (has_pv classic_sync : bool)
    (date : Z) (st : state F) :
  (syncs_day sftp home_id has_pv date
   ∧ (sync_date sftp home_id has_pv classic_sync date st).1 = Ok tt)
  ∨ (¬ syncs_day sftp home_id has_pv date
     ∧ ∃ e, sync_error classic_sync e
            ∧ (sync_date sftp home_id has_pv classic_sync date st).1 = Raise e).
Proof.
  unfold syncs_day, sync_date, bind.
  pose proof (sync_files_result sftp home_id date "p1" TBL_RAW_P1 classic_sync st) as Hp1.
  destruct (sync_files sftp home_id date "p1" TBL_RAW_P1 classic_sync st) as [[p1|e] st1];
    cbn [fst snd] in *.
  - destruct Hp1 as [[Hempty [= ->]]|(_ & e & _ & ?)]; [|done].
    destruct has_pv.
    + pose proof (sync_files_result sftp home_id date "pv" TBL_RAW_PV classic_sync st1)
        as Hpv.
      destruct (sync_files sftp home_id date "pv" TBL_RAW_PV classic_sync st1)
        as [[pv|e] st2]; cbn [fst snd] in *.
      * destruct Hpv as [[Hempty' [= ->]]|(_ & e & _ & ?)]; [|done]. by left.
      * destruct Hpv as [[_ ?]|(Hne & e' & He' & [= <-])]; [done|].
        right. split; [|by exists e]. intros [_ Hpv]. by apply Hne, Hpv.
    + left. split; [|done]. by split.
  - destruct Hp1 as [[_ ?]|(Hne & e' & He' & [= <-])]; [done|].
    right. split; [|by exists e]. by intros [? _].
Qed.

Lemma sync_date_ok_run (sftp : remote F) (home_id : string) (has_pv classic_sync : bool)
    (date : Z) (st : state F) :
  (sync_date sftp home_id has_pv classic_sync date st).1 = Ok tt
  ↔ empty_day sftp home_id date "p1"
    ∧ (has_pv = true → empty_day sftp home_id date "pv").
Proof.
  destruct (sync_date_result sftp home_id has_pv classic_sync date st)
    as [[Hgood Hr]|(Hbad & e & _ & Hr)]; rewrite Hr; by split.
Qed.

(** A loop whose iterations return on the good items, and raise one of the
    exceptions [E] on the others, does the same on the list. *)
Lemma for_each_cases {A} (l : list A) (body : A → M F unit) (good : A → Prop)
    (E : exn → Prop) :
  (∀ x st, (good x ∧ (body x st).1 = Ok tt)
           ∨ (¬ good x ∧ ∃ e, E e ∧ (body x st).1 = Raise e)) →
  ∀ st, ((∀ x, x ∈ l → good x) ∧ (for_each l body st).1 = Ok tt)
        ∨ (¬ (∀ x, x ∈ l → good x) ∧ ∃ e, E e ∧ (for_each l body st).1 = Raise e).
Proof.
  intros Hbody. induction l as [|x l IH]; intros st.
  - left. split; [|done]. intros y Hy. by apply elem_of_nil in Hy.
  - cbn [for_each]. unfold bind.
    pose proof (Hbody x st) as Hx.
    destruct (body x st) as [[[]|e] st1]; cbn [fst snd] in *.
    + destruct Hx as [[Hgood _]|(_ & e & _ & ?)]; [|done].
      destruct (IH st1) as [[Hall Hr]|(Hnot & e & He & Hr)].
      * left. split; [|done]. by intros y [->|Hy]%elem_of_cons; [|apply Hall].
      * right. split; [|by exists e]. intros Hall. apply Hnot. intros y Hy.
        apply Hall. by right.
    + destruct Hx as [[_ ?]|(Hbad & e' & He' & [= <-])]; [done|].
      right. split; [|by exists e]. intros Hall. apply Hbad, Hall. by left.
Qed.

Lemma check_last_ts_some (home_id : string) (new_ts last : Z) (st : state F) :
  (check_last_ts home_id new_ts (Some last) st).1 = Ok tt.
Proof. unfold check_last_ts. by destruct (last <? new_ts). Qed.

Lemma check_last_ts_none (home_id : string) (new_ts : Z) (st : state F) :
  check_last_ts home_id new_ts None st = (Raise UnboundLocalError, st).
Proof. done. Qed.

Lemma check_last_ts_trace (home_id : string) (new_ts : Z) (last_ts : option Z) :
  pass (check_last_ts (F:=F) home_id new_ts last_ts) no_data_statement home_id last_ts.
Proof.
  intros st. destruct last_ts as [last|].
  - unfold check_last_ts. destruct (last <? new_ts) eqn:Hlt.
    + eexists; split; [done|]. split.
      * repeat constructor. by eexists _, _.
      * right. exists new_ts. split; [|done]. intros ? [= <-]. lia.
    + exists []. split; [by rewrite app_nil_r|]. split; [done|]. by left.
  - rewrite check_last_ts_none. exists []. split; [by rewrite app_nil_r|].
    split; [done|]. by left.
Qed.
End Passes.

Section PassFacts.
Context {F : Type} `{Float F}.

Lemma sync_dates_trace (sftp : remote F) (home_id : string) (has_pv : bool)
    (last_ts : option Z) (start_date end_date : Z) (classic_sync : bool) :
  pass (sync_dates sftp home_id has_pv last_ts start_date end_date classic_sync)
    no_data_statement home_id last_ts.
Proof.
  unfold sync_dates. eapply pass_bind.
  - apply sat_for_each. intros date _.
    eapply sat_events; [apply sync_date_trace|apply no_statement_no_data].
  - intros _. apply check_last_ts_trace.
Qed.

Lemma process_home_trace (home_id : string) (has_pv : bool) (hostname : option string)
    (connection : result (remote F)) (all_days : bool) (start_date end_date : option Z)
    (last_ts : option Z) (now : Z) :
  pass (process_home home_id has_pv hostname connection all_days start_date end_date
          last_ts now) no_data_statement home_id last_ts.
Proof.
  unfold process_home. destruct hostname as [[|c host]|].
  1, 3: by apply (pass_of_sat _ _ (λ _, True)), sat_emit.
  eapply pass_bind; [by apply (sat_lift _ _ (λ _, True))|]. intros sftp.
  destruct all_days.
  { unfold sync_all_days. destruct (get_available_dates sftp).
    - by apply (pass_of_sat _ _ (λ _, True)), sat_emit.
    - apply sync_dates_trace. }
  destruct start_date as [s|]; [apply sync_dates_trace|].
  destruct end_date as [e|]; [apply sync_dates_trace|].
  destruct last_ts as [last|]; [apply sync_dates_trace|].
  apply (pass_of_sat _ _ (λ _, True)), sat_raise.
Qed.

Lemma reachable_trace (st : state F) : reachable st → Forall no_data_statement (trace st).
Proof.
  induction 1 as [|st home_id has_pv hostname connection all_days s e now _ IH].
  - constructor.
  - unfold sync_home.
    destruct (process_home_trace home_id has_pv hostname connection all_days s e
                (Some (watermark st home_id)) now st) as (new & -> & Hnew & _).
    by apply Forall_app.
Qed.

(** The days of a range all sync, or the loop raises. *)
Lemma for_each_sync_date (sftp : remote F) (home_id : string) (has_pv classic_sync : bool)
    (dates : list Z) (st : state F) :
  let run := for_each dates (sync_date sftp home_id has_pv classic_sync) st in
  (run.1 = Ok tt
   ↔ ∀ date, date ∈ dates →
       empty_day sftp home_id date "p1"
       ∧ (has_pv = true → empty_day sftp home_id date "pv"))
  ∧ (run.1 = Ok tt ∨ ∃ e, sync_error classic_sync e ∧ run.1 = Raise e)
  ∧ last_ts_table run.2 = last_ts_table st
  ∧ ∃ new, trace run.2 = trace st ++ new ∧ Forall no_statement new.
Proof.
  cbv zeta.
  destruct (sat_for_each dates (sync_date sftp home_id has_pv classic_sync)
              no_statement (λ date _, sync_date_trace _ _ _ _ date) st)
    as (new & Hnew & HP & Htbl & _).
  split; [|split; [|split; [done|by exists new]]].
  - destruct (for_each_cases dates (sync_date sftp home_id has_pv classic_sync)
                (syncs_day sftp home_id has_pv) (sync_error classic_sync)
                (sync_date_result sftp home_id has_pv classic_sync) st)
      as [[Hall Hr]|(Hnot & e & _ & Hr)]; rewrite Hr; by split.
  - destruct (for_each_cases dates (sync_date sftp home_id has_pv classic_sync)
                (syncs_day sftp home_id has_pv) (sync_error classic_sync)
                (sync_date_result sftp home_id has_pv classic_sync) st)
      as [[Hall Hr]|(Hnot & e & He & Hr)]; [by left|right; by exists e].
Qed.

Lemma sync_dates_run (sftp : remote F) (home_id : string) (has_pv : bool) (last : Z)
    (start_date end_date : Z) (classic_sync : bool) (st : state F) :
  let loop :=
    for_each (date_range start_date end_date ns_per_day)
      (sync_date sftp home_id has_pv classic_sync) st in
  let run :=
    sync_dates sftp home_id has_pv (Some last) start_date end_date classic_sync st in
  run.1 = loop.1
  ∧ last_ts_table run.2
    = match loop.1 with
      | Ok _ =>
          if last <? end_date then <[home_id := floor_s end_date]> (last_ts_table st)
          else last_ts_table st
      | Raise _ => last_ts_table st
      end.
Proof.
  cbv zeta. unfold sync_dates, bind.
  destruct (for_each_sync_date sftp home_id has_pv classic_sync
              (date_range start_date end_date ns_per_day) st) as (_ & _ & Htbl & _).
  cbv zeta in Htbl.
  destruct (for_each _ _ st) as [[[]|e] st1]; cbn [fst snd] in *; [|done].
  rewrite check_last_ts_some, check_last_ts_table. by rewrite Htbl.
Qed.

Lemma sync_dates_raise_trace (sftp : remote F) (home_id : string) (has_pv : bool)
    (last_ts : option Z) (start_date end_date : Z) (classic_sync : bool) (st : state F)
    (e : exn) :
  (for_each (date_range start_date end_date ns_per_day)
     (sync_date sftp home_id has_pv classic_sync) st).1 = Raise e →
  ∃ new,
    trace (sync_dates sftp home_id has_pv last_ts start_date end_date classic_sync st).2
    = trace st ++ new
    ∧ Forall no_statement new.
Proof.
  intros Hraise. unfold sync_dates, bind.
  destruct (for_each_sync_date sftp home_id has_pv classic_sync
              (date_range start_date end_date ns_per_day) st) as (_ & _ & _ & Hnew).
  cbv zeta in Hnew.
  destruct (for_each _ _ st) as [[[]|e'] st1]; cbn [fst snd] in *; done.
Qed.
End PassFacts.

(** X8. A pass of one site leaves the watermark row of every other site as
    it is: none is changed, added or removed. *)
Theorem sync_home_other_sites {F : Type} `{Float F} (st : state F) (home_id : string)
    (has_pv : bool) (hostname : option string) (connection : result (remote F))
    (all_days : bool) (start_date end_date : option Z) (now : Z) (h : string) :
  h ≠ home_id →
  last_ts_table (sync_home home_id has_pv hostname connection all_days start_date
                   end_date now st).2 !! h
  = last_ts_table st !! h.
Proof.
  intros Hne.
  destruct (sync_home_advances st home_id has_pv hostname connection all_days start_date
              end_date now) as [->|(new_ts & _ & ->)]; [done|].
  by rewrite lookup_insert_ne.
Qed.

(** X9. A call of [sync_dates] for a site that has a watermark returns
    exactly when every day of the range has its primary file (and its
    production file, for a site with a production meter) and these files
    have no line under their header; otherwise it raises
    [UnboundLocalError], or under [classic_sync] the [TypeError] of the
    comparison of the timestamps with the date. The watermark is written
    only when the call returns. *)
Theorem sync_dates_returns_iff_no_rows {F : Type} `{Float F} (sftp : remote F)
    (home_id : string) (has_pv : bool) (last : Z) (start_date end_date : Z)
    (classic_sync : bool) (st : state F) :
  let run :=
    sync_dates sftp home_id has_pv (Some last) start_date end_date classic_sync st in
  (run.1 = Ok tt
   ↔ ∀ date, date ∈ date_range start_date end_date ns_per_day →
       empty_day sftp home_id date "p1"
       ∧ (has_pv = true → empty_day sftp home_id date "pv"))
  ∧ (run.1 = Ok tt ∨ run.1 = Raise UnboundLocalError
     ∨ (classic_sync = true ∧ run.1 = Raise TypeError))
  ∧ last_ts_table run.2
    = match run.1 with
      | Ok _ =>
          if last <? end_date then <[home_id := floor_s end_date]> (last_ts_table st)
          else last_ts_table st
      | Raise _ => last_ts_table st
      end.
Proof.
  cbv zeta.
  destruct (sync_dates_run sftp home_id has_pv last start_date end_date classic_sync st)
    as [-> ->].
  destruct (for_each_sync_date sftp home_id has_pv classic_sync
              (date_range start_date end_date ns_per_day) st) as (Hok & Hr & _).
  cbv zeta in *. split; [done|]. split; [|done].
  destruct Hr as [Hr|(e & [->|[-> ->]] & Hr)]; auto.
Qed.

(** X10. A day of the range whose primary file is missing makes the pass
    raise, wherever the day is in the range: [UnboundLocalError], or under
    [classic_sync] the [TypeError] of the comparison on a file of an earlier
    day; the watermark table is left as it was and no statement is
    executed. *)
Theorem missing_file_in_range_aborts {F : Type} `{Float F} (sftp : remote F)
    (home_id : string) (has_pv : bool) (last : Z) (start_date end_date date : Z)
    (classic_sync : bool) (st : state F) :
  date ∈ date_range start_date end_date ns_per_day →
  remote_files sftp !! day_path date (day_filename home_id date "p1") = None →
  let run :=
    sync_dates sftp home_id has_pv (Some last) start_date end_date classic_sync st in
  (run.1 = Raise UnboundLocalError ∨ (classic_sync = true ∧ run.1 = Raise TypeError))
  ∧ last_ts_table run.2 = last_ts_table st
  ∧ ∃ new, trace run.2 = trace st ++ new ∧ Forall no_statement new.
Proof.
  intros Hdate Hnone. cbv zeta.
  destruct (sync_dates_run sftp home_id has_pv last start_date end_date classic_sync st)
    as [Hres Htbl].
  destruct (for_each_sync_date sftp home_id has_pv classic_sync
              (date_range start_date end_date ns_per_day) st) as (Hok & Hr & _).
  cbv zeta in *.
  destruct Hr as [Hr|(e & He & Hraise)].
  { destruct (proj1 Hok Hr date Hdate) as [(file & Hfile & _) _]. congruence. }
  rewrite Hraise in Hres, Htbl. split; [|split; [done|]].
  - rewrite Hres. destruct He as [->|[-> ->]]; auto.
  - by eapply sync_dates_raise_trace.
Qed.

(** X10 on the site with no file, for the one-day range of 1970-01-01. *)
Lemma missing_file_in_range_aborts_witness :
  (0 ∈ date_range 0 (seconds 10) ns_per_day ∧
   remote_files site_no_file !! day_path 0 (day_filename "site" 0 "p1") = None) ∧
  let run := sync_dates site_no_file "site" false (Some 0) 0 (seconds 10) false empty_store in
  (run.1 = Raise UnboundLocalError ∨ (false = true ∧ run.1 = Raise TypeError))
  ∧ last_ts_table run.2 = last_ts_table empty_store
  ∧ ∃ new, trace run.2 = trace empty_store ++ new ∧ Forall no_statement new.
Proof.
  assert (0 ∈ date_range 0 (seconds 10) ns_per_day) as Hdate by (by left).
  split; [split; [exact Hdate | reflexivity]|].
  exact (missing_file_in_range_aborts site_no_file "site" false 0 0 (seconds 10) 0 false
           empty_store Hdate eq_refl).
Defined.

(** X8 on the pass that made [store_after_one_pass]: the row of another
    site is as it was. *)
Lemma sync_home_other_sites_witness :
  "other"%string ≠ "site"%string ∧
  last_ts_table (sync_home "site" false (Some "10.8.0.2"%string) (Ok site_empty_day) false
                   (Some 0) (Some (seconds 10)) (seconds 20) empty_store).2
    !! "other"%string
  = last_ts_table empty_store !! "other"%string.
Proof.
  assert ("other"%string ≠ "site"%string) as Hne by done.
  split; [exact Hne|].
  exact (sync_home_other_sites empty_store "site" false (Some "10.8.0.2"%string)
           (Ok site_empty_day) false (Some 0) (Some (seconds 10)) (seconds 20)
           "other" Hne).
Defined.

(** X11. Whatever passes have run, of whatever sites and in whatever mode,
    every statement the program has sent to the session is an [UPDATE] of
    the watermark table: no pass writes a row of [raw_p1], [raw_pv] or
    [power]. *)
Theorem sync_never_writes_data {F : Type} `{Float F} (st : state F) (q : query F) :
  reachable st → EvExecute q ∈ trace st → watermark_update q.
Proof.
  intros Hst%reachable_trace Hq. rewrite Forall_forall in Hst. exact (Hst _ Hq).
Qed.

Lemma sync_never_writes_data_witness :
  (reachable store_after_one_pass ∧
   EvExecute (QUpdate TBL_LAST_TS ["timestamp"%string] [PTimestamp (seconds 10)]
                "home_id = 'site'")
   ∈ trace store_after_one_pass) ∧
  watermark_update (F:=Q)
    (QUpdate TBL_LAST_TS ["timestamp"%string] [PTimestamp (seconds 10)] "home_id = 'site'").
Proof.
  assert (reachable store_after_one_pass) as Hst
    by (unfold store_after_one_pass; apply reachable_sync, reachable_init).
  assert (EvExecute (QUpdate TBL_LAST_TS ["timestamp"%string] [PTimestamp (seconds 10)]
                       "home_id = 'site'")
          ∈ trace store_after_one_pass) as Hq.
  { right. right. left. }
  split; [by split|].
  exact (sync_never_writes_data store_after_one_pass _ Hst Hq).
Defined.

Section FailedPasses.
Context {F : Type} `{Float F}.

Lemma sync_dates_raise (sftp : remote F) (home_id : string) (has_pv : bool)
    (last_ts : option Z) (start_date end_date : Z) (classic_sync : bool) (st : state F)
    (e : exn) :
  let run := sync_dates sftp home_id has_pv last_ts start_date end_date classic_sync st in
  run.1 = Raise e →
  sync_error classic_sync e
  ∧ last_ts_table run.2 = last_ts_table st
  ∧ ∃ new, trace run.2 = trace st ++ new ∧ Forall no_statement new.
Proof.
  cbv zeta. unfold sync_dates, bind.
  destruct (for_each_sync_date sftp home_id has_pv classic_sync
              (date_range start_date end_date ns_per_day) st) as (_ & Hr & Htbl & Hnew).
  cbv zeta in *.
  destruct (for_each _ _ st) as [[[]|e'] st1]; cbn [fst snd] in *.
  - destruct last_ts as [last|].
    + by rewrite check_last_ts_some.
    + rewrite check_last_ts_none. cbn [fst snd]. intros [= <-]. split; [by left|done].
  - destruct Hr as [?|(e0 & He0 & [= ->])]; [done|]. intros [= <-]. done.
Qed.
End FailedPasses.

(** X12. A pass that raises, in whatever mode and for whatever reason (the
    connection, a missing file, the comparison of the timestamps with the
    date, a row that does not render, a site without watermark), has
    executed no statement and leaves the watermark table as it was. *)
Theorem failed_pass_keeps_watermark {F : Type} `{Float F} (home_id : string)
    (has_pv : bool) (hostname : option string) (connection : result (remote F))
    (all_days : bool) (start_date end_date : option Z) (last_ts : option Z) (now : Z)
    (st : state F) (e : exn) :
  let run :=
    process_home home_id has_pv hostname connection all_days start_date end_date last_ts
      now st in
  run.1 = Raise e →
  last_ts_table run.2 = last_ts_table st
  ∧ ∃ new, trace run.2 = trace st ++ new ∧ Forall no_statement new.
Proof.
  cbv zeta. unfold process_home, bind, lift.
  destruct hostname as [[|c host]|]; [done| |done].
  destruct connection as [sftp|e'].
  2: { intros _. split; [done|]. exists []. by rewrite app_nil_r. }
  assert (∀ last_ts start_date end_date classic_sync,
            (sync_dates sftp home_id has_pv last_ts start_date end_date classic_sync st).1
            = Raise e →
            last_ts_table
              (sync_dates sftp home_id has_pv last_ts start_date end_date classic_sync st).2
            = last_ts_table st
            ∧ ∃ new,
                trace (sync_dates sftp home_id has_pv last_ts start_date end_date
                         classic_sync st).2 = trace st ++ new
                ∧ Forall no_statement new) as Hdates.
  { intros ???? Hraise.
    by destruct (sync_dates_raise sftp home_id has_pv _ _ _ _ st e Hraise) as (_ & ? & ?). }
  destruct all_days.
  { unfold sync_all_days. destruct (get_available_dates sftp) as [|d ds]; [done|].
    apply Hdates. }
  destruct start_date as [s|]; [apply Hdates|].
  destruct end_date as [e0|]; [apply Hdates|].
  destruct last_ts as [last|]; [apply Hdates|].
  intros _. split; [done|]. exists []. by rewrite app_nil_r.
Qed.

(** X12 on the incremental pass of the site whose day file has two lines:
    the comparison of their timestamps with the date raises. *)
Lemma failed_pass_keeps_watermark_witness :
  let run :=
    process_home "site" false (Some "10.8.0.2"%string) (Ok site_one_day) false None None
      (Some (seconds 101)) (seconds 106) empty_store in
  run.1 = Raise TypeError ∧
  last_ts_table run.2 = last_ts_table empty_store
  ∧ ∃ new, trace run.2 = trace empty_store ++ new ∧ Forall no_statement new.
Proof.
  split; [reflexivity|].
  exact (failed_pass_keeps_watermark "site" false (Some "10.8.0.2"%string) (Ok site_one_day)
           false None None (Some (seconds 101)) (seconds 106) empty_store
           TypeError eq_refl).
Defined.

(** ** Ranges of days (sync_homewizard.py) *)

Lemma date_range_nil (start_date end_date step : Z) :
  0 < step → end_date < start_date → date_range start_date end_date step = [].
Proof.
  intros Hstep Hlt. unfold date_range.
  assert ((end_date - start_date) / step < 0) by (apply Z.div_lt_upper_bound; lia).
  rewrite seqZ_nil by lia. done.
Qed.

Lemma date_range_single (start_date end_date step : Z) :
  0 < step → start_date ≤ end_date → end_date - start_date < step →
  date_range start_date end_date step = [start_date].
Proof.
  intros Hstep Hle Hlt. unfold date_range.
  rewrite Z.div_small by lia. simpl. f_equal. lia.
Qed.

(** X13. An incremental pass (no date given) of a site that has a host
    name, not the empty one, and whose watermark is not in the future visits
    between one and five dates: the first is the later of the watermark and
    four days before now, with its time of day, and all lie between it and
    now. *)
Theorem incremental_pass_days {F : Type} `{Float F} (home_id : string) (has_pv : bool)
    (hostname : string) (sftp : remote F) (last now : Z) (st : state F) :
  hostname ≠ EmptyString →
  last ≤ now →
  let start_date := Z.max last (now - FROM_FIRST_TS * ns_per_day) in
  let dates := date_range start_date now ns_per_day in
  process_home home_id has_pv (Some hostname) (Ok sftp) false None None (Some last) now st
  = bind (for_each dates (sync_date sftp home_id has_pv true))
      (λ _, check_last_ts home_id now (Some last)) st
  ∧ (1 ≤ length dates ≤ 5)%nat
  ∧ dates !! 0%nat = Some start_date
  ∧ Forall (λ date, start_date ≤ date ≤ now) dates.
Proof.
  intros Hhost Hle. cbv zeta. split; [by apply process_home_incremental|].
  assert (0 ≤ (now - Z.max last (now - FROM_FIRST_TS * ns_per_day)) / ns_per_day < 5)
    as Hn.
  { split; [apply Z.div_pos; unfold FROM_FIRST_TS, ns_per_day, ns_per_s; lia|].
    apply Z.div_lt_upper_bound; unfold FROM_FIRST_TS, ns_per_day, ns_per_s; lia. }
  split; [rewrite date_range_length; lia|]. split.
  - rewrite date_range_lookup by (rewrite date_range_length; lia). f_equal. lia.
  - apply Forall_forall. intros date (k & -> & Hk & Hnow)%date_range_elem; [|done].
    unfold ns_per_day, ns_per_s in *. lia.
Qed.

Lemma incremental_pass_days_witness :
  ("10.8.0.2"%string ≠ EmptyString ∧ seconds 101 ≤ seconds 106) ∧
  let start_date := Z.max (seconds 101) (seconds 106 - FROM_FIRST_TS * ns_per_day) in
  let dates := date_range start_date (seconds 106) ns_per_day in
  process_home "site" false (Some "10.8.0.2"%string) (Ok site_one_day) false None None
    (Some (seconds 101)) (seconds 106) empty_store
  = bind (for_each dates (sync_date site_one_day "site" false true))
      (λ _, check_last_ts "site" (seconds 106) (Some (seconds 101))) empty_store
  ∧ (1 ≤ length dates ≤ 5)%nat
  ∧ dates !! 0%nat = Some start_date
  ∧ Forall (λ date, start_date ≤ date ≤ seconds 106) dates.
Proof.
  assert ("10.8.0.2"%string ≠ EmptyString) as Hhost by done.
  assert (seconds 101 ≤ seconds 106) as Hle by done.
  split; [by split|].
  exact (incremental_pass_days "site" false "10.8.0.2" site_one_day (seconds 101)
           (seconds 106) empty_store Hhost Hle).
Defined.

(** X14. When less than a day has passed since the watermark, an
    incremental pass of a site that has a host name, not the empty one,
    reads the files of one date only, the watermark's, also when now is on
    the next calendar day; if it returns, the watermark is moved to now. *)
Theorem incremental_pass_within_a_day {F : Type} `{Float F} (home_id : string)
    (has_pv : bool) (hostname : string) (sftp : remote F) (last now : Z) (st : state F) :
  hostname ≠ EmptyString →
  last < now → now - last < ns_per_day →
  let run :=
    process_home home_id has_pv (Some hostname) (Ok sftp) false None None (Some last)
      now st in
  run = bind (for_each [last] (sync_date sftp home_id has_pv true))
          (λ _, check_last_ts home_id now (Some last)) st
  ∧ (run.1 = Ok tt →
     last_ts_table run.2 = <[home_id := floor_s now]> (last_ts_table st)).
Proof.
  intros Hhost Hlt Hday. cbv zeta.
  assert (Z.max last (now - FROM_FIRST_TS * ns_per_day) = last) as Hstart
    by (unfold FROM_FIRST_TS, ns_per_day, ns_per_s in *; lia).
  assert (date_range last now ns_per_day = [last]) as Hrange
    by (apply date_range_single; [done|lia..]).
  rewrite process_home_incremental by done. rewrite Hstart.
  split; [unfold sync_dates; by rewrite Hrange|].
  destruct (sync_dates_run sftp home_id has_pv last last now true st) as [Hres Htbl].
  cbv zeta in *. intros Hok. rewrite Htbl, <- Hres, Hok.
  by rewrite (proj2 (Z.ltb_lt last now) Hlt).
Qed.

(** X14 for a watermark at 23:00 of 1970-01-01 and a pass at 01:00 of
    1970-01-02. *)
Lemma incremental_pass_within_a_day_witness :
  ("10.8.0.2"%string ≠ EmptyString ∧ seconds 82800 < seconds 90000
   ∧ seconds 90000 - seconds 82800 < ns_per_day) ∧
  let run :=
    process_home "site" false (Some "10.8.0.2"%string) (Ok site_empty_day) false None None
      (Some (seconds 82800)) (seconds 90000) empty_store in
  run = bind (for_each [seconds 82800] (sync_date site_empty_day "site" false true))
          (λ _, check_last_ts "site" (seconds 90000) (Some (seconds 82800))) empty_store
  ∧ (run.1 = Ok tt →
     last_ts_table run.2 = <[ "site"%string := floor_s (seconds 90000)]>
                             (last_ts_table empty_store)).
Proof.
  assert ("10.8.0.2"%string ≠ EmptyString) as Hhost by done.
  assert (seconds 82800 < seconds 90000) as Hlt by done.
  assert (seconds 90000 - seconds 82800 < ns_per_day) as Hday by done.
  split; [by repeat split|].
  exact (incremental_pass_within_a_day "site" false "10.8.0.2" site_empty_day
           (seconds 82800) (seconds 90000) empty_store Hhost Hlt Hday).
Defined.

(** X15. A full resync runs over the days from the earliest to the latest
    date of the listing: every listed day is visited, and so is every day in
    between, listed or not. *)
Theorem full_resync_days {F : Type} `{Float F} (sftp : remote F) (home_id : string)
    (has_pv : bool) (last_ts : option Z) (st : state F) (d : Z) :
  Forall (λ date, date mod ns_per_day = 0) (get_available_dates sftp) →
  d ∈ get_available_dates sftp →
  ∃ first_day last_day,
    index_min (get_available_dates sftp) = Some first_day
    ∧ index_max (get_available_dates sftp) = Some last_day
    ∧ sync_all_days sftp home_id has_pv last_ts st
      = sync_dates sftp home_id has_pv last_ts first_day last_day false st
    ∧ d ∈ date_range first_day last_day ns_per_day
    ∧ ∀ date, date ∈ date_range first_day last_day ns_per_day
              ↔ date mod ns_per_day = 0 ∧ first_day ≤ date ≤ last_day.
Proof.
  intros Hmid Hd. unfold sync_all_days.
  destruct (get_available_dates sftp) as [|d0 ds] eqn:Hdates;
    [by apply elem_of_nil in Hd|].
  exists (foldr Z.min d0 ds), (foldr Z.max d0 ds).
  assert (index_min (d0 :: ds) = Some (foldr Z.min d0 ds)) as Hmin by done.
  assert (index_max (d0 :: ds) = Some (foldr Z.max d0 ds)) as Hmax by done.
  split; [done|]. split; [done|]. split; [done|].
  apply index_min_spec in Hmin as [Hmin Hlo]. apply index_max_spec in Hmax as [Hmax Hhi].
  rewrite Forall_forall in Hmid. rewrite Forall_forall in Hlo.
  rewrite Forall_forall in Hhi.
  pose proof (Hmid _ Hmin) as Hfirst.
  assert (∀ date, date ∈ date_range (foldr Z.min d0 ds) (foldr Z.max d0 ds) ns_per_day
                  ↔ date mod ns_per_day = 0
                    ∧ foldr Z.min d0 ds ≤ date ≤ foldr Z.max d0 ds) as Hrange.
  { intros date. rewrite date_range_elem by done. split.
    - intros (k & -> & Hk & Hle). split; [|unfold ns_per_day, ns_per_s in *; lia].
      rewrite Z.mod_add by done. done.
    - intros (Hmod & Hge & Hle).
      exists (date / ns_per_day - foldr Z.min d0 ds / ns_per_day).
      pose proof (Z.div_mod date ns_per_day ltac:(done)) as Hdate.
      pose proof (Z.div_mod (foldr Z.min d0 ds) ns_per_day ltac:(done)) as Hf.
      rewrite Hmod in Hdate. rewrite Hfirst in Hf.
      assert (foldr Z.min d0 ds / ns_per_day ≤ date / ns_per_day)
        by (by apply Z.div_le_mono).
      split; [lia|]. split; [lia|done]. }
  split; [|done]. apply Hrange. split; [by apply Hmid|]. split; [by apply Hlo|by apply Hhi].
Qed.

(** X15 on the site whose listing has 1970-01-01 and 1970-01-03: the pass
    also visits 1970-01-02. *)
Lemma full_resync_days_witness :
  (Forall (λ date, date mod ns_per_day = 0) (get_available_dates site_with_gap) ∧
   2 * ns_per_day ∈ get_available_dates site_with_gap) ∧
  ∃ first_day last_day,
    index_min (get_available_dates site_with_gap) = Some first_day
    ∧ index_max (get_available_dates site_with_gap) = Some last_day
    ∧ sync_all_days site_with_gap "site" false (Some 0) empty_store
      = sync_dates site_with_gap "site" false (Some 0) first_day last_day false empty_store
    ∧ 2 * ns_per_day ∈ date_range first_day last_day ns_per_day
    ∧ ∀ date, date ∈ date_range first_day last_day ns_per_day
              ↔ date mod ns_per_day = 0 ∧ first_day ≤ date ≤ last_day.
Proof.
  assert (Forall (λ date, date mod ns_per_day = 0) (get_available_dates site_with_gap))
    as Hmid by (by repeat constructor).
  assert (2 * ns_per_day ∈ get_available_dates site_with_gap) as Hd by (right; left).
  split; [by split|].
  exact (full_resync_days site_with_gap "site" false (Some 0) empty_store (2 * ns_per_day)
           Hmid Hd).
Defined.

(** X16. A range whose end is before its start visits no day, and the call
    still compares its end with the watermark: all it does is what
    [check_last_ts] does. *)
Theorem backwards_range_checks_watermark {F : Type} `{Float F} (sftp : remote F)
    (home_id : string) (has_pv : bool) (last_ts : option Z) (start_date end_date : Z)
    (classic_sync : bool) (st : state F) :
  end_date < start_date →
  sync_dates sftp home_id has_pv last_ts start_date end_date classic_sync st
  = check_last_ts home_id end_date last_ts st.
Proof.
  intros Hlt. unfold sync_dates. by rewrite date_range_nil.
Qed.

Lemma backwards_range_checks_watermark_witness :
  seconds 10 < ns_per_day ∧
  sync_dates site_no_file "site" false (Some 0) ns_per_day (seconds 10) false empty_store
  = check_last_ts "site" (seconds 10) (Some 0) empty_store.
Proof.
  assert (seconds 10 < ns_per_day) as Hlt by done.
  split; [exact Hlt|].
  exact (backwards_range_checks_watermark site_no_file "site" false (Some 0) ns_per_day
           (seconds 10) false empty_store Hlt).
Defined.

(** ** Files with the same seconds (sync_homewizard.py) *)

Section Aligned.
Context {F : Type} `{Float F}.

Lemma production_aligned (pv : frame (raw_row F)) (i : nat) (t : Z) :
  (∀ j r, (j, r) ∈ pv → j = i ↔ timestamp (raw_line r) = t) →
  production_at_label pv i = production_at_timestamp pv t.
Proof.
  unfold production_at_label. induction pv as [|[j r] pv IH]; intros Hpv; [done|].
  cbn [loc production_at_timestamp].
  pose proof (Hpv j r ltac:(left)) as Hjr.
  destruct (decide (j = i)) as [Hj|Hj], (decide (timestamp (raw_line r) = t)) as [Ht|Ht];
    try done; try tauto.
  apply IH. intros j' r' Hin. apply Hpv. by right.
Qed.
End Aligned.

(** X17. Where the two files of a day agree on which label carries which
    second (a row of the production file has the label of a primary row
    exactly when it has its timestamp), the derived record of that primary
    row holds the production of its own second: alignment by label and
    alignment by timestamp coincide. *)
Theorem aligned_files_by_timestamp {F : Type} `{Float F} (home_id : string)
    (p1 pv : frame (raw_row F)) (k i : nat) (r : raw_row F) :
  p1 !! k = Some (i, r) →
  (∀ j r', (j, r') ∈ pv → j = i ↔ timestamp (raw_line r') = timestamp (raw_line r)) →
  ∃ p, final_df_pv (final_df home_id p1) pv !! k = Some (i, p)
       ∧ p_timestamp p = timestamp (raw_line r)
       ∧ p_cons p = active_power_w (raw_line r)
       ∧ p_prod p = times_neg_one (production_at_timestamp pv (timestamp (raw_line r)))
       ∧ p_tot p = minus (p_cons p) (production_at_timestamp pv (timestamp (raw_line r))).
Proof.
  intros Hk Hpv.
  rewrite (final_df_pv_lookup _ pv _ _ _ (final_df_lookup home_id p1 k i r Hk)).
  rewrite (production_aligned pv i _ Hpv).
  eexists. split; [done|]. cbn. split; [done|]. split; [done|]. split; [done|].
  destruct (active_power_w (raw_line r)) as [c|],
    (production_at_timestamp pv (timestamp (raw_line r))) as [x|]; cbn; try done.
  by rewrite f_sub_neg.
Qed.

Lemma aligned_files_by_timestamp_witness :
  (p1_two_seconds !! 1%nat
   = Some (1%nat, RawRow (CsvRow (seconds 101) (Some 6%Q) []) "site" "1970-1-1") ∧
   ∀ j r', (j, r') ∈ pv_two_seconds → j = 1%nat ↔ timestamp (raw_line r') = seconds 101) ∧
  ∃ p, final_df_pv (final_df "site" p1_two_seconds) pv_two_seconds !! 1%nat
       = Some (1%nat, p)
       ∧ p_timestamp p = seconds 101
       ∧ p_cons p = Some 6%Q
       ∧ p_prod p = times_neg_one (production_at_timestamp pv_two_seconds (seconds 101))
       ∧ p_tot p = minus (p_cons p) (production_at_timestamp pv_two_seconds (seconds 101)).
Proof.
  assert (∀ j r', (j, r') ∈ pv_two_seconds
                  → j = 1%nat ↔ timestamp (raw_line r') = seconds 101) as Hpv.
  { intros j r' Hin. unfold pv_two_seconds in Hin.
    apply elem_of_cons in Hin as [[= -> ->]|Hin]; [done|].
    apply elem_of_cons in Hin as [[= -> ->]|Hin]; [done|].
    by apply elem_of_nil in Hin. }
  split; [split; [reflexivity | exact Hpv]|].
  exact (aligned_files_by_timestamp "site" p1_two_seconds pv_two_seconds 1 1
           (RawRow (CsvRow (seconds 101) (Some 6%Q) []) "site" "1970-1-1") eq_refl Hpv).
Defined.

(** ** The sampling loop (collect_homewizard_data.py) *)

Section Sampling.
Context {F : Type}.

Lemma iteration_stops (x : sample F) (s : sampler F) :
  stops x = true →
  ∃ e, iteration x s
       = (Raise e,
          Sampler (concat_p1 (p1_samples s) (next_sample_time s) (p1_data x))
            (pv_samples s) (next_sample_time s) (first_sample_to_save s) (submitted s)).
Proof.
  unfold stops, iteration. destruct (pv_data x) as [|[]|v]; try done; simpl; eauto.
Qed.

Lemma iteration_goes_on (x : sample F) (s : sampler F) :
  stops x = false →
  iteration x s
  = (Ok tt,
     let p1 := concat_p1 (p1_samples s) (next_sample_time s) (p1_data x) in
     if first_sample_to_save s <=? next_sample_time s then
       Sampler [] [] (next_sample_time s + half_second)
         (first_sample_to_save s + one_minute) (submitted s ++ [(p1, pv_samples s)])
     else
       Sampler p1 (pv_samples s) (next_sample_time s + half_second)
         (first_sample_to_save s) (submitted s)).
Proof.
  unfold stops, iteration. destruct (pv_data x) as [|[]|v]; try done; simpl;
    by destruct (_ <=? _).
Qed.

Lemma sampling_loop_sampled (ticks : list (sample F)) (s : sampler F) :
  sampling_loop (sampled ticks) s = sampling_loop ticks s.
Proof.
  revert s. induction ticks as [|x ticks IH]; intros s; [done|].
  cbn [sampled]. destruct (stops x) eqn:Hx.
  - destruct (iteration_stops x s Hx) as [e He]. cbn [sampling_loop]. by rewrite He.
  - cbn [sampling_loop]. rewrite (iteration_goes_on x s Hx). apply IH.
Qed.

Lemma sampled_idemp (ticks : list (sample F)) : sampled (sampled ticks) = sampled ticks.
Proof.
  induction ticks as [|x ticks IH]; [done|].
  cbn [sampled]. destruct (stops x) eqn:Hx; cbn [sampled]; rewrite Hx; [done|].
  by rewrite IH.
Qed.
End Sampling.

Section Windows.
Context {F : Type}.

Lemma answered_app (t : Z) (xs ys : list (sample F)) :
  answered t (xs ++ ys)
  = answered t xs ++ answered (t + Z.of_nat (length xs) * half_second) ys.
Proof.
  revert t. induction xs as [|x xs IH]; intros t.
  - simpl. f_equal. lia.
  - cbn [app answered length]. rewrite IH, <- app_assoc. do 3 f_equal. lia.
Qed.

Lemma answered_bounds (t : Z) (xs : list (sample F)) :
  Forall (λ r, t ≤ r_timestamp r < t + Z.of_nat (length xs) * half_second
               ∧ (r_timestamp r - t) mod half_second = 0) (answered t xs).
Proof.
  revert t. induction xs as [|x xs IH]; intros t; [constructor|].
  cbn [answered length]. apply Forall_app. split.
  - destruct (p1_data x); simpl; repeat constructor; simpl;
      [unfold half_second; lia..|]. by rewrite Z.sub_diag.
  - eapply Forall_impl; [apply IH|]. intros r [Hr Hmod]. simpl in *.
    split; [unfold half_second in *; lia|].
    replace (r_timestamp r - t) with (r_timestamp r - (t + half_second) + 1 * half_second)
      by lia.
    by rewrite Z.mod_add.
Qed.

Lemma answered_sorted (t : Z) (xs : list (sample F)) :
  StronglySorted Z.lt (r_timestamp <$> answered t xs).
Proof.
  revert t. induction xs as [|x xs IH]; intros t; [constructor|].
  cbn [answered]. destruct (p1_data x) as [v|]; simpl; [|apply IH].
  constructor; [apply IH|]. apply Forall_fmap.
  eapply Forall_impl; [apply answered_bounds|]. intros r [Hr _]. simpl in *.
  unfold half_second in *. lia.
Qed.

Lemma window_start_end (t0 : Z) (j : nat) : window_start t0 j < window_end t0 j.
Proof.
  unfold window_start, window_end, one_minute, half_second, ns_per_s.
  destruct j; lia.
Qed.

Lemma window_end_start (t0 : Z) (j : nat) :
  window_start t0 (S j) = window_end t0 j + half_second.
Proof. unfold window_start, window_end. lia. Qed.

Lemma window_end_succ (t0 : Z) (j : nat) :
  window_end t0 (S j) = window_end t0 j + one_minute.
Proof. unfold window_end. lia. Qed.

Lemma window_end_mono (t0 : Z) (i j : nat) :
  (i < j)%nat → window_end t0 i < window_start t0 j.
Proof.
  intros Hij. unfold window_start, window_end, one_minute, half_second, ns_per_s.
  destruct j; lia.
Qed.

(** The windows do not overlap. *)
Lemma in_window_inj (t0 : Z) (i j : nat) (r : reading F) :
  in_window t0 i r → in_window t0 j r → i = j.
Proof.
  unfold in_window. intros Hi Hj.
  destruct (decide (i < j)%nat) as [Hlt|Hge].
  - pose proof (window_end_mono t0 i j Hlt). lia.
  - destruct (decide (j < i)%nat) as [Hlt|Hge']; [|lia].
    pose proof (window_end_mono t0 j i Hlt). lia.
Qed.

Lemma sampling_invariant_init (t0 : Z) :
  sampling_invariant (F:=F) t0 [] (Sampler [] [] t0 (t0 + one_minute) []).
Proof.
  unfold sampling_invariant, window_end, window_start; simpl.
  repeat split; try done; try lia.
  unfold one_minute, ns_per_s. lia.
Qed.

Lemma sampling_invariant_step (t0 : Z) (done : list (sample F)) (x : sample F)
    (s : sampler F) :
  t0 mod half_second = 0 →
  sampling_invariant t0 done s → stops x = false →
  sampling_invariant t0 (done ++ [x]) (iteration x s).2.
Proof.
  intros Ht0 (Hnext & Hfirst & [Hlo Hhi] & Hpv & Hsub & Hp1 & Hwin & Hall) Hx.
  cbv zeta in *. rewrite (iteration_goes_on x s Hx). cbv zeta.
  assert (answered t0 (done ++ [x])
          = answered t0 done ++ concat_p1 [] (next_sample_time s) (p1_data x)) as Hans.
  { rewrite answered_app. cbn [answered]. by rewrite app_nil_r, Hnext. }
  assert (concat_p1 (p1_samples s) (next_sample_time s) (p1_data x)
          = p1_samples s ++ concat_p1 [] (next_sample_time s) (p1_data x)) as Hcat.
  { destruct (p1_data x); simpl; [done|by rewrite app_nil_r]. }
  assert (Forall (λ r, r_timestamp r = next_sample_time s)
            (concat_p1 [] (next_sample_time s) (p1_data x))) as Hnew.
  { destruct (p1_data x); simpl; by repeat constructor. }
  destruct (first_sample_to_save s <=? next_sample_time s) eqn:Hflush; cbn [snd].
  - apply Z.leb_le in Hflush.
    assert (next_sample_time s = window_end t0 (length (submitted s))) as Hnow by lia.
    unfold sampling_invariant. cbn [p1_samples pv_samples next_sample_time
      first_sample_to_save submitted]. cbv zeta.
    rewrite length_app, length_app. cbn [length].
    replace (length (submitted s) + 1)%nat with (S (length (submitted s))) by lia.
    rewrite window_end_succ, window_end_start, <- Hfirst.
    split; [rewrite Hnext; lia|]. split; [done|].
    split; [unfold one_minute, half_second, ns_per_s; lia|]. split; [done|].
    split; [apply Forall_app; split; [done|by repeat constructor]|].
    split; [constructor|]. split.
    + intros j w Hj. apply lookup_app_Some in Hj as [Hj|[Hge Hj]]; [by eapply Hwin|].
      apply list_lookup_singleton_Some in Hj as [Hj <-]. cbn [fst].
      replace j with (length (submitted s)) by lia.
      rewrite Hcat. apply Forall_app. split.
      * eapply Forall_impl; [exact Hp1|]. intros r Hr. unfold in_window. simpl in *. lia.
      * eapply Forall_impl; [exact Hnew|]. intros r Hr. unfold in_window. simpl in *.
        lia.
    + rewrite fmap_app, concat_app. cbn. rewrite !app_nil_r, Hcat, Hans, <- Hall.
      by rewrite app_assoc.
  - apply Z.leb_gt in Hflush.
    unfold sampling_invariant. cbn [p1_samples pv_samples next_sample_time
      first_sample_to_save submitted]. cbv zeta.
    rewrite length_app. cbn [length].
    assert (next_sample_time s + half_second ≤ first_sample_to_save s) as Hle.
    { rewrite Hfirst in *. rewrite Hnext in *.
      unfold window_end, one_minute, half_second, ns_per_s in *. lia. }
    split; [rewrite Hnext; lia|]. split; [done|].
    split; [unfold half_second in *; lia|]. split; [done|]. split; [done|].
    split.
    + rewrite Hcat. apply Forall_app. split.
      * eapply Forall_impl; [exact Hp1|]. intros r Hr. simpl in *.
        unfold half_second; lia.
      * eapply Forall_impl; [exact Hnew|]. intros r Hr. simpl in *.
        unfold half_second; lia.
    + split; [done|]. by rewrite Hcat, Hans, <- Hall, app_assoc.
Qed.

Lemma sampling_invariant_loop (t0 : Z) (done xs : list (sample F)) (s : sampler F) :
  t0 mod half_second = 0 →
  sampling_invariant t0 done s → Forall (λ x, stops x = false) xs →
  sampling_invariant t0 (done ++ xs) (sampling_loop xs s).
Proof.
  intros Ht0. revert done s. induction xs as [|x xs IH]; intros done s Hs Hxs.
  - by rewrite app_nil_r.
  - apply Forall_cons in Hxs as [Hx Hxs]. cbn [sampling_loop].
    pose proof (sampling_invariant_step t0 done x s Ht0 Hs Hx) as Hstep.
    rewrite (iteration_goes_on x s Hx) in *. cbn [snd] in Hstep.
    replace (done ++ x :: xs) with ((done ++ [x]) ++ xs) by by rewrite <- app_assoc.
    by apply IH.
Qed.

Lemma sampled_cases (ticks : list (sample F)) :
  Forall (λ x, stops x = false) (sampled ticks)
  ∨ ∃ xs x, sampled ticks = xs ++ [x] ∧ Forall (λ x, stops x = false) xs
            ∧ stops x = true.
Proof.
  induction ticks as [|x ticks IH]; [left; constructor|].
  cbn [sampled]. destruct (stops x) eqn:Hx.
  - right. exists [], x. by repeat split.
  - destruct IH as [IH|(xs & y & -> & Hxs & Hy)].
    + left. by constructor.
    + right. exists (x :: xs), y. repeat split; [|done]. by constructor.
Qed.

Lemma sampling_loop_stop (xs : list (sample F)) (x : sample F) (s : sampler F) :
  Forall (λ x, stops x = false) xs → stops x = true →
  sampling_loop (xs ++ [x]) s
  = let s' := sampling_loop xs s in
    Sampler (concat_p1 (p1_samples s') (next_sample_time s') (p1_data x))
      (pv_samples s') (next_sample_time s') (first_sample_to_save s') (submitted s').
Proof.
  intros Hxs Hx. revert s. induction Hxs as [|y xs Hy _ IH]; intros s.
  - cbn [app sampling_loop]. destruct (iteration_stops x s Hx) as [e ->]. done.
  - cbn [app sampling_loop]. rewrite (iteration_goes_on y s Hy). apply IH.
Qed.

(** The calls of [save_data] of a run. *)
Lemma main_calls (now : Z) (ticks : list (sample F)) :
  second_of_minute now < 59 →
  ∃ calls,
    main now ticks = Ok calls
    ∧ calls_of_run (floor_s now + ns_per_s) (sampled ticks) calls.
Proof.
  intros Hnow. unfold main, first_tick.
  rewrite (proj2 (Z.leb_le _ _)) by lia. cbn [rbind].
  set (t0 := floor_s now + ns_per_s).
  assert (t0 mod half_second = 0) as Ht0.
  { unfold t0, floor_s. replace (now / ns_per_s * ns_per_s + ns_per_s)
      with ((now / ns_per_s + 1) * 2 * half_second)
      by (unfold ns_per_s, half_second; lia).
    apply Z.mod_mul. done. }
  eexists. split; [done|].
  rewrite <- (sampling_loop_sampled ticks).
  destruct (sampled_cases ticks) as [Hxs|(xs & x & -> & Hxs & Hx)].
  - pose proof (sampling_invariant_loop t0 [] _ _ Ht0 (sampling_invariant_init t0) Hxs)
      as (Hnext & Hfirst & [Hlo Hhi] & Hpv & Hsub & Hp1 & Hwin & Hall).
    cbv zeta in *. cbn [app] in *.
    set (s := sampling_loop (sampled ticks) _) in *.
    split; [apply Forall_app; split; [done|by repeat constructor]|]. split.
    + intros j w Hj. apply lookup_app_Some in Hj as [Hj|[Hge Hj]]; [by eapply Hwin|].
      apply list_lookup_singleton_Some in Hj as [Hj <-]. cbn [fst].
      replace j with (length (submitted s)) by lia.
      eapply Forall_impl; [exact Hp1|]. intros r Hr. unfold in_window. simpl in *. lia.
    + rewrite fmap_app, concat_app. cbn. by rewrite app_nil_r.
  - rewrite (sampling_loop_stop xs x _ Hxs Hx). cbv zeta.
    pose proof (sampling_invariant_loop t0 [] _ _ Ht0 (sampling_invariant_init t0) Hxs)
      as (Hnext & Hfirst & [Hlo Hhi] & Hpv & Hsub & Hp1 & Hwin & Hall).
    cbv zeta in *. cbn [app] in *.
    set (s := sampling_loop xs _) in *.
    cbn [p1_samples pv_samples submitted].
    assert (concat_p1 (p1_samples s) (next_sample_time s) (p1_data x)
            = p1_samples s ++ concat_p1 [] (next_sample_time s) (p1_data x)) as Hcat.
    { destruct (p1_data x); simpl; [done|by rewrite app_nil_r]. }
    assert (Forall (λ r, r_timestamp r = next_sample_time s)
              (concat_p1 [] (next_sample_time s) (p1_data x))) as Hnew.
    { destruct (p1_data x); simpl; by repeat constructor. }
    split; [apply Forall_app; split; [done|by repeat constructor]|]. split.
    + intros j w Hj. apply lookup_app_Some in Hj as [Hj|[Hge Hj]]; [by eapply Hwin|].
      apply list_lookup_singleton_Some in Hj as [Hj <-]. cbn [fst].
      replace j with (length (submitted s)) by lia.
      rewrite Hcat. apply Forall_app. split.
      * eapply Forall_impl; [exact Hp1|]. intros r Hr. unfold in_window. simpl in *. lia.
      * eapply Forall_impl; [exact Hnew|]. intros r Hr. unfold in_window. simpl in *.
        lia.
    + rewrite fmap_app, concat_app. cbn. rewrite app_nil_r, Hcat, app_assoc, Hall.
      rewrite answered_app. cbn [answered]. by rewrite app_nil_r, Hnext.
Qed.
End Windows.

(** X18. Started during second 59 of a minute, [main] raises [ValueError]
    before it samples or saves anything; started at any other time, its
    first tick is the next whole second. *)
Theorem first_tick_next_second (now : Z) :
  (second_of_minute now = 59 →
   ∀ (F : Type) (ticks : list (sample F)), main now ticks = Raise ValueError)
  ∧ (second_of_minute now < 59 →
     ∃ t0, first_tick now = Ok t0 ∧ t0 mod ns_per_s = 0 ∧ now < t0 ≤ now + ns_per_s).
Proof.
  split.
  - intros Hnow F ticks. unfold main, first_tick. rewrite Hnow. done.
  - intros Hnow. unfold first_tick. rewrite (proj2 (Z.leb_le _ _)) by lia.
    eexists. split; [done|]. split.
    + unfold floor_s. replace (now / ns_per_s * ns_per_s + ns_per_s)
        with ((now / ns_per_s + 1) * ns_per_s) by lia.
      by apply Z.mod_mul.
    + pose proof (floor_s_le now). unfold floor_s in *.
      pose proof (Z.mul_succ_div_gt now ns_per_s ltac:(done)). lia.
Qed.

Section Calls.
Context {F : Type}.

Lemma filter_all {A} (P : A → Prop) `{∀ x, Decision (P x)} (l : list A) :
  Forall P l → filter P l = l.
Proof.
  induction 1 as [|x l Hx _ IH]; [done|]. by rewrite filter_cons_True, IH.
Qed.

Lemma filter_none {A} (P : A → Prop) `{∀ x, Decision (P x)} (l : list A) :
  Forall (λ x, ¬ P x) l → filter P l = [].
Proof.
  induction 1 as [|x l Hx _ IH]; [done|]. by rewrite filter_cons_False.
Qed.

Lemma filter_ext_in {A} (P Q : A → Prop) `{∀ x, Decision (P x)} `{∀ x, Decision (Q x)}
    (l : list A) :
  (∀ x, x ∈ l → P x ↔ Q x) → filter P l = filter Q l.
Proof.
  induction l as [|x l IH]; intros HPQ; [done|].
  pose proof (HPQ x ltac:(left)) as Hx.
  assert (filter P l = filter Q l) as Hl by (apply IH; intros y Hy; apply HPQ; by right).
  destruct (decide (P x)) as [HP|HP].
  - rewrite filter_cons_True, (filter_cons_True Q) by tauto. by rewrite Hl.
  - rewrite filter_cons_False, (filter_cons_False Q) by tauto. done.
Qed.

Lemma elem_of_concat {A} (x : A) (ls : list (list A)) :
  x ∈ concat ls ↔ ∃ l, x ∈ l ∧ l ∈ ls.
Proof.
  induction ls as [|l0 ls IH]; cbn [concat].
  - split; [by intros ?%elem_of_nil|]. by intros (l & _ & ?%elem_of_nil).
  - rewrite elem_of_app, IH. split.
    + intros [Hx|(l & Hx & Hl)]; [exists l0; split; [done|left]|].
      exists l. split; [done|by right].
    + intros (l & Hx & [->|Hl]%elem_of_cons); [by left|]. right. by exists l.
Qed.

(** Lists put end to end, each with a property of its own that excludes the
    others, are found again by filtering. *)
Lemma filter_concat {A} (P : nat → A → Prop) `{∀ j x, Decision (P j x)}
    (ls : list (list A)) (j : nat) (l : list A) :
  (∀ i l, ls !! i = Some l → Forall (P i) l) →
  (∀ i j x, P i x → P j x → i = j) →
  ls !! j = Some l → filter (P j) (concat ls) = l.
Proof.
  revert P H j. induction ls as [|l0 ls IH]; intros P Hdec j Hall Hinj Hj; [done|].
  cbn [concat]. rewrite filter_app. destruct j as [|j]; simpl in Hj.
  - injection Hj as ->. rewrite filter_all by exact (Hall 0%nat l eq_refl).
    rewrite filter_none; [by rewrite app_nil_r|].
    apply Forall_forall. intros x Hx HP.
    apply elem_of_concat in Hx as (l' & Hx & Hl').
    apply list_elem_of_lookup in Hl' as [i Hi].
    pose proof (Hall (S i) l' Hi) as Hl'. rewrite Forall_forall in Hl'.
    by pose proof (Hinj _ _ _ HP (Hl' _ Hx)).
  - rewrite filter_none.
    + cbn [app]. apply (IH (λ i, P (S i)) (λ i, Hdec (S i)) j); [| |done].
      * intros i l' Hi. exact (Hall (S i) l' Hi).
      * intros i j' x Hi Hj'. pose proof (Hinj _ _ _ Hi Hj'). lia.
    + apply Forall_forall. intros x Hx HP.
      pose proof (Hall 0%nat l0 eq_refl) as Hl0. rewrite Forall_forall in Hl0.
      by pose proof (Hinj _ _ _ HP (Hl0 _ Hx)).
Qed.

Lemma sorted_filter (P : reading F → Prop) `{∀ r, Decision (P r)} (l : list (reading F)) :
  StronglySorted Z.lt (r_timestamp <$> l) →
  StronglySorted Z.lt (r_timestamp <$> filter P l).
Proof.
  induction l as [|r l IH]; [done|].
  rewrite fmap_cons. intros [Hl Hr]%StronglySorted_inv.
  destruct (decide (P r)).
  - rewrite filter_cons_True by done. rewrite fmap_cons. constructor; [by apply IH|].
    apply Forall_fmap, Forall_forall. intros x [_ Hx]%list_elem_of_filter.
    rewrite Forall_fmap, Forall_forall in Hr. by apply Hr.
  - rewrite filter_cons_False by done. by apply IH.
Qed.

Lemma calls_of_run_window (t0 : Z) (all : list (sample F))
    (calls : list (list (reading F) * list (reading F))) (j : nat)
    (w : list (reading F) * list (reading F)) :
  calls_of_run t0 all calls → calls !! j = Some w →
  w.1 = filter (λ r, window_start t0 j ≤ r_timestamp r ≤ window_end t0 j)
          (answered t0 all).
Proof.
  intros (_ & Hwin & <-) Hj. symmetry.
  pose proof (filter_concat
                (λ j (r : reading F), window_start t0 j ≤ r_timestamp r ≤ window_end t0 j)
                calls.*1 j w.1) as Hfilter.
  apply Hfilter.
  - intros i l Hi. apply list_lookup_fmap_Some in Hi as (w' & -> & Hi).
    exact (Hwin i w' Hi).
  - intros i j' x. apply in_window_inj.
  - by rewrite list_lookup_fmap, Hj.
Qed.
End Calls.

(** X19. The P1 frames of the calls of [save_data] of a run, put end to
    end, are the readings of the ticks the loop got to, in order, each
    stamped with the nominal time of its tick: no reading is lost and none is
    saved twice. *)
Theorem main_keeps_every_reading {F : Type} (now : Z) (ticks : list (sample F)) :
  second_of_minute now < 59 →
  ∃ calls,
    main now ticks = Ok calls
    ∧ concat calls.*1 = answered (floor_s now + ns_per_s) (sampled ticks)
    ∧ StronglySorted Z.lt (r_timestamp <$> concat calls.*1).
Proof.
  intros Hnow. destruct (main_calls now ticks Hnow) as (calls & Hmain & _ & _ & Hall).
  exists calls. split; [done|]. split; [done|]. rewrite Hall. apply answered_sorted.
Qed.

Lemma main_keeps_every_reading_witness :
  second_of_minute (seconds 5) < 59 ∧
  ∃ calls,
    main (seconds 5) (ticks_answered 3) = Ok calls
    ∧ concat calls.*1 = answered (floor_s (seconds 5) + ns_per_s) (sampled (ticks_answered 3))
    ∧ StronglySorted Z.lt (r_timestamp <$> concat calls.*1).
Proof.
  assert (second_of_minute (seconds 5) < 59) as Hnow by done.
  split; [exact Hnow|].
  exact (main_keeps_every_reading (seconds 5) (ticks_answered 3) Hnow).
Defined.

(** X20. No production reading is ever handed to [save_data]: the first
    tick at which the production sensor gives a frame or an ok response ends
    the loop (the truth value of the frame, or the concatenation of the
    response, raises), so the calls are those of the run cut after that tick,
    and the production frame of every call is empty. *)
Theorem main_never_saves_production {F : Type} (now : Z) (ticks : list (sample F)) :
  second_of_minute now < 59 →
  ∃ calls,
    main now ticks = Ok calls
    ∧ main now (sampled ticks) = Ok calls
    ∧ Forall (λ w, w.2 = []) calls.
Proof.
  intros Hnow. destruct (main_calls now ticks Hnow) as (calls & Hmain & Hpv & _).
  exists calls. split; [done|]. split; [|done].
  rewrite <- Hmain. unfold main. destruct (first_tick now); [|done].
  cbn [rbind]. by rewrite sampling_loop_sampled.
Qed.

Lemma main_never_saves_production_witness :
  second_of_minute (seconds 5) < 59 ∧
  ∃ calls,
    main (seconds 5) ticks_with_production = Ok calls
    ∧ main (seconds 5) (sampled ticks_with_production) = Ok calls
    ∧ Forall (λ w, w.2 = []) calls.
Proof.
  assert (second_of_minute (seconds 5) < 59) as Hnow by done.
  split; [exact Hnow|].
  exact (main_never_saves_production (seconds 5) ticks_with_production Hnow).
Defined.

(** X21. The [j]-th call of [save_data] of a run holds exactly the readings
    stamped within its minute: from the first tick to one minute later, both
    included, for the first call; from half a second after the end of the
    call before to one minute after that end for the others. *)
Theorem main_window_ranges {F : Type} (now : Z) (ticks : list (sample F)) :
  second_of_minute now < 59 →
  let t0 := floor_s now + ns_per_s in
  ∃ calls,
    main now ticks = Ok calls
    ∧ ∀ j w, calls !! j = Some w →
        w.1 = filter (λ r, window_start t0 j ≤ r_timestamp r ≤ window_end t0 j)
                (answered t0 (sampled ticks))
        ∧ window_end t0 j = t0 + (Z.of_nat j + 1) * one_minute
        ∧ window_start t0 (S j) = window_end t0 j + half_second.
Proof.
  intros Hnow t0. destruct (main_calls now ticks Hnow) as (calls & Hmain & Hcalls).
  exists calls. split; [done|]. intros j w Hj.
  split; [by eapply calls_of_run_window|]. split; [done|apply window_end_start].
Qed.

Lemma main_window_ranges_witness :
  second_of_minute (seconds 5) < 59 ∧
  let t0 := floor_s (seconds 5) + ns_per_s in
  ∃ calls,
    main (seconds 5) (ticks_answered 3) = Ok calls
    ∧ ∀ j w, calls !! j = Some w →
        w.1 = filter (λ r, window_start t0 j ≤ r_timestamp r ≤ window_end t0 j)
                (answered t0 (sampled (ticks_answered 3)))
        ∧ window_end t0 j = t0 + (Z.of_nat j + 1) * one_minute
        ∧ window_start t0 (S j) = window_end t0 j + half_second.
Proof.
  assert (second_of_minute (seconds 5) < 59) as Hnow by done.
  split; [exact Hnow|].
  exact (main_window_ranges (seconds 5) (ticks_answered 3) Hnow).
Defined.

(** ** What the resampler is given (collect_homewizard_data.py) *)

Lemma floor_s_eq (t s : Z) : floor_s t = s ↔ s mod ns_per_s = 0 ∧ s ≤ t < s + ns_per_s.
Proof.
  unfold floor_s. split.
  - intros <-. split; [by apply Z.mod_mul|].
    pose proof (Z.mul_div_le t ns_per_s ltac:(done)).
    pose proof (Z.mul_succ_div_gt t ns_per_s ltac:(done)). lia.
  - intros [Hmod Hs].
    pose proof (Z.div_mod s ns_per_s ltac:(done)) as Hdiv. rewrite Hmod in Hdiv.
    assert (t / ns_per_s = s / ns_per_s) as ->; [|lia].
    symmetry. apply (Z.div_unique t ns_per_s (s / ns_per_s) (t - s)); lia.
Qed.

Lemma floor_s_id (t : Z) : t mod ns_per_s = 0 → floor_s t = t.
Proof. intros Ht. apply floor_s_eq. split; [done|]. unfold ns_per_s. lia. Qed.

Lemma floor_s_mono (a b : Z) : a ≤ b → floor_s a ≤ floor_s b.
Proof.
  intros Hab. unfold floor_s. apply Z.mul_le_mono_nonneg_r; [done|].
  by apply Z.div_le_mono.
Qed.

Lemma date_of_half_second (t : Z) :
  t mod ns_per_s = 0 → date_of (t + half_second) = date_of t.
Proof.
  intros Hmod. unfold date_of. f_equal.
  pose proof (Z.div_mod t ns_per_s ltac:(done)) as Hdiv. rewrite Hmod in Hdiv.
  unfold ns_per_day. rewrite <- !(Z.div_div _ ns_per_s 86400) by done.
  f_equal. symmetry.
  apply (Z.div_unique (t + half_second) ns_per_s (t / ns_per_s) half_second);
    [unfold half_second, ns_per_s; lia | lia].
Qed.

Lemma date_range_last (start_date end_date step : Z) :
  0 < step → start_date ≤ end_date →
  last (date_range start_date end_date step)
  = Some (start_date + (end_date - start_date) / step * step).
Proof.
  intros Hstep Hle.
  assert (0 ≤ (end_date - start_date) / step) as Hn by (apply Z.div_pos; lia).
  rewrite last_lookup, date_range_length.
  rewrite date_range_lookup by (rewrite date_range_length; revert Hn;
    generalize ((end_date - start_date) / step); lia).
  revert Hn. generalize ((end_date - start_date) / step). intros n Hn.
  do 3 f_equal. lia.
Qed.

Section Groups.
Context {F : Type} `{Float F}.

Lemma answered_lookup (t : Z) (xs : list (sample F)) (k : nat) (x : sample F) (v : F) :
  xs !! k = Some x → p1_data x = Some v →
  Reading (t + Z.of_nat k * half_second) v ∈ answered t xs.
Proof.
  revert t k. induction xs as [|y xs IH]; intros t k Hk Hv; [done|].
  cbn [answered]. apply elem_of_app. destruct k as [|k]; simpl in Hk.
  - left. injection Hk as ->. rewrite Hv. simpl.
    replace (t + Z.of_nat 0 * half_second) with t by lia. left.
  - right.
    replace (t + Z.of_nat (S k) * half_second)
      with (t + half_second + Z.of_nat k * half_second) by lia.
    by apply IH.
Qed.

Lemma filter_timestamp (l : list (reading F)) (r : reading F) :
  StronglySorted Z.lt (r_timestamp <$> l) → r ∈ l →
  filter (λ x, r_timestamp x = r_timestamp r) l = [r].
Proof.
  induction l as [|y l IH]; [by intros _ ?%elem_of_nil|].
  rewrite fmap_cons. intros [Hl Hy]%StronglySorted_inv Hr.
  rewrite Forall_fmap, Forall_forall in Hy.
  apply elem_of_cons in Hr as [->|Hr].
  - rewrite filter_cons_True by done. f_equal. apply filter_none, Forall_forall.
    intros x Hx. specialize (Hy _ Hx). simpl in *. lia.
  - rewrite filter_cons_False; [by apply IH|]. specialize (Hy _ Hr). simpl in *. lia.
Qed.

(** A frame of a run, cut down to a date, is a flush window. *)
Lemma flush_window_group (t0 : Z) (all : list (sample F)) (w : list (reading F))
    (P : reading F → Prop) `{∀ r, Decision (P r)} (r : reading F) :
  t0 mod half_second = 0 →
  (∀ x, x ∈ w → x ∈ answered t0 all) → StronglySorted Z.lt (r_timestamp <$> w) →
  r ∈ w → P r →
  flush_window (filter P w).
Proof.
  intros Ht0 Hw Hsorted Hr HP. split; [|split].
  - intros Hnil. assert (r ∈ filter P w) as Hin by (by apply list_elem_of_filter).
    rewrite Hnil in Hin. by apply elem_of_nil in Hin.
  - by apply sorted_filter.
  - apply Forall_forall. intros x [_ Hx%Hw]%list_elem_of_filter.
    pose proof (answered_bounds t0 all) as Hb. rewrite Forall_forall in Hb.
    destruct (Hb _ Hx) as [_ Hmod].
    replace (r_timestamp x) with (r_timestamp x - t0 + t0) by lia.
    rewrite Z.add_mod, Hmod, Ht0 by done. done.
Qed.

Lemma flush_window_saved (g : list (reading F)) :
  flush_window g →
  ∃ tmin tmax,
    index_min (r_timestamp <$> g) = Some tmin
    ∧ index_max (r_timestamp <$> g) = Some tmax
    ∧ tmin ≤ tmax
    ∧ save_to_csv g
      = Ok ((λ s, (s, mean (readings_in g s)))
              <$> date_range (floor_s tmin) (floor_s tmax) ns_per_s).
Proof.
  intros Hwin.
  destruct (index_min (r_timestamp <$> g)) as [tmin|] eqn:Hmin.
  2: { destruct Hwin as [Hne _]. by destruct g. }
  destruct (index_max (r_timestamp <$> g)) as [tmax|] eqn:Hmax.
  2: { destruct Hwin as [Hne _]. by destruct g. }
  exists tmin, tmax. split; [done|]. split; [done|]. split.
  - apply index_min_spec in Hmin as [Hin _]. apply index_max_spec in Hmax as [_ Hhi].
    rewrite Forall_forall in Hhi. by apply Hhi.
  - by apply save_to_csv_flush_window.
Qed.

Lemma save_to_csv_last (g : list (reading F)) (t : Z) (a : F) :
  flush_window g → Reading t a ∈ g → Forall (λ r, r_timestamp r ≤ t) g →
  t mod ns_per_s = 0 →
  ∃ rows, save_to_csv g = Ok rows ∧ last rows = Some (t, mean [a]).
Proof.
  intros Hwin Hin Hle Ht.
  destruct (flush_window_saved g Hwin) as (tmin & tmax & Hmin & Hmax & Hspan & ->).
  assert (tmax = t) as ->.
  { assert (index_max (r_timestamp <$> g) = Some t) as Hmax'; [|congruence].
    apply index_max_spec. split; [|by apply Forall_fmap].
    by apply (list_elem_of_fmap_2 r_timestamp _ _ Hin). }
  eexists. split; [done|].
  destruct (floor_s_span tmin t Hspan) as [_ Hlast].
  rewrite fmap_last, date_range_last by (done || by apply floor_s_mono).
  rewrite Hlast, (floor_s_id t Ht).
  cbn. do 3 f_equal. unfold readings_in.
  rewrite (filter_ext_in _ (λ x, r_timestamp x = r_timestamp (Reading t a))).
  - destruct Hwin as (_ & Hsorted & _). by rewrite filter_timestamp.
  - intros x Hx. rewrite Forall_forall in Hle. specialize (Hle _ Hx). simpl.
    rewrite floor_s_eq. unfold ns_per_s in *. lia.
Qed.

Lemma save_to_csv_head (g : list (reading F)) (t : Z) (b : F) :
  flush_window g → Reading (t + half_second) b ∈ g →
  Forall (λ r, t + half_second ≤ r_timestamp r) g → t mod ns_per_s = 0 →
  ∃ rows, save_to_csv g = Ok rows ∧ head rows = Some (t, mean [b]).
Proof.
  intros Hwin Hin Hle Ht.
  destruct (flush_window_saved g Hwin) as (tmin & tmax & Hmin & Hmax & Hspan & ->).
  assert (tmin = t + half_second) as ->.
  { assert (index_min (r_timestamp <$> g) = Some (t + half_second)) as Hmin';
      [|congruence].
    apply index_min_spec. split; [|by apply Forall_fmap].
    by apply (list_elem_of_fmap_2 r_timestamp _ _ Hin). }
  eexists. split; [done|].
  assert (floor_s (t + half_second) = t) as Hfloor
    by (apply floor_s_eq; split; [done|unfold half_second, ns_per_s; lia]).
  destruct (floor_s_span _ _ Hspan) as [Hn Hlast].
  rewrite date_range_head by (done || by apply floor_s_mono). rewrite Hfloor.
  cbn. do 3 f_equal. unfold readings_in.
  rewrite (filter_ext_in _ (λ x, r_timestamp x = r_timestamp (Reading (t + half_second) b))).
  - destruct Hwin as (_ & Hsorted & _). by rewrite filter_timestamp.
  - intros x Hx. rewrite Forall_forall in Hle. specialize (Hle _ Hx).
    destruct Hwin as (_ & _ & Hgrid). rewrite Forall_forall in Hgrid.
    specialize (Hgrid _ Hx). simpl in *. rewrite floor_s_eq.
    pose proof (Z.div_mod (r_timestamp x) half_second ltac:(done)) as Hx'.
    pose proof (Z.div_mod t ns_per_s ltac:(done)) as Ht'.
    rewrite Hgrid in Hx'. rewrite Ht in Ht'.
    unfold half_second, ns_per_s in *. lia.
Qed.

Lemma groupby_date_elem (samples : list (reading F)) (date : Z) (group : list (reading F)) :
  (date, group) ∈ groupby_date samples
  ↔ group = filter (λ r, date_of (r_timestamp r) = date) samples
    ∧ ∃ r, r ∈ samples ∧ date_of (r_timestamp r) = date.
Proof.
  unfold groupby_date. rewrite list_elem_of_fmap.
  setoid_rewrite merge_sort_Permutation. setoid_rewrite elem_of_remove_dups.
  setoid_rewrite list_elem_of_fmap. split.
  - intros (d & [= -> ->] & r & -> & Hr). split; [done|]. by exists r.
  - intros (-> & r & Hr & <-). eexists. split; [done|]. by exists r.
Qed.

Lemma save_data_elem (username : string) (has_pv : bool) (p1 : list (reading F))
    (path : string) (group : list (reading F)) :
  (path, group) ∈ save_data username has_pv p1 []
  ↔ ∃ date, path = collector_path username date "p1" ∧ (date, group) ∈ groupby_date p1.
Proof.
  unfold save_data. replace (groupby_date (F:=F) []) with (@nil (Z * list (reading F)))
    by done.
  rewrite fmap_nil. replace (if has_pv then [] else []) with (@nil (string * list (reading F)))
    by by destruct has_pv.
  rewrite app_nil_r, list_elem_of_fmap. split.
  - intros ([date g] & [= -> ->] & Hg). by exists date.
  - intros (date & -> & Hg). by exists (date, group).
Qed.
End Groups.

(** X22. Every frame that [save_data] passes to [save_to_csv] in a run is a
    flush window: the readings of one date of the P1 frame of a call, not
    empty, in strictly increasing order of time, on the half-second grid.
    On each of them the resampler returns, and the file is a P1 file. *)
Theorem main_saves_flush_windows {F : Type} `{Float F} (now : Z)
    (ticks : list (sample F)) (username : string) (has_pv : bool) :
  second_of_minute now < 59 →
  ∃ calls,
    main now ticks = Ok calls
    ∧ ∀ w path group,
        w ∈ calls → (path, group) ∈ save_data username has_pv w.1 w.2 →
        flush_window group
        ∧ (∃ rows, save_to_csv group = Ok rows)
        ∧ ∃ date, path = collector_path username date "p1"
                  ∧ group = filter (λ r, date_of (r_timestamp r) = date) w.1.
Proof.
  intros Hnow. destruct (main_calls now ticks Hnow) as (calls & Hmain & Hcalls).
  exists calls. split; [done|].
  intros w path group Hw. pose proof Hcalls as (Hpv & _ & _).
  rewrite Forall_forall in Hpv. rewrite (Hpv _ Hw).
  apply list_elem_of_lookup in Hw as [j Hj].
  intros (date & -> & (-> & r & Hr & Hdate)%groupby_date_elem)%save_data_elem.
  pose proof (calls_of_run_window _ _ _ _ _ Hcalls Hj) as Hw.
  assert ((floor_s now + ns_per_s) mod half_second = 0) as Ht0.
  { unfold floor_s. replace (now / ns_per_s * ns_per_s + ns_per_s)
      with ((now / ns_per_s + 1) * 2 * half_second)
      by (unfold ns_per_s, half_second; lia).
    by apply Z.mod_mul. }
  assert (flush_window (filter (λ r, date_of (r_timestamp r) = date) w.1)) as Hwin.
  { eapply (flush_window_group (floor_s now + ns_per_s) (sampled ticks)); try done.
    - intros x Hx. rewrite Hw in Hx. by apply list_elem_of_filter in Hx as [_ Hx].
    - rewrite Hw. apply sorted_filter, answered_sorted. }
  split; [done|]. split; [|by exists date].
  destruct (flush_window_saved _ Hwin) as (? & ? & _ & _ & _ & ->). eauto.
Qed.

Lemma main_saves_flush_windows_witness :
  second_of_minute (seconds 5) < 59 ∧
  ∃ calls,
    main (seconds 5) (ticks_answered 3) = Ok calls
    ∧ ∀ w path group,
        w ∈ calls → (path, group) ∈ save_data "site" false w.1 w.2 →
        flush_window group
        ∧ (∃ rows, save_to_csv group = Ok rows)
        ∧ ∃ date, path = collector_path "site" date "p1"
                  ∧ group = filter (λ r, date_of (r_timestamp r) = date) w.1.
Proof.
  assert (second_of_minute (seconds 5) < 59) as Hnow by done.
  split; [exact Hnow|].
  exact (main_saves_flush_windows (seconds 5) (ticks_answered 3) "site" false Hnow).
Defined.

(** X23. The second at which the loop submits a call is cut in two: its
    reading on the second goes to that call and its reading half a second
    later to the next one. When the P1 sensor answered at both ticks, the
    rows the resampler writes for the first call end with a row stamped with
    that second, holding the first reading alone, and the rows it writes for
    the next call, to the same file, begin with a row of the same stamp,
    holding the second reading alone. *)
Theorem boundary_second_saved_twice {F : Type} `{Float F} (now : Z)
    (ticks : list (sample F)) (username : string) (has_pv : bool) (j : nat)
    (x1 x2 : sample F) (a b : F) :
  second_of_minute now < 59 →
  sampled ticks !! (120 * (j + 1))%nat = Some x1 → p1_data x1 = Some a →
  sampled ticks !! (120 * (j + 1) + 1)%nat = Some x2 → p1_data x2 = Some b →
  let t := window_end (floor_s now + ns_per_s) j in
  let path := collector_path username (date_of t) "p1" in
  ∃ calls w1 w2 group1 group2 rows1 rows2,
    main now ticks = Ok calls
    ∧ calls !! j = Some w1 ∧ calls !! S j = Some w2
    ∧ (path, group1) ∈ save_data username has_pv w1.1 w1.2
    ∧ (path, group2) ∈ save_data username has_pv w2.1 w2.2
    ∧ save_to_csv group1 = Ok rows1 ∧ save_to_csv group2 = Ok rows2
    ∧ last rows1 = Some (t, mean [a])
    ∧ head rows2 = Some (t, mean [b]).
Proof.
  intros Hnow Hx1 Ha Hx2 Hb t path.
  destruct (main_calls now ticks Hnow) as (calls & Hmain & Hcalls).
  set (t0 := floor_s now + ns_per_s) in *.
  assert (t0 mod ns_per_s = 0) as Ht0s.
  { unfold t0, floor_s. replace (now / ns_per_s * ns_per_s + ns_per_s)
      with ((now / ns_per_s + 1) * ns_per_s) by lia.
    by apply Z.mod_mul. }
  assert (t0 mod half_second = 0) as Ht0.
  { pose proof (Z.div_mod t0 ns_per_s ltac:(done)) as Hdiv. rewrite Ht0s in Hdiv.
    rewrite Hdiv. replace (ns_per_s * (t0 / ns_per_s) + 0)
      with (t0 / ns_per_s * 2 * half_second) by (unfold ns_per_s, half_second; lia).
    by apply Z.mod_mul. }
  assert (t mod ns_per_s = 0) as Ht.
  { unfold t, window_end, one_minute.
    replace (t0 + (Z.of_nat j + 1) * (60 * ns_per_s))
      with (t0 + (Z.of_nat j + 1) * 60 * ns_per_s) by lia.
    by rewrite Z.mod_add. }
  pose proof (answered_lookup t0 _ _ _ _ Hx1 Ha) as Hr1.
  pose proof (answered_lookup t0 _ _ _ _ Hx2 Hb) as Hr2.
  replace (t0 + Z.of_nat (120 * (j + 1)) * half_second) with t in Hr1
    by (unfold t, window_end, one_minute, half_second, ns_per_s; lia).
  replace (t0 + Z.of_nat (120 * (j + 1) + 1) * half_second) with (t + half_second) in Hr2
    by (unfold t, window_end, one_minute, half_second, ns_per_s; lia).
  destruct Hcalls as (Hpv & Hwin & Hall).
  assert (∀ (r : reading F) i, r ∈ answered t0 (sampled ticks) → in_window t0 i r →
            ∃ w, calls !! i = Some w ∧ r ∈ w.1) as Hfind.
  { intros r i Hr Hi. rewrite <- Hall in Hr.
    apply elem_of_concat in Hr as (l & Hr & Hl).
    apply list_elem_of_lookup in Hl as [i' Hi'].
    apply list_lookup_fmap_Some in Hi' as (w & -> & Hi').
    pose proof (Hwin _ _ Hi') as Hw. rewrite Forall_forall in Hw.
    rewrite (in_window_inj t0 i i' r Hi (Hw _ Hr)). by exists w. }
  destruct (Hfind _ j Hr1) as (w1 & Hw1 & Hin1).
  { unfold in_window. cbn [r_timestamp]. pose proof (window_start_end t0 j).
    unfold t. lia. }
  destruct (Hfind _ (S j) Hr2) as (w2 & Hw2 & Hin2).
  { unfold in_window. cbn [r_timestamp]. rewrite window_end_start, window_end_succ.
    unfold t, one_minute, half_second, ns_per_s. lia. }
  pose proof (calls_of_run_window t0 _ calls j w1 (conj Hpv (conj Hwin Hall)) Hw1) as Hf1.
  pose proof (calls_of_run_window t0 _ calls (S j) w2 (conj Hpv (conj Hwin Hall)) Hw2)
    as Hf2.
  set (group1 := filter (λ r, date_of (r_timestamp r) = date_of t) w1.1).
  set (group2 := filter (λ r, date_of (r_timestamp r) = date_of t) w2.1).
  assert (flush_window group1) as Hg1.
  { eapply (flush_window_group t0 (sampled ticks) w1.1 _ (Reading t a)); try done.
    - intros x Hx. rewrite Hf1 in Hx. by apply list_elem_of_filter in Hx as [_ Hx].
    - rewrite Hf1. apply sorted_filter, answered_sorted. }
  assert (flush_window group2) as Hg2.
  { eapply (flush_window_group t0 (sampled ticks) w2.1 _ (Reading (t + half_second) b));
      try done.
    - intros x Hx. rewrite Hf2 in Hx. by apply list_elem_of_filter in Hx as [_ Hx].
    - rewrite Hf2. apply sorted_filter, answered_sorted.
    - simpl. by apply date_of_half_second. }
  destruct (save_to_csv_last group1 t a Hg1) as (rows1 & Hrows1 & Hlast); [| |done|].
  { apply list_elem_of_filter. by split. }
  { apply Forall_forall. intros x [_ Hx]%list_elem_of_filter.
    pose proof (Hwin _ _ Hw1) as Hw. rewrite Forall_forall in Hw.
    destruct (Hw _ Hx) as [_ Hle]. done. }
  destruct (save_to_csv_head group2 t b Hg2) as (rows2 & Hrows2 & Hhead); [| |done|].
  { apply list_elem_of_filter. split; [|done]. simpl. by apply date_of_half_second. }
  { apply Forall_forall. intros x [_ Hx]%list_elem_of_filter.
    pose proof (Hwin _ _ Hw2) as Hw. rewrite Forall_forall in Hw.
    destruct (Hw _ Hx) as [Hge _]. rewrite window_end_start in Hge. done. }
  exists calls, w1, w2, group1, group2, rows1, rows2.
  split; [done|]. split; [done|]. split; [done|].
  rewrite Forall_forall in Hpv.
  rewrite (Hpv w1 (list_elem_of_lookup_2 _ _ _ Hw1)).
  rewrite (Hpv w2 (list_elem_of_lookup_2 _ _ _ Hw2)).
  split.
  { apply save_data_elem. exists (date_of t). split; [done|].
    apply groupby_date_elem; split; [done|by exists (Reading t a)]. }
  split.
  { apply save_data_elem. exists (date_of t). split; [done|].
    apply groupby_date_elem. split; [done|]. exists (Reading (t + half_second) b).
    split; [done|]. simpl. by apply date_of_half_second. }
  done.
Qed.

(** X23 on a run of 122 ticks that all answer: the second one minute after
    the first tick is written by the first call and by the second. *)
Lemma boundary_second_saved_twice_witness :
  (second_of_minute (seconds 5) < 59
   ∧ sampled (ticks_answered 122) !! (120 * (0 + 1))%nat
     = Some (Sample (Some (inject_Z 120)) PvNone)
   ∧ p1_data (Sample (F:=Q) (Some (inject_Z 120)) PvNone) = Some (inject_Z 120)
   ∧ sampled (ticks_answered 122) !! (120 * (0 + 1) + 1)%nat
     = Some (Sample (Some (inject_Z 121)) PvNone)
   ∧ p1_data (Sample (F:=Q) (Some (inject_Z 121)) PvNone) = Some (inject_Z 121)) ∧
  let t := window_end (floor_s (seconds 5) + ns_per_s) 0 in
  let path := collector_path "site" (date_of t) "p1" in
  ∃ calls w1 w2 group1 group2 rows1 rows2,
    main (seconds 5) (ticks_answered 122) = Ok calls
    ∧ calls !! 0%nat = Some w1 ∧ calls !! 1%nat = Some w2
    ∧ (path, group1) ∈ save_data "site" false w1.1 w1.2
    ∧ (path, group2) ∈ save_data "site" false w2.1 w2.2
    ∧ save_to_csv group1 = Ok rows1 ∧ save_to_csv group2 = Ok rows2
    ∧ last rows1 = Some (t, mean [inject_Z 120])
    ∧ head rows2 = Some (t, mean [inject_Z 121]).
Proof.
  assert (second_of_minute (seconds 5) < 59) as Hnow by done.
  assert (sampled (ticks_answered 122) !! (120 * (0 + 1))%nat
          = Some (Sample (Some (inject_Z 120)) PvNone)) as Hx1 by (vm_compute; reflexivity).
  assert (sampled (ticks_answered 122) !! (120 * (0 + 1) + 1)%nat
          = Some (Sample (Some (inject_Z 121)) PvNone)) as Hx2 by (vm_compute; reflexivity).
  split; [by repeat split|].
  exact (boundary_second_saved_twice (seconds 5) (ticks_answered 122) "site" false 0
           (Sample (Some (inject_Z 120)) PvNone) (Sample (Some (inject_Z 121)) PvNone)
           (inject_Z 120) (inject_Z 121) Hnow Hx1 eq_refl Hx2 eq_refl).
Defined.

(** ** The paths of the day files (collect_homewizard_data.py, sync_homewizard.py) *)

Lemma string_length_app (a b : string) :
  String.length (a +:+ b) = (String.length a + String.length b)%nat.
Proof.
  induction a as [|x a IH]; [done|].
  change (S (String.length (a +:+ b)) = S (String.length a + String.length b)).
  by rewrite IH.
Qed.

Lemma civil_from_days_month (z : Z) : 1 ≤ (civil_from_days z).1.2 ≤ 12.
Proof.
  unfold civil_from_days. cbv zeta. cbn [fst snd].
  set (doe := z + 719468 - (z + 719468) / 146097 * 146097).
  assert (0 ≤ doe < 146097) as Hdoe.
  { unfold doe. pose proof (Z.mul_div_le (z + 719468) 146097 ltac:(done)).
    pose proof (Z.mul_succ_div_gt (z + 719468) 146097 ltac:(done)). lia. }
  clearbody doe.
  set (yoe := (doe - doe / 1460 + doe / 36524 - doe / 146096) / 365).
  set (doy := doe - (365 * yoe + yoe / 4 - yoe / 100)).
  assert (0 ≤ doy ≤ 365) as Hdoy.
  { unfold doy, yoe. Z.div_mod_to_equations. lia. }
  clearbody doy.
  destruct ((5 * doy + 2) / 153 <? 10) eqn:Hmp.
  - apply Z.ltb_lt in Hmp. Z.div_mod_to_equations. lia.
  - apply Z.ltb_ge in Hmp. Z.div_mod_to_equations. lia.
Qed.

(** X24. The collector writes the file of a day to
    [DATA_DIR/<year>/<month, two digits>/<file name>] and the sync looks for
    it at [DATA_DIR/<year>/<month, as is>/<file name>], with the same file
    name: the two paths are the same exactly for the days of October,
    November and December. *)
Theorem collector_and_sync_paths (home_id : string) (date : Z) (data_type : string) :
  let '(year, month, day) := ymd date in
  collector_path home_id date data_type
  = DATA_DIR +:+ "/" +:+ pretty year +:+ "/" +:+ pad2 month +:+ "/"
    +:+ day_filename home_id date data_type
  ∧ day_path date (day_filename home_id date data_type)
    = DATA_DIR +:+ "/" +:+ pretty year +:+ "/" +:+ pretty month +:+ "/"
      +:+ day_filename home_id date data_type
  ∧ 1 ≤ month ≤ 12
  ∧ (collector_path home_id date data_type
     = day_path date (day_filename home_id date data_type)
     ↔ 10 ≤ month).
Proof.
  unfold collector_path, day_path, day_filename.
  pose proof (civil_from_days_month (date / ns_per_day)) as Hmonth.
  unfold ymd. destruct (civil_from_days (date / ns_per_day)) as [[year month] day].
  cbn [fst snd] in Hmonth. split; [done|]. split; [done|]. split; [done|].
  unfold pad2 at 1. destruct (decide (10 ≤ month)) as [Hm|Hm].
  - rewrite (proj2 (Z.ltb_ge month 10) Hm), andb_false_r. by split.
  - rewrite (proj2 (Z.ltb_lt month 10)), (proj2 (Z.leb_le 0 month)) by lia.
    cbn [andb]. split; [|lia]. intros Heq. apply (f_equal String.length) in Heq.
    rewrite !string_length_app in Heq. cbn [String.length] in Heq. lia.
Qed.

(** ** The routing table (utils.py) *)

Lemma parse_lines_global_stats (pre post : list string) (line : string)
    (in_routing_table : bool) (data : gmap string string) :
  strip line = "GLOBAL STATS"%string →
  parse_lines (pre ++ line :: post) in_routing_table data
  = parse_lines pre in_routing_table data.
Proof.
  intros Hline. revert in_routing_table data.
  induction pre as [|l pre IH]; intros b data.
  - cbn [app parse_lines]. rewrite Hline. done.
  - cbn [app parse_lines]. cbv zeta.
    destruct (decide (strip l = "ROUTING TABLE"%string)); [apply IH|].
    destruct (decide (strip l = "GLOBAL STATS"%string)); [done|].
    destruct (b && bool_decide (strip l ≠ EmptyString)); [|apply IH].
    destruct (split ","%char (strip l)) as [|? [|? ?]]; apply IH.
Qed.

(** X25. Nothing after the first line that reads GLOBAL STATS counts: the
    result is that of the lines before it, whether or not a routing table was
    open. *)
Theorem parse_routing_table_stops_at_global_stats (pre post : list string)
    (line : string) :
  strip line = "GLOBAL STATS"%string →
  parse_routing_table (pre ++ line :: post) = parse_routing_table pre.
Proof. intros Hline. by apply parse_lines_global_stats. Qed.

Lemma parse_routing_table_stops_at_global_stats_witness :
  strip (String.append "GLOBAL STATS" (String "010"%char EmptyString))
  = "GLOBAL STATS"%string ∧
  parse_routing_table
    (take 4 status_lines
     ++ String.append "GLOBAL STATS" (String "010"%char EmptyString) :: drop 5 status_lines)
  = parse_routing_table (take 4 status_lines).
Proof.
  split; [reflexivity|].
  exact (parse_routing_table_stops_at_global_stats (take 4 status_lines)
           (drop 5 status_lines)
           (String.append "GLOBAL STATS" (String "010"%char EmptyString)) eq_refl).
Defined.

Lemma parse_lines_outside (pre rest : list string) (data : gmap string string) :
  Forall (λ line, strip line ≠ "ROUTING TABLE"%string
                  ∧ strip line ≠ "GLOBAL STATS"%string) pre →
  parse_lines (pre ++ rest) false data = parse_lines rest false data.
Proof.
  induction 1 as [|l pre [Hrt Hgs] _ IH]; [done|].
  cbn [app parse_lines]. cbv zeta.
  rewrite decide_False by done. rewrite decide_False by done. done.
Qed.

(** X26. The lines before the first line that reads ROUTING TABLE are
    ignored, as long as none of them reads GLOBAL STATS; a file with neither
    gives the empty table. *)
Theorem parse_routing_table_skips_preamble (pre rest : list string) :
  Forall (λ line, strip line ≠ "ROUTING TABLE"%string
                  ∧ strip line ≠ "GLOBAL STATS"%string) pre →
  parse_routing_table (pre ++ rest) = parse_routing_table rest
  ∧ parse_routing_table pre = ∅.
Proof.
  intros Hpre. split; [by apply parse_lines_outside|].
  rewrite <- (app_nil_r pre). unfold parse_routing_table.
  by rewrite parse_lines_outside.
Qed.

Lemma parse_routing_table_skips_preamble_witness :
  Forall (λ line, strip line ≠ "ROUTING TABLE"%string
                  ∧ strip line ≠ "GLOBAL STATS"%string) (take 1 status_lines) ∧
  parse_routing_table (take 1 status_lines ++ drop 1 status_lines)
  = parse_routing_table (drop 1 status_lines)
  ∧ parse_routing_table (take 1 status_lines) = ∅.
Proof.
  assert (Forall (λ line, strip line ≠ "ROUTING TABLE"%string
                          ∧ strip line ≠ "GLOBAL STATS"%string) (take 1 status_lines))
    as Hpre by (by repeat constructor).
  split; [exact Hpre|].
  exact (parse_routing_table_skips_preamble (take 1 status_lines) (drop 1 status_lines)
           Hpre).
Defined.

Lemma rstrip_cons (c : ascii) (s : string) :
  isspace c = false → rstrip (String c s) = String c (rstrip s).
Proof. intros Hc. cbn [rstrip]. rewrite Hc. by destruct (rstrip s). Qed.

Lemma plain_cons (c : ascii) (s : string) :
  plain (String c s) = true → isspace c = false ∧ c ≠ ","%char ∧ plain s = true.
Proof.
  cbn [plain]. intros [[Hc Hcomma]%andb_prop Hs]%andb_prop.
  apply negb_true_iff in Hc. apply negb_true_iff, bool_decide_eq_false in Hcomma.
  done.
Qed.

Lemma rstrip_plain (a s : string) : plain a = true → rstrip (a +:+ s) = a +:+ rstrip s.
Proof.
  induction a as [|c a IH]; [done|]. intros (Hc & _ & Ha)%plain_cons.
  change (rstrip (String c (a +:+ s)) = String c (a +:+ rstrip s)).
  by rewrite rstrip_cons, IH.
Qed.

Lemma lstrip_plain (a s : string) :
  a ≠ EmptyString → plain a = true → lstrip (a +:+ s) = a +:+ s.
Proof.
  destruct a as [|c a]; [done|]. intros _ (Hc & _ & _)%plain_cons.
  change (lstrip (String c (a +:+ s)) = String c (a +:+ s)). cbn [lstrip]. by rewrite Hc.
Qed.

Lemma strip_plain (a : string) : plain a = true → strip a = a.
Proof.
  intros Ha. unfold strip.
  assert (lstrip a = a) as ->.
  { destruct a as [|c a]; [done|]. apply plain_cons in Ha as (Hc & _ & _).
    cbn [lstrip]. by rewrite Hc. }
  rewrite <- (string_app_nil_r a) at 1. rewrite rstrip_plain by done.
  by rewrite string_app_nil_r.
Qed.

Lemma split_plain (a s : string) :
  plain a = true → split ","%char (a +:+ "," +:+ s) = a :: split ","%char s.
Proof.
  induction a as [|c a IH].
  - intros _. change (split ","%char (String ","%char s) = EmptyString :: split ","%char s).
    cbn [split]. by rewrite decide_True.
  - intros (_ & Hc & Ha)%plain_cons.
    change (split ","%char (String c (a +:+ "," +:+ s)) = String c a :: split ","%char s).
    cbn [split]. rewrite decide_False by done. by rewrite IH.
Qed.

Lemma has_comma_app (a s : string) : has_comma (a +:+ "," +:+ s) = true.
Proof.
  induction a as [|c a IH]; [done|].
  change (has_comma (String c (a +:+ "," +:+ s)) = true). cbn [has_comma].
  rewrite IH. apply orb_true_r.
Qed.

(** What the loop does with a line of the routing table. *)
Lemma parse_lines_entry (entry : string * string * string) (lines : list string)
    (data : gmap string string) :
  plain_entry entry →
  parse_lines (entry_line entry :: lines) true data
  = parse_lines lines true (assign_entries data [entry]).
Proof.
  destruct entry as [[a n] o]. intros (Ha & Hpa & Hn & Hpn).
  assert (strip (entry_line (a, n, o))
          = a +:+ "," +:+ n +:+ "," +:+ rstrip (o +:+ String "010"%char EmptyString))
    as Hstrip.
  { unfold strip, entry_line. rewrite lstrip_plain by done.
    rewrite rstrip_plain by done.
    change ("," +:+ n +:+ "," +:+ o +:+ String "010"%char EmptyString)%string
      with (String ","%char (n +:+ "," +:+ o +:+ String "010"%char EmptyString)).
    rewrite rstrip_cons by done. f_equal.
    change (String ","%char (n +:+ "," +:+ o +:+ String "010"%char EmptyString))
      with ("," +:+ n +:+ "," +:+ o +:+ String "010"%char EmptyString)%string.
    do 2 f_equal. rewrite rstrip_plain by done. f_equal.
    change ("," +:+ o +:+ String "010"%char EmptyString)%string
      with (String ","%char (o +:+ String "010"%char EmptyString)).
    by rewrite rstrip_cons. }
  cbn [parse_lines]. cbv zeta. rewrite Hstrip.
  rewrite decide_False.
  2: { intros Heq. apply (f_equal has_comma) in Heq. by rewrite has_comma_app in Heq. }
  rewrite decide_False.
  2: { intros Heq. apply (f_equal has_comma) in Heq. by rewrite has_comma_app in Heq. }
  rewrite bool_decide_eq_true_2 by (by destruct a). cbn [andb].
  rewrite split_plain, split_plain by done.
  by rewrite !strip_plain.
Qed.

Lemma assign_entries_app (data : gmap string string)
    (entries entries' : list (string * string * string)) :
  assign_entries data (entries ++ entries')
  = assign_entries (assign_entries data entries) entries'.
Proof. unfold assign_entries. by rewrite foldl_app. Qed.

Lemma parse_lines_entries (entries : list (string * string * string))
    (lines : list string) (data : gmap string string) :
  Forall plain_entry entries →
  parse_lines ((entry_line <$> entries) ++ lines) true data
  = parse_lines lines true (assign_entries data entries).
Proof.
  intros Hentries. revert data.
  induction Hentries as [|entry entries Hentry _ IH]; intros data; [done|].
  rewrite fmap_cons. cbn [app]. rewrite parse_lines_entry by done. by rewrite IH.
Qed.

Lemma assign_entries_lookup (entries : list (string * string * string))
    (name : string) :
  assign_entries ∅ entries !! name
  = last (omap (λ '(a, n, _), if decide (n = name) then Some a else None) entries).
Proof.
  induction entries as [|[[a n] o] entries IH] using rev_ind; [done|].
  rewrite assign_entries_app, omap_app.
  change (assign_entries (assign_entries ∅ entries) [(a, n, o)])
    with (<[n := a]> (assign_entries ∅ entries)).
  cbn [omap list_omap]. destruct (decide (n = name)) as [->|Hne].
  - rewrite lookup_insert_eq. by rewrite last_snoc.
  - rewrite lookup_insert_ne by done. by rewrite app_nil_r.
Qed.

(** X27. A routing table written between a ROUTING TABLE line and a
    GLOBAL STATS line, one entry a line (address, name and other fields
    separated by commas, address and name without white space), is read back:
    the result gives every name the address of the last line that has the
    name, and holds no other name. Lines before the table and after GLOBAL
    STATS are ignored. *)
Theorem parse_routing_table_entries (pre post : list string)
    (entries : list (string * string * string)) (name : string) :
  Forall (λ line, strip line ≠ "ROUTING TABLE"%string
                  ∧ strip line ≠ "GLOBAL STATS"%string) pre →
  Forall plain_entry entries →
  let lines :=
    pre ++ String.append "ROUTING TABLE" (String "010"%char EmptyString)
        :: (entry_line <$> entries)
        ++ String.append "GLOBAL STATS" (String "010"%char EmptyString) :: post in
  parse_routing_table lines = assign_entries ∅ entries
  ∧ parse_routing_table lines !! name
    = last (omap (λ '(a, n, _), if decide (n = name) then Some a else None) entries).
Proof.
  intros Hpre Hentries lines.
  assert (parse_routing_table lines = assign_entries ∅ entries) as Hparse.
  { unfold lines, parse_routing_table. rewrite parse_lines_outside by done.
    change (parse_lines ((entry_line <$> entries)
                         ++ String.append "GLOBAL STATS" (String "010"%char EmptyString)
                            :: post) true ∅ = assign_entries ∅ entries).
    rewrite parse_lines_global_stats by done.
    rewrite <- (app_nil_r (entry_line <$> entries)).
    by rewrite parse_lines_entries. }
  split; [done|]. rewrite Hparse. apply assign_entries_lookup.
Qed.

Lemma parse_routing_table_entries_witness :
  (Forall (λ line, strip line ≠ "ROUTING TABLE"%string
                   ∧ strip line ≠ "GLOBAL STATS"%string) (take 1 status_lines)
   ∧ Forall plain_entry
       [("10.8.0.2", "CDB001", "1.2.3.4:5000,Thu Jun 18 04:23:03 2024");
        ("10.8.0.3", "ECH002", "1.2.3.5:5000,Thu Jun 18 04:23:04 2024")]%string) ∧
  let entries :=
    [("10.8.0.2", "CDB001", "1.2.3.4:5000,Thu Jun 18 04:23:03 2024");
     ("10.8.0.3", "ECH002", "1.2.3.5:5000,Thu Jun 18 04:23:04 2024")]%string in
  let lines :=
    take 1 status_lines
    ++ String.append "ROUTING TABLE" (String "010"%char EmptyString)
       :: (entry_line <$> entries)
       ++ String.append "GLOBAL STATS" (String "010"%char EmptyString)
          :: drop 5 status_lines in
  parse_routing_table lines = assign_entries ∅ entries
  ∧ parse_routing_table lines !! "ECH002"%string
    = last (omap (λ '(a, n, _), if decide (n = "ECH002"%string) then Some a else None)
              entries).
Proof.
  assert (Forall (λ line, strip line ≠ "ROUTING TABLE"%string
                          ∧ strip line ≠ "GLOBAL STATS"%string) (take 1 status_lines))
    as Hpre by (by repeat constructor).
  assert (Forall plain_entry
            [("10.8.0.2", "CDB001", "1.2.3.4:5000,Thu Jun 18 04:23:03 2024");
             ("10.8.0.3", "ECH002", "1.2.3.5:5000,Thu Jun 18 04:23:04 2024")]%string)
    as Hentries by (by repeat constructor).
  split; [by split|].
  exact (parse_routing_table_entries (take 1 status_lines) (drop 5 status_lines) _
           "ECH002" Hpre Hentries).
Defined.

(** ** Passes of several sites (sync_homewizard.py) *)

Section Parallel.
Context {F : Type} `{Float F}.

(** Whether the loop over the days returns does not depend on the state it
    starts from. *)
Lemma for_each_sync_date_ok (sftp : remote F) (home_id : string)
    (has_pv classic_sync : bool) (dates : list Z) (st st' : state F) :
  (for_each dates (sync_date sftp home_id has_pv classic_sync) st).1 = Ok tt →
  (for_each dates (sync_date sftp home_id has_pv classic_sync) st').1 = Ok tt.
Proof.
  intros Hr.
  destruct (for_each_sync_date sftp home_id has_pv classic_sync dates st) as (Hok & _).
  destruct (for_each_sync_date sftp home_id has_pv classic_sync dates st') as (Hok' & _).
  cbv zeta in *. apply Hok', Hok, Hr.
Qed.

(** What a pass does to the watermark table does not depend on the state it
    starts from: it leaves the table, or it writes one value to the row of
    its site. *)
Lemma sync_dates_table (sftp : remote F) (home_id : string) (has_pv : bool)
    (last_ts : option Z) (start_date end_date : Z) (classic_sync : bool) :
  ∃ o : option Z, ∀ st : state F,
    last_ts_table (sync_dates sftp home_id has_pv last_ts start_date end_date
                     classic_sync st).2
    = match o with
      | Some v => <[home_id := v]> (last_ts_table st)
      | None => last_ts_table st
      end.
Proof.
  destruct last_ts as [last|].
  - destruct ((for_each (date_range start_date end_date ns_per_day)
                 (sync_date sftp home_id has_pv classic_sync) (mkState [] ∅)).1)
      as [[]|e] eqn:Hloop.
    + destruct (last <? end_date) eqn:Hlt.
      * exists (Some (floor_s end_date)). intros st.
        destruct (sync_dates_run sftp home_id has_pv last start_date end_date
                    classic_sync st) as [_ ->].
        rewrite (for_each_sync_date_ok _ _ _ _ _ _ st Hloop).
        by rewrite Hlt.
      * exists None. intros st.
        destruct (sync_dates_run sftp home_id has_pv last start_date end_date
                    classic_sync st) as [_ ->].
        rewrite (for_each_sync_date_ok _ _ _ _ _ _ st Hloop).
        by rewrite Hlt.
    + exists None. intros st.
      destruct (sync_dates_run sftp home_id has_pv last start_date end_date
                  classic_sync st) as [_ ->].
      destruct ((for_each (date_range start_date end_date ns_per_day)
                   (sync_date sftp home_id has_pv classic_sync) st).1)
        as [[]|e'] eqn:Hloop'; [|done].
      rewrite (for_each_sync_date_ok _ _ _ _ _ _ (mkState [] ∅) Hloop') in Hloop.
      done.
  - exists None. intros st. unfold sync_dates, bind.
    destruct (for_each_sync_date sftp home_id has_pv classic_sync
                (date_range start_date end_date ns_per_day) st) as (_ & _ & Htbl & _).
    cbv zeta in Htbl.
    destruct (for_each _ _ st) as [[[]|e] st1]; cbn [fst snd] in *; [|done].
    by rewrite check_last_ts_none.
Qed.

Lemma process_home_table (home_id : string) (has_pv : bool) (hostname : option string)
    (connection : result (remote F)) (all_days : bool) (start_date end_date : option Z)
    (last_ts : option Z) (now : Z) :
  ∃ o : option Z, ∀ st : state F,
    last_ts_table (process_home home_id has_pv hostname connection all_days start_date
                     end_date last_ts now st).2
    = match o with
      | Some v => <[home_id := v]> (last_ts_table st)
      | None => last_ts_table st
      end.
Proof.
  unfold process_home. destruct hostname as [[|c host]|]; [by exists None| |by exists None].
  unfold bind, lift. destruct connection as [sftp|e]; [|by exists None].
  destruct all_days.
  { unfold sync_all_days. destruct (get_available_dates sftp) as [|d ds];
      [by exists None|apply sync_dates_table]. }
  destruct start_date as [s|]; [apply sync_dates_table|].
  destruct end_date as [e|]; [apply sync_dates_table|].
  destruct last_ts as [last|]; [apply sync_dates_table|by exists None].
Qed.
End Parallel.

(** X28. The passes of two different sites commute on the watermark table:
    whichever runs first, the table is the same after both. A pass reads no
    row but its site's and writes no other. *)
Theorem passes_of_two_sites_commute {F : Type} `{Float F} (st : state F)
    (home_id1 home_id2 : string) (has_pv1 has_pv2 : bool)
    (hostname1 hostname2 : option string) (connection1 connection2 : result (remote F))
    (all_days : bool) (start_date end_date : option Z) (now : Z) :
  home_id1 ≠ home_id2 →
  let pass1 :=
    sync_home home_id1 has_pv1 hostname1 connection1 all_days start_date end_date now in
  let pass2 :=
    sync_home home_id2 has_pv2 hostname2 connection2 all_days start_date end_date now in
  last_ts_table (pass2 (pass1 st).2).2 = last_ts_table (pass1 (pass2 st).2).2.
Proof.
  intros Hne pass1 pass2.
  assert (watermark (pass1 st).2 home_id2 = watermark st home_id2) as Hw2.
  { unfold watermark, pass1.
    destruct (sync_home_advances st home_id1 has_pv1 hostname1 connection1 all_days
                start_date end_date now) as [->|(new_ts & _ & ->)]; [done|].
    by rewrite lookup_insert_ne. }
  assert (watermark (pass2 st).2 home_id1 = watermark st home_id1) as Hw1.
  { unfold watermark, pass2.
    destruct (sync_home_advances st home_id2 has_pv2 hostname2 connection2 all_days
                start_date end_date now) as [->|(new_ts & _ & ->)]; [done|].
    by rewrite lookup_insert_ne. }
  destruct (process_home_table home_id1 has_pv1 hostname1 connection1 all_days start_date
              end_date (Some (watermark st home_id1)) now) as [o1 Ho1].
  destruct (process_home_table home_id2 has_pv2 hostname2 connection2 all_days start_date
              end_date (Some (watermark st home_id2)) now) as [o2 Ho2].
  unfold pass1, pass2, sync_home in *. rewrite Hw1, Hw2.
  repeat (rewrite Ho1 || rewrite Ho2).
  destruct o1 as [v1|], o2 as [v2|]; try done. by apply insert_insert_ne.
Qed.

Lemma passes_of_two_sites_commute_witness :
  "site"%string ≠ "other"%string ∧
  let pass1 :=
    sync_home "site" false (Some "10.8.0.2"%string) (Ok site_empty_day) false (Some 0)
      (Some (seconds 10)) (seconds 20) in
  let pass2 :=
    sync_home "other" false (Some "10.8.0.3"%string) (Ok site_no_file) false (Some 0)
      (Some (seconds 10)) (seconds 20) in
  last_ts_table (pass2 (pass1 empty_store).2).2
  = last_ts_table (pass1 (pass2 empty_store).2).2.
Proof.
  assert ("site"%string ≠ "other"%string) as Hne by done.
  split; [exact Hne|].
  exact (passes_of_two_sites_commute empty_store "site" "other" false false
           (Some "10.8.0.2"%string) (Some "10.8.0.3"%string) (Ok site_empty_day)
           (Ok site_no_file) false (Some 0) (Some (seconds 10)) (seconds 20) Hne).
Defined.

(** ** The command line (sync_homewizard.py) *)

(** X29. Whatever the command line, no pass of a site that has a host name,
    not the empty one, runs in the incremental mode: [--all] gives the full
    resync, [--start] the range from the given date to the time the parser
    was built, [--end] the range from that time to the given date, all
    without the row filter; with [--end] and a date in the past no day is
    visited and the watermark alone is compared. *)
Theorem command_line_never_incremental {F : Type} `{Float F} (cl : command_line)
    (parser_time : Z) (home_id : string) (has_pv : bool) (hostname : string)
    (sftp : remote F) (now : Z) (st : state F) :
  hostname ≠ EmptyString →
  let last_ts := Some (watermark st home_id) in
  sync_homewizard_main cl parser_time home_id has_pv (Some hostname) (Ok sftp) now st
  = match cl with
    | OptAll => sync_all_days sftp home_id has_pv last_ts st
    | OptStart start =>
        sync_dates sftp home_id has_pv last_ts start parser_time false st
    | OptEnd end_ =>
        if decide (end_ < parser_time) then check_last_ts home_id end_ last_ts st
        else sync_dates sftp home_id has_pv last_ts parser_time end_ false st
    end.
Proof.
  intros Hhost. cbv zeta. destruct hostname as [|c host]; [done|].
  destruct cl as [|start|end_]; try done.
  destruct (decide (end_ < parser_time)) as [Hlt|Hge]; [|done].
  unfold sync_homewizard_main, get_arguments, sync_home, process_home, bind, lift.
  cbn [default]. unfold sync_dates. by rewrite date_range_nil.
Qed.

(** X29 for [--end 1970-01-01] given at second 20, on the site with no
    file: no file is looked for, and [OLDEST_TS], the watermark of a site
    without row, is compared with the date. *)
Lemma command_line_never_incremental_witness :
  "10.8.0.2"%string ≠ EmptyString ∧
  sync_homewizard_main (OptEnd 0) (seconds 20) "site" false (Some "10.8.0.2"%string)
    (Ok site_no_file) (seconds 20) empty_store
  = check_last_ts "site" 0 (Some (watermark empty_store "site")) empty_store.
Proof.
  assert ("10.8.0.2"%string ≠ EmptyString) as Hhost by done.
  split; [exact Hhost|].
  exact (command_line_never_incremental (OptEnd 0) (seconds 20) "site" false "10.8.0.2"
           site_no_file (seconds 20) empty_store Hhost).
Defined.

(** ** The access table (sync_homewizard.py) *)

(** X30. On an empty access table and a configuration of at least one user,
    [check_access_table] raises [UnboundLocalError] while it renders the
    first user's row (the [has_pv] cell is neither a string nor a list) and
    executes nothing: the table is not filled. *)
Theorem check_access_table_raises {F : Type} (hashpw : string → string)
    (row : user_config) (xlsx : list user_config) (st : state F) :
  check_access_table true hashpw (row :: xlsx) st = (Raise UnboundLocalError, st)
  ∧ check_access_table false hashpw (row :: xlsx) st = (Ok tt, st)
  ∧ check_access_table true hashpw [] st = (Ok tt, st).
Proof. by destruct row. Qed.
